(** * add_revision.py: registering revisions and errata of Anthology papers

    A shallow embedding of [bin/add_revision.py].  The script is a straight
    line of file, network and XML operations; it is modelled as a state and
    error monad over an explicit world (regular files, directories and the
    two output streams).  Library calls whose result cannot be computed from
    the script's text (content sniffing, hashing, the network, the XML
    parser and printer) are fields of an environment record. *)

From stdpp Require Import gmap strings list fin_maps.
From Stdlib Require Import ZArith Lia DecimalString DecimalPos Ascii String.

Open Scope string_scope.
Open Scope Z_scope.

#[global] Instance byte_eq_decision : EqDecision Byte.byte := Byte.byte_eq_dec.

(** ** Python strings *)

Module Py.

(** A string of the model is a Python [str] all of whose characters are code
    points below 256; a character of the model is one such code point. *)

(** [s.startswith(p)] and [s.endswith(p)] *)
Definition startswith (s p : string) : bool := String.prefix p s.

Fixpoint rev_string (s acc : string) : string :=
  match s with
  | EmptyString => acc
  | String c s' => rev_string s' (String c acc)
  end.

Definition endswith (s p : string) : bool :=
  String.prefix (rev_string p "") (rev_string s "").

(** [s.split(sep)] for a one-character separator: the pieces between the
    occurrences of [sep], never an empty list. *)
Fixpoint split_aux (sep : ascii) (s cur : string) : list string :=
  match s with
  | EmptyString => [rev_string cur ""]
  | String c s' =>
      if Ascii.eqb c sep then rev_string cur "" :: split_aux sep s' ""
      else split_aux sep s' (String c cur)
  end.

Definition split (s : string) (sep : ascii) : list string := split_aux sep s "".

(** [s[0]], an IndexError (here [None]) on the empty string *)
Definition first_char (s : string) : option string :=
  match s with
  | EmptyString => None
  | String c _ => Some (String c EmptyString)
  end.

Definition contains (c : ascii) (s : string) : bool :=
  existsb (Ascii.eqb c) (list_ascii_of_string s).

(** [str(n)] for an integer *)
Definition str (n : Z) : string := NilZero.string_of_int (Z.to_int n).

(** [int(s)] in base ten: surrounding white space is dropped, one sign is
    allowed, and single underscores may separate digits.  [None] stands for
    the ValueError.  Below 256 the white space of Python is the characters
    9 to 13, 28 to 32, 133 and 160, and the decimal digits are the ASCII
    ones. *)
Definition is_space (c : ascii) : bool :=
  let n := nat_of_ascii c in
  ((9 <=? n)%nat && (n <=? 13)%nat) || ((28 <=? n)%nat && (n <=? 32)%nat)
  || (n =? 133)%nat || (n =? 160)%nat.

Definition digit_of (c : ascii) : option Z :=
  let n := nat_of_ascii c in
  if ((48 <=? n)%nat && (n <=? 57)%nat) then Some (Z.of_nat n - 48) else None.

Fixpoint lstrip (s : string) : string :=
  match s with
  | String c s' => if is_space c then lstrip s' else s
  | EmptyString => s
  end.

Definition strip (s : string) : string :=
  rev_string (lstrip (rev_string (lstrip s) "")) "".

Fixpoint digits (acc : Z) (after_underscore : bool) (s : string) : option Z :=
  match s with
  | EmptyString => if after_underscore then None else Some acc
  | String c s' =>
      match digit_of c with
      | Some d => digits (acc * 10 + d) false s'
      | None =>
          if Ascii.eqb c "_" then
            if after_underscore then None else digits acc true s'
          else None
      end
  end.

Definition unsigned (s : string) : option Z :=
  match s with
  | EmptyString => None
  | String c _ => match digit_of c with Some _ => digits 0 false s | None => None end
  end.

Definition int (s : string) : option Z :=
  match strip s with
  | String "-" s' => Z.opp <$> unsigned s'
  | String "+" s' => unsigned s'
  | s' => unsigned s'
  end.

End Py.

(** ** [os.path] on POSIX *)

Module OsPath.

Definition join2 (path b : string) : string :=
  if Py.startswith b "/" then b
  else if String.eqb path "" || Py.endswith path "/" then path ++ b
  else path ++ "/" ++ b.

(** [os.path.join(a, *p)] *)
Definition join (a : string) (p : list string) : string := fold_left join2 p a.

(** The text after the last slash, and the text up to and including it. *)
Fixpoint tail_after_slash (s cur : string) : string :=
  match s with
  | EmptyString => Py.rev_string cur ""
  | String c s' =>
      if Ascii.eqb c "/" then tail_after_slash s' "" else tail_after_slash s' (String c cur)
  end.

Definition basename (p : string) : string := tail_after_slash p "".

Fixpoint rstrip_slash_rev (r : string) : string :=
  match r with
  | String c r' => if Ascii.eqb c "/" then rstrip_slash_rev r' else r
  | EmptyString => r
  end.

(** [os.path.dirname(p)]: the head up to the last slash, with trailing
    slashes removed unless the head is made of slashes only. *)
Definition dirname (p : string) : string :=
  let head := String.substring 0 (String.length p - String.length (basename p)) p in
  match rstrip_slash_rev (Py.rev_string head "") with
  | EmptyString => head
  | r => Py.rev_string r ""
  end.

(** The directories above [p], outermost first: the prefixes of [p] that end
    before a slash, but for the empty prefix and those that end in a slash
    themselves.  The root is not among them. *)
Fixpoint ancestors_from (s cur : string) : list string :=
  match s with
  | EmptyString => []
  | String c s' =>
      (if Ascii.eqb c "/" then
         match cur with
         | String d _ => if Ascii.eqb d "/" then [] else [Py.rev_string cur ""]
         | EmptyString => []
         end
       else []) ++ ancestors_from s' (String c cur)
  end.

Definition ancestors (p : string) : list string := ancestors_from p "".

End OsPath.

(** ** XML elements

    Only what the script looks at: tag, attributes in document order, text
    and children.  Tails, comments and processing instructions play no part
    in it. *)

#[warnings="-register-all"]
Inductive Element : Type :=
  Elem { tag : string;
         attrib : list (string * string);
         text : option string;
         children : list Element }.

Module Xml.

(** [el.attrib[k]] and [el.attrib[k] = v]; attributes keep their order and a
    new key goes last. *)
Fixpoint get (k : string) (a : list (string * string)) : option string :=
  match a with
  | [] => None
  | (k', v) :: a' => if String.eqb k k' then Some v else get k a'
  end.

Fixpoint set (k v : string) (a : list (string * string)) : list (string * string) :=
  match a with
  | [] => [(k, v)]
  | (k', v') :: a' => if String.eqb k k' then (k, v) :: a' else (k', v') :: set k v a'
  end.

Definition set_attrib (k v : string) (e : Element) : Element :=
  Elem (tag e) (set k v (attrib e)) (text e) (children e).

Definition set_children (cs : list Element) (e : Element) : Element :=
  Elem (tag e) (attrib e) (text e) cs.

Definition has_tag (t : string) (e : Element) : bool := String.eqb (tag e) t.

(** [el.findall(t)] and [el.find("./" + t)] for a plain tag name *)
Definition findall (t : string) (e : Element) : list Element :=
  filter (fun c => has_tag t c = true) (children e).

Fixpoint find_index {A} (p : A -> bool) (l : list A) : option nat :=
  match l with
  | [] => None
  | x :: l' => if p x then Some 0%nat else S <$> find_index p l'
  end.

Definition find_child (t : string) (e : Element) : option nat :=
  find_index (has_tag t) (children e).

(** The predicate [t[@id='i']] of ElementPath *)
Definition has_id (t i : string) (e : Element) : bool :=
  has_tag t e && bool_decide (get "id" (attrib e) = Some i).

(** [root.find("./volume[@id='V']/paper[@id='P']")]: the first paper, in
    document order, below any matching volume; as the position of the
    volume below the root and of the paper below the volume. *)
Fixpoint locate_from (volume_id paper_id : string) (vs : list Element) (i : nat)
  : option (nat * nat) :=
  match vs with
  | [] => None
  | v :: vs' =>
      match (if has_id "volume" volume_id v
             then find_index (has_id "paper" paper_id) (children v) else None) with
      | Some j => Some (i, j)
      | None => locate_from volume_id paper_id vs' (S i)
      end
  end.

Definition locate (volume_id paper_id : string) (root : Element) : option (nat * nat) :=
  locate_from volume_id paper_id (children root) 0.

Definition paper_at (root : Element) (pos : nat * nat) : option Element :=
  v ← children root !! pos.1; children v !! pos.2.

(** The tree after the paper at [pos] has been mutated into [paper] *)
Definition put_paper (root : Element) (pos : nat * nat) (paper : Element) : Element :=
  match children root !! pos.1 with
  | Some v =>
      set_children
        (<[pos.1 := set_children (<[pos.2 := paper]> (children v)) v]> (children root)) root
  | None => root
  end.

End Xml.

(** Modelled from the spec: [make_simple_element] is defined in
    [anthology/utils.py], which is not among the sources at hand.  Following
    section 4.4 it appends, as the last child of [parent], a new node with the
    given tag, the given text if any, and the attributes in the order of the
    dictionary.  The result is the new node and the parent after the call. *)
Definition make_simple_element (tag_ : string) (text_ : option string)
    (attrib_ : list (string * string)) (parent : Element) : Element * Element :=
  let el := Elem tag_ (fold_left (fun a kv => Xml.set kv.1 kv.2 a) attrib_ []) text_ [] in
  (el, Xml.set_children (children parent ++ [el]) parent).

(** ** The world of a run *)

Inductive Stream := Stdout | Stderr.

Record File := mkFile { content : list Byte.byte; mode : N }.

(** Files and directories are kept by the spelling of their path.  The
    world stands for a disk on which the paths in play are one spelling per
    file; where a property depends on two paths being different files, it
    says so with [file_id] below. *)
Record World := mkWorld {
  files : gmap string File;        (* regular files, by path *)
  dirs : gset string;              (* directories, by path *)
  output : list (Stream * string)  (* lines printed so far, oldest first *)
}.

Inductive Exn :=
  | NameError | KeyError | ValueError | IndexError | SyntaxError
  | FileNotFoundError | FileExistsError | NotADirectoryError | SameFileError | OSError
  | URLError | XMLSyntaxError.

(** How a computation ends: with a value, through [sys.exit], or with an
    exception that nothing handles. *)
Inductive Outcome (A : Type) : Type :=
  | Ret (a : A)
  | Exit (code : Z)
  | Raise (e : Exn).
Arguments Ret {A} a.
Arguments Exit {A} code.
Arguments Raise {A} e.

Definition M (A : Type) : Type := World -> Outcome A * World.

Definition ret {A} (a : A) : M A := fun w => (Ret a, w).

Definition bind {A B} (m : M A) (k : A -> M B) : M B :=
  fun w =>
    match m w with
    | (Ret a, w') => k a w'
    | (Exit c, w') => (Exit c, w')
    | (Raise e, w') => (Raise e, w')
    end.

Declare Scope prog_scope.
Delimit Scope prog_scope with prog.
Notation "x <- m ;; k" := (bind m (fun x => k))
  (at level 100, m at next level, right associativity) : prog_scope.
Notation "m ;; k" := (bind m (fun _ => k))
  (at level 100, right associativity) : prog_scope.
Open Scope prog_scope.

Definition sys_exit {A} (code : Z) : M A := fun w => (Exit code, w).
Definition raise {A} (e : Exn) : M A := fun w => (Raise e, w).

Definition print (s : Stream) (line : string) : M unit :=
  fun w => (Ret tt, mkWorld (files w) (dirs w) (output w ++ [(s, line)])).

Definition get_world : M World := fun w => (Ret w, w).

Definition set_files (f : gmap string File) : M unit :=
  fun w => (Ret tt, mkWorld f (dirs w) (output w)).

Definition set_dirs (d : gset string) : M unit :=
  fun w => (Ret tt, mkWorld (files w) d (output w)).

(** A value that may be missing, with the exception its absence raises *)
Definition expect {A} (e : Exn) (o : option A) : M A :=
  match o with Some a => ret a | None => raise e end.

(** ** The environment: what the script calls and does not define

    [filetype.guess] sniffs the leading bytes of a file and answers with a
    type, of which the script reads the fields [mime] and [extension].
    [compute_hash], [infer_url], [deconstruct_anthology_id], [is_newstyle_id]
    and [indent] come from [anthology/utils.py]; [deconstruct_anthology_id]
    answers [None] where it raises on a malformed identifier. *)

Inductive Fetched :=
  | Body (b : list Byte.byte)   (* the bytes behind the URL *)
  | SSLError                    (* ssl.SSLError *)
  | Failed (e : Exn).           (* any other exception of urlopen *)

Record Env := mkEnv {
  filetype_guess : list Byte.byte -> option (string * string);
  compute_hash : list Byte.byte -> string;
  infer_url : option string -> string;
  deconstruct_anthology_id : string -> option (string * string * string);
  is_newstyle_id : string -> bool;
  indent : Element -> Element;
  xml_parse : list Byte.byte -> option Element;
  xml_write : Element -> list Byte.byte;
  urlopen : string -> Fetched;
  mkstemp_path : string;         (* the name tempfile.mkstemp picks *)
  file_id : string -> string;    (* the file a path denotes, as os.path.samefile
                                    tells files apart: a name for device and inode *)
  argparse_text : list string -> string;
                                 (* what argparse writes for a command line that it
                                    answers itself: the help, or usage and error *)
  argv0 : string;                (* sys.argv[0] *)
  HOME : option string;          (* os.environ["HOME"] *)
  today : string;                (* "%Y-%m-%d" of datetime.now() *)
  creation_mode : N              (* 0o666 masked by the umask *)
}.

(** The namespace argparse hands to [main] *)
Record Args := mkArgs {
  anthology_id : string;
  path : string;
  explanation : string;
  erratum : bool;
  date : string;
  dry_run : bool;
  anthology_dir : string
}.

(** The permission bits 0o600 and 0o644 *)
Definition mode_0600 : N := 384.
Definition mode_0644 : N := 420.

Section Script.

Context (env : Env).

(** *** Files *)

(** [open(p, "rb").read()] *)
Definition read_file (p : string) : M (list Byte.byte) :=
  w <- get_world ;;
  f <- expect FileNotFoundError (files w !! p) ;;
  ret (content f).

(** [open(p, "wb").write(b)]: a new file gets the creation mode, an old one
    keeps its own.  The parent of [p] is taken to exist. *)
Definition write_file (p : string) (b : list Byte.byte) : M unit :=
  w <- get_world ;;
  set_files (<[p := mkFile b (default (creation_mode env) (mode <$> files w !! p))]> (files w)).

(** [tempfile.mkstemp()]: an empty file only its owner may read and write *)
Definition mkstemp : M string :=
  w <- get_world ;;
  set_files (<[mkstemp_path env := mkFile [] mode_0600]> (files w)) ;;
  ret (mkstemp_path env).

Definition os_path_exists (w : World) (p : string) : bool :=
  bool_decide (is_Some (files w !! p)) || bool_decide (p ∈ dirs w).

(** [os.makedirs(p)]: afterwards [p] and every path above it is a
    directory.  The call fails when something exists under the name [p], and
    when a path above [p] is a regular file. *)
Definition os_makedirs (p : string) : M unit :=
  w <- get_world ;;
  if os_path_exists w p then raise FileExistsError
  else if existsb (fun d => bool_decide (is_Some (files w !! d))) (OsPath.ancestors p)
  then raise NotADirectoryError
  else set_dirs (list_to_set (p :: OsPath.ancestors p) ∪ dirs w).

(** [os.remove(p)] *)
Definition os_remove (p : string) : M unit :=
  w <- get_world ;;
  _ <- expect FileNotFoundError (files w !! p) ;;
  set_files (delete p (files w)).

(** [os.chmod(p, m)]; directories carry no mode here *)
Definition os_chmod (p : string) (m : N) : M unit :=
  w <- get_world ;;
  match files w !! p with
  | Some f => set_files (<[p := mkFile (content f) m]> (files w))
  | None => if bool_decide (p ∈ dirs w) then ret tt else raise FileNotFoundError
  end.

(** [shutil.copy(src, dst)]: into [dst] when it is a directory, refusing to
    copy a file onto itself; bytes and mode bits are copied. *)
Definition shutil_copy (src dst : string) : M unit :=
  w <- get_world ;;
  let dst := if bool_decide (dst ∈ dirs w) then OsPath.join dst [OsPath.basename src] else dst in
  if bool_decide (src = dst) then raise SameFileError
  else
    f <- expect FileNotFoundError (files w !! src) ;;
    set_files (<[dst := f]> (files w)).

(** *** The two helpers of the script *)

(** Lines 62-71.  [who] is [args.anthology_id], which the function reads
    from the module-level namespace. *)
Definition validate_file_type (who : string) (p : string) : M unit :=
  b <- read_file p ;;
  match filetype_guess env b with
  | Some (mime, extension) =>
      if Py.endswith mime extension then ret tt
      else
        print Stderr ("FATAL: " ++ who ++ " file " ++ p ++ " has MIME type " ++ mime) ;;
        sys_exit 1
  | None =>
      print Stderr ("FATAL: " ++ who ++ " file " ++ p ++ " has MIME type UNKNOWN") ;;
      sys_exit 1
  end.

(** Lines 74-87.  The URL is opened before the destination is; of the
    exceptions of [urlopen] only [ssl.SSLError] is caught. *)
Definition download_file (source dest : string) : M unit :=
  print Stderr ("-> Downloading file from " ++ source ++ " to " ++ dest) ;;
  match urlopen env source with
  | Body b => write_file dest b
  | SSLError =>
      print Stderr ("-> FATAL: An SSL error was encountered in downloading " ++ source ++ ".") ;;
      sys_exit 1
  | Failed e => raise e
  end.

(** *** [main], lines 90-226 *)

Section Main.

Context (args : Args).

Definition change_type : string := if erratum args then "erratum" else "revision".
Definition change_letter : string := if erratum args then "e" else "v".

(** Lines 91-100 *)
Definition maybe_copy (file_from file_to : string) : M unit :=
  if negb (dry_run args) then
    print Stderr ("-> Copying from " ++ file_from ++ " -> " ++ file_to) ;;
    shutil_copy file_from file_to ;;
    os_chmod file_to mode_0644
  else
    print Stderr ("-> DRY RUN: Copying from " ++ file_from ++ " -> " ++ file_to).

Definition is_remote : bool := Py.startswith (path args) "http".

(** Lines 108-112 *)
Definition resolve_input : M string :=
  if is_remote then
    input_file_path <- mkstemp ;;
    download_file (path args) input_file_path ;;
    ret input_file_path
  else ret (path args).

(** Lines 127-133; the two subscripts raise IndexError. *)
Definition select_output_dir (collection_id : string) : M string :=
  if is_newstyle_id env (anthology_id args) then
    venue_name <- expect IndexError (Py.split collection_id "." !! 1%nat) ;;
    ret (OsPath.join (anthology_dir args) ["pdf"; venue_name])
  else
    letter <- expect IndexError (Py.first_char collection_id) ;;
    ret (OsPath.join (anthology_dir args) ["pdf"; letter; collection_id]).

(** Lines 136-138 *)
Definition ensure_directory (output_dir : string) : M unit :=
  w <- get_world ;;
  if negb (os_path_exists w output_dir) then
    print Stderr ("-> Creating directory " ++ output_dir) ;;
    os_makedirs output_dir
  else ret tt.

Definition canonical_path (output_dir : string) : string :=
  OsPath.join output_dir [anthology_id args ++ ".pdf"].

Definition xml_file (collection_id : string) : string :=
  OsPath.join (OsPath.dirname (argv0 env)) [".."; "data"; "xml"; collection_id ++ ".xml"].

Definition versioned_path (output_dir : string) (n : string) : string :=
  OsPath.join output_dir [anthology_id args ++ change_letter ++ n ++ ".pdf"].

(** Line 146 *)
Definition et_parse (file : string) : M Element :=
  w <- get_world ;;
  f <- expect OSError (files w !! file) ;;
  expect XMLSyntaxError (xml_parse env (content f)).

(** Line 147; a quote inside an identifier breaks the path expression. *)
Definition find_paper (root : Element) (volume_id paper_id : string)
  : M (option (nat * nat)) :=
  if Py.contains "'" volume_id || Py.contains "'" paper_id then raise SyntaxError
  else ret (Xml.locate volume_id paper_id root).

(** Lines 150-152: every revision node met overwrites [revno]. *)
Fixpoint scan_revno (revno : Z) (revisions : list Element) : M Z :=
  match revisions with
  | [] => ret revno
  | revision :: rest =>
      id <- expect KeyError (Xml.get "id" (attrib revision)) ;;
      n <- expect ValueError (Py.int id) ;;
      scan_revno (n + 1) rest
  end.

Definition initial_revno : Z := if erratum args then 1 else 2.

(** Lines 156-158 *)
Definition update_url_hash (checksum : string) (paper : Element) : Element :=
  match Xml.find_child "url" paper with
  | Some i =>
      Xml.set_children
        (list_alter (Xml.set_attrib "hash" checksum) i (children paper)) paper
  | None => paper
  end.

Definition url_child (paper : Element) : option Element :=
  i ← Xml.find_child "url" paper; children paper !! i.

(** Lines 160-187: the original file becomes revision 1.  The name
    [current_version_url] is bound only below the test of line 161. *)
Definition bootstrap (output_dir : string) (paper : Element) : M Element :=
  let current_version_url :=
    (fun url => infer_url env (text url) ++ ".pdf") <$> url_child paper in
  let revised_file_v1_path := versioned_path output_dir "1" in
  source <- expect NameError current_version_url ;;
  download_file source revised_file_v1_path ;;
  validate_file_type (anthology_id args) revised_file_v1_path ;;
  b <- read_file revised_file_v1_path ;;
  let old_checksum := compute_hash env b in
  ret (make_simple_element change_type None
         [("id", "1");
          ("href", anthology_id args ++ change_letter ++ "1");
          ("hash", old_checksum)] paper).2.

(** Lines 189-199 *)
Definition new_entry (checksum : string) (revno : Z) (paper : Element)
  : Element * Element :=
  make_simple_element change_type (Some (explanation args))
    [("id", Py.str revno);
     ("href", anthology_id args ++ change_letter ++ Py.str revno);
     ("hash", checksum);
     ("date", date args)] paper.

(** Lines 154-199: what a committing run does to the paper node *)
Definition update_paper (output_dir checksum : string) (revno : Z) (paper : Element)
  : M (Element * Element) :=
  let paper := update_url_hash checksum paper in
  paper <- (if negb (erratum args) && (revno =? 2) then bootstrap output_dir paper
            else ret paper) ;;
  ret (new_entry checksum revno paper).

Definition quote : string := String "034"%char "".

(** Lines 148-212 *)
Definition update_xml (output_dir checksum : string)
    (collection_id volume_id paper_id : string) : M Z :=
  root <- et_parse (xml_file collection_id) ;;
  pos <- find_paper root volume_id paper_id ;;
  match pos ≫= (fun pos => pair pos <$> Xml.paper_at root pos) with
  | Some (pos, paper) =>
      revno <- scan_revno initial_revno (Xml.findall change_type paper) ;;
      (if negb (dry_run args) then
         updated <- update_paper output_dir checksum revno paper ;;
         let revision := updated.1 in
         let root := indent env (Xml.put_paper root pos updated.2) in
         write_file (xml_file collection_id) (xml_write env root) ;;
         print Stderr ("-> Added " ++ change_type ++ " node " ++ quote
                       ++ default "None" (text revision) ++ quote ++ " to XML")
       else ret tt) ;;
      ret revno
  | None =>
      print Stderr ("-> FATAL: paper ID " ++ anthology_id args
                    ++ " not found in the Anthology") ;;
      sys_exit 1
  end.

(** What lines 105-140 establish before the record is opened *)
Record Prepared := mkPrepared {
  input_file_path : string;
  collection_id : string;
  volume_id : string;
  paper_id : string;
  checksum : string;
  output_dir : string
}.

(** Lines 105-138.  [paper_extension], line 117, is never read. *)
Definition prepare : M Prepared :=
  print Stdout ("Processing " ++ change_type ++ " to " ++ anthology_id args ++ "...") ;;
  input_file_path <- resolve_input ;;
  validate_file_type (anthology_id args) input_file_path ;;
  parts <- expect ValueError (deconstruct_anthology_id env (anthology_id args)) ;;
  b <- read_file input_file_path ;;
  output_dir <- select_output_dir parts.1.1 ;;
  ensure_directory output_dir ;;
  ret (mkPrepared input_file_path parts.1.1 parts.1.2 parts.2 (compute_hash env b) output_dir).

(** Lines 214-226 *)
Definition copy_files (input_file_path output_dir : string) (revno : Z) : M unit :=
  maybe_copy input_file_path (versioned_path output_dir (Py.str revno)) ;;
  (if negb (erratum args) then maybe_copy input_file_path (canonical_path output_dir)
   else ret tt) ;;
  if is_remote then os_remove input_file_path else ret tt.

Definition main : M unit :=
  p <- prepare ;;
  revno <- update_xml (output_dir p) (checksum p)
             (collection_id p) (volume_id p) (paper_id p) ;;
  copy_files (input_file_path p) (output_dir p) revno.

End Main.

End Script.

(** ** The command line, lines 229-263

    The parser knows three positionals, four options and the help that
    argparse adds.  This function covers the spellings the help text shows:
    each option string in full and apart from its value.  What else argparse
    accepts (a unique prefix of a long option, [--date=D], clustered short
    flags, [--], a negative number or a dash-led phrase with a space as a
    positional) is answered with [Unsupported] rather than guessed at.

    The command line is read from left to right.  The help and an option
    that lacks its value end the parse where they stand; an option that the
    parser does not know, a missing and a surplus positional are reported
    once the whole line has been read. *)

Inductive Parsed :=
  | Namespace (a : Args)
  | UsageError               (* argparse prints usage and error, and exits with 2 *)
  | Help                     (* argparse prints the help and exits with 0 *)
  | Unsupported.

Definition option_like (s : string) : bool :=
  Py.startswith s "-" && negb (String.eqb s "-").

Definition known_option (s : string) : bool :=
  bool_decide (s ∈ ["-h"; "--help"; "--erratum"; "-e"; "--date"; "-d"; "--dry-run"; "-n";
                    "--anthology-dir"]).

(** A double-dash string without [=] or space that abbreviates none of the
    long options: argparse reports it as an unrecognized argument. *)
Definition unknown_long_option (s : string) : bool :=
  Py.startswith s "--" && negb (String.eqb s "--")
  && negb (Py.contains "=" s) && negb (Py.contains " " s)
  && forallb (fun o => negb (Py.startswith o s))
       ["--erratum"; "--date"; "--dry-run"; "--anthology-dir"; "--help"].

Definition with_erratum (a : Args) : Args :=
  mkArgs (anthology_id a) (path a) (explanation a) true (date a) (dry_run a) (anthology_dir a).
Definition with_dry_run (a : Args) : Args :=
  mkArgs (anthology_id a) (path a) (explanation a) (erratum a) (date a) true (anthology_dir a).
Definition with_date (d : string) (a : Args) : Args :=
  mkArgs (anthology_id a) (path a) (explanation a) (erratum a) d (dry_run a) (anthology_dir a).
Definition with_anthology_dir (d : string) (a : Args) : Args :=
  mkArgs (anthology_id a) (path a) (explanation a) (erratum a) (date a) (dry_run a) d.
Definition with_positionals (i p e : string) (a : Args) : Args :=
  mkArgs i p e (erratum a) (date a) (dry_run a) (anthology_dir a).

(** The options set the fields of [a]; the positionals are collected, newest
    first, in [pos]; [extras] tells whether an unknown option has been met. *)
Fixpoint parse_from (argv : list string) (a : Args) (pos : list string) (extras : bool)
  : Parsed :=
  match argv with
  | [] =>
      match pos with
      | [e; p; i] => if extras then UsageError else Namespace (with_positionals i p e a)
      | _ => UsageError
      end
  | s :: rest =>
      if bool_decide (s ∈ ["-h"; "--help"]) then Help
      else if bool_decide (s ∈ ["--erratum"; "-e"]) then
        parse_from rest (with_erratum a) pos extras
      else if bool_decide (s ∈ ["--dry-run"; "-n"]) then
        parse_from rest (with_dry_run a) pos extras
      else if bool_decide (s ∈ ["--date"; "-d"; "--anthology-dir"]) then
        match rest with
        | [] => UsageError
        | v :: rest' =>
            if known_option v then UsageError
            else if option_like v then Unsupported
            else if String.eqb s "--anthology-dir" then
              parse_from rest' (with_anthology_dir v a) pos extras
            else parse_from rest' (with_date v a) pos extras
        end
      else if unknown_long_option s then parse_from rest a pos true
      else if option_like s then Unsupported
      else parse_from rest a (s :: pos) extras
  end.

(** The defaults of lines 239-260: both flags are [store_true] actions that
    start out false. *)
Definition defaults (env : Env) (home : string) : Args :=
  mkArgs "" "" "" false (today env) false (OsPath.join home ["anthology-files"]).

Definition parse_args (env : Env) (home : string) (argv : list string) : Parsed :=
  parse_from argv (defaults env home) [] false.

(** The script run on the arguments after its name; [None] for a command line
    the parser above does not cover. *)
Definition script (env : Env) (argv : list string) : option (M unit) :=
  match HOME env with
  | None => Some (raise KeyError)
  | Some home =>
      match parse_args env home argv with
      | Namespace args => Some (main env args)
      | UsageError => Some (print Stderr (argparse_text env argv) ;; sys_exit 2)
      | Help => Some (print Stdout (argparse_text env argv) ;; sys_exit 0)
      | Unsupported => None
      end
  end.

(** ** A concrete archive

    A small environment and file system on which the script can be run by
    evaluation: one collection, [P18], with the paper [P18-1001]. *)

Module Sample.

Definition bytes (s : string) : list Byte.byte := list_byte_of_string s.

(** The signatures [filetype] knows for PDF, PNG and JPEG, with the [MIME]
    and [EXTENSION] constants of the three types. *)
Definition starts_with (magic b : list Byte.byte) : bool :=
  bool_decide (take (List.length magic) b = magic).

Definition guess (b : list Byte.byte) : option (string * string) :=
  if starts_with (bytes "%PDF") b then Some ("application/pdf", "pdf")
  else if starts_with (Byte.x89 :: bytes "PNG") b then Some ("image/png", "png")
  else if starts_with [Byte.xff; Byte.xd8; Byte.xff] b then Some ("image/jpeg", "jpg")
  else None.

(** A toy digest: the number of bytes and their sum *)
Definition digest (b : list Byte.byte) : string :=
  Py.str (Z.of_nat (List.length b)) ++ "-"
  ++ Py.str (Z.of_N (fold_right (fun x s => (Byte.to_N x + s)%N) 0%N b)).

(** Modelled from the spec: [deconstruct_anthology_id] and [is_newstyle_id]
    are defined in [anthology/utils.py], which is not among the sources at
    hand.  Following sections 4.2 and 8, the collection is the text before
    the hyphen; a new-style identifier starts with the year and has volume
    and paper separated by a dot, an old-style one has a one-digit volume
    followed by the paper number. *)
Definition is_newstyle (id : string) : bool :=
  match id with
  | String c _ => match Py.digit_of c with Some _ => true | None => false end
  | EmptyString => false
  end.

Definition deconstruct (id : string) : option (string * string * string) :=
  match Py.split id "-" with
  | [collection; rest] =>
      if is_newstyle id then
        match Py.split rest "." with
        | [volume; paper] => Some (collection, volume, paper)
        | _ => None
        end
      else
        match rest with
        | String v paper => Some (collection, String v "", paper)
        | EmptyString => None
        end
  | _ => None
  end.

Definition show_attrib (kv : string * string) : string :=
  " " ++ kv.1 ++ "=" ++ quote ++ kv.2 ++ quote.

Fixpoint show (e : Element) : string :=
  match e with
  | Elem t a x cs =>
      "<" ++ t ++ String.concat "" (map show_attrib a) ++ ">"
      ++ default "" x ++ String.concat "" (map show cs) ++ "</" ++ t ++ ">"
  end.

Definition write (e : Element) : list Byte.byte := bytes (show e).

(** Parsing, over a finite corpus of documents: the document that prints
    as the given bytes. *)
Definition parse (corpus : list Element) (b : list Byte.byte) : option Element :=
  head (filter (fun d => write d = b) corpus).

Definition paper_1001 (entries : list Element) : Element :=
  Elem "paper" [("id", "001")] None
    ([Elem "title" [] (Some "A Paper") [];
      Elem "url" [("hash", "old")] (Some "P18-1001") []] ++ entries).

Definition collection (papers : list Element) : Element :=
  Elem "collection" [("id", "P18")] None [Elem "volume" [("id", "1")] None papers].

Definition entry (kind id : string) : Element :=
  Elem kind [("id", id); ("href", "P18-1001v" ++ id); ("hash", "h" ++ id)] None [].

(** The record of [P18] with no revision of the paper, with the revisions
    1 and 2, with a lone revision 1, with revisions out of order, and with
    a paper that has no [url] child. *)
Definition fresh : Element := collection [paper_1001 []].
Definition revised : Element :=
  collection [paper_1001 [entry "revision" "1"; entry "revision" "2"]].
Definition lone_v1 : Element := collection [paper_1001 [entry "revision" "1"]].
Definition unordered : Element :=
  collection [paper_1001 [entry "revision" "3"; entry "revision" "2"]].
Definition no_url : Element :=
  collection [Elem "paper" [("id", "001")] None [Elem "title" [] (Some "A Paper") []]].

Definition pdf_v1 : list Byte.byte := bytes "%PDF-1.4 original".
Definition pdf_v2 : list Byte.byte := bytes "%PDF-1.4 revised".
Definition png : list Byte.byte := Byte.x89 :: bytes "PNG image".

Definition web (url : string) : Fetched :=
  if String.eqb url "https://www.aclweb.org/anthology/P18-1001.pdf" then Body pdf_v1
  else if String.eqb url "https://example.org/new.pdf" then Body pdf_v2
  else if String.eqb url "https://example.org/broken.pdf" then SSLError
  else Failed URLError.

Definition env : Env :=
  {| filetype_guess := guess;
     compute_hash := digest;
     infer_url := fun t => "https://www.aclweb.org/anthology/" ++ default "None" t;
     deconstruct_anthology_id := deconstruct;
     is_newstyle_id := is_newstyle;
     indent := fun e => e;
     xml_parse := parse [fresh; revised; lone_v1; unordered; no_url];
     xml_write := write;
     urlopen := web;
     mkstemp_path := "/tmp/tmpk3x9";
     file_id := fun p => p;
     argparse_text := fun _ => "usage: add_revision.py [-h] [--erratum] [--date DATE] [--dry-run] [--anthology-dir ANTHOLOGY_DIR] anthology_id path explanation";
     argv0 := "bin/add_revision.py";
     HOME := Some "/home/anth";
     today := "2020-05-04";
     creation_mode := mode_0644 |}.

Definition xml_path : string := "bin/../data/xml/P18.xml".
Definition out_dir : string := "/home/anth/anthology-files/pdf/P/P18".
Definition canonical : string := out_dir ++ "/P18-1001.pdf".

(** A file system holding the record [doc], the canonical file and the new
    file [upload], with or without the storage directory. *)
Definition world (doc : Element) (upload : list Byte.byte) (with_dir : bool) : World :=
  {| files := <[xml_path := mkFile (write doc) mode_0644]>
                (<[canonical := mkFile pdf_v1 mode_0644]>
                   (<["new.pdf" := mkFile upload mode_0600]> ∅));
     dirs := if with_dir then {[out_dir]} else ∅;
     output := [] |}.

Definition revise : Args :=
  mkArgs "P18-1001" "new.pdf" "Fixed a typo" false "2020-05-04" false
         "/home/anth/anthology-files".

(** Two disks on which every file and every directory lies in a directory.
    On [archive] the paper is stored under the root of the archive; on
    [site] the archive has not been started: its root is missing, and no
    file lies below it. *)
Definition archive (doc : Element) (upload : list Byte.byte) : World :=
  {| files := <[xml_path := mkFile (write doc) mode_0644]>
                (<[canonical := mkFile pdf_v1 mode_0644]>
                   (<["new.pdf" := mkFile upload mode_0600]> ∅));
     dirs := list_to_set (OsPath.ancestors xml_path ++ OsPath.ancestors canonical ++ ["/tmp"]);
     output := [] |}.

Definition site (doc : Element) (upload : list Byte.byte) : World :=
  {| files := <[xml_path := mkFile (write doc) mode_0644]>
                (<["new.pdf" := mkFile upload mode_0600]> ∅);
     dirs := list_to_set (OsPath.ancestors xml_path ++ ["/home"; "/home/anth"; "/tmp"]);
     output := [] |}.

End Sample.

(** * The vocabulary of the properties *)

(** ** A program logic

    [hoare P m Q]: from a world in [P], the run of [m] ends in an outcome and
    a world related by [Q].  Two shapes of postcondition recur: a property of
    normal returns only, and an invariant of the world that holds however
    the run ends, together with a property of the value returned. *)

Definition hoare {A} (P : World -> Prop) (m : M A) (Q : Outcome A -> World -> Prop) : Prop :=
  forall w, P w -> Q (m w).1 (m w).2.

Definition on_ret {A} (Q : A -> World -> Prop) : Outcome A -> World -> Prop :=
  fun o w => forall a, o = Ret a -> Q a w.

Definition always {A} (I : World -> Prop) (R : A -> Prop) : Outcome A -> World -> Prop :=
  fun o w => I w /\ forall a, o = Ret a -> R a.

(** ** Stable invariants

    An invariant of the world is kept by an operation as soon as it is stable
    under the updates the operation makes: printing, writing or removing a
    file, changing its mode, copying one file onto another path, creating a
    directory. *)

Definition stable_print (I : World -> Prop) : Prop :=
  forall w o, I w -> I (mkWorld (files w) (dirs w) o).

Definition stable_write (I : World -> Prop) (p : string) : Prop :=
  forall w f, I w -> I (mkWorld (<[p := f]> (files w)) (dirs w) (output w)).

Definition stable_chmod (I : World -> Prop) (p : string) : Prop :=
  forall w f m, I w -> files w !! p = Some f ->
    I (mkWorld (<[p := mkFile (content f) m]> (files w)) (dirs w) (output w)).

Definition stable_remove (I : World -> Prop) (p : string) : Prop :=
  forall w, I w -> I (mkWorld (delete p (files w)) (dirs w) (output w)).

Definition stable_mkdir (I : World -> Prop) (p : string) : Prop :=
  forall w, I w ->
    I (mkWorld (files w) (list_to_set (p :: OsPath.ancestors p) ∪ dirs w) (output w)).

Definition stable_copy (I : World -> Prop) (src dst : string) : Prop :=
  forall w f, I w -> files w !! src = Some f -> src <> dst ->
    I (mkWorld (<[dst := f]> (files w)) (dirs w) (output w)).

Definition anything {A} : A -> Prop := fun _ => True.

(** [agree q w0 w]: the path [q] holds in [w] what it held in [w0]. *)
Definition agree (q : string) (w0 w : World) : Prop := files w !! q = files w0 !! q.

(** [holds src b can w]: the file [src] has the bytes [b] and [can] is not a
    directory. *)
Definition holds (src : string) (b : list Byte.byte) (can : string) (w : World) : Prop :=
  content <$> files w !! src = Some b /\ can ∉ dirs w.

(** ** Paths and stages *)

(** What the versioned and the canonical path of a paper share *)
Definition stem (args : Args) (output_dir : string) : string :=
  OsPath.join2 output_dir (anthology_id args).

(** What [prepare] hands on: the input is the source or the scratch file,
    the identifier has been taken apart, the storage directory chosen. *)
Definition prepared_by (env : Env) (args : Args) (p : Prepared) : Prop :=
  input_file_path p = (if is_remote args then mkstemp_path env else path args)
  /\ deconstruct_anthology_id env (anthology_id args)
     = Some (collection_id p, volume_id p, paper_id p)
  /\ forall w, select_output_dir env args (collection_id p) w = (Ret (output_dir p), w).

(** ** Sequence numbers *)

(** The identifier of a node as an integer, the identifiers carried by a list
    of nodes when all of them are integers, and the largest of a list of
    integers. *)
Definition id_of (e : Element) : option Z := Xml.get "id" (attrib e) ≫= Py.int.

Definition ids_of (nodes : list Element) : option (list Z) := mapM id_of nodes.

Definition maximum (l : list Z) : option Z :=
  match l with
  | [] => None
  | x :: l' => Some (fold_left Z.max l' x)
  end.

(** Each number at most the next, and each number the successor of the one
    before. *)
Fixpoint ascending (l : list Z) : bool :=
  match l with
  | x :: (y :: _) as l' => (x <=? y) && ascending l'
  | _ => true
  end.

Fixpoint contiguous (l : list Z) : bool :=
  match l with
  | x :: (y :: _) as l' => (y =? x + 1) && contiguous l'
  | _ => true
  end.

(** A string of ASCII characters *)
Definition ascii_only (s : string) : bool :=
  forallb (fun c => (nat_of_ascii c <? 128)%nat) (list_ascii_of_string s).

(** A string without white space *)
Fixpoint nospace (s : string) : bool :=
  match s with
  | EmptyString => true
  | String c s' => negb (Py.is_space c) && nospace s'
  end.

(** ** Disks *)

(** [possible w]: every path above a file or a directory of [w] is a
    directory and not a file, and no path is both a file and a directory. *)
Definition possible (w : World) : bool :=
  let paths := ((map_to_list (files w)).*1 ++ elements (dirs w))%list in
  forallb (fun p =>
             forallb (fun d => bool_decide (d ∈ dirs w)
                               && negb (bool_decide (is_Some (files w !! d))))
               (OsPath.ancestors p)) paths
  && forallb (fun p => negb (bool_decide (p ∈ dirs w))) (map_to_list (files w)).*1.

(** [present od w0 w]: the directories of [w] are those of [w0], and
    something exists in [w] under the name [od]. *)
Definition present (od : string) (w0 w : World) : Prop :=
  dirs w = dirs w0 /\ os_path_exists w od = true.

(** ** Exit statuses and directories *)


(** [scratch env w]: the scratch file of a download exists in [w]. *)
Definition scratch (env : Env) (w : World) : Prop :=
  is_Some (files w !! mkstemp_path env).

(** [grown_by P w0 w]: the directories of [w] are those of [w0] and,
    possibly, some that satisfy [P]. *)
Definition grown_by (P : string -> Prop) (w0 w : World) : Prop :=
  dirs w0 ⊆ dirs w /\ forall x, x ∈ dirs w -> x ∈ dirs w0 \/ P x.

(** The storage directories of a run: what [select_output_dir] answers for
    the collection of the identifier. *)
Definition storage_of (env : Env) (args : Args) (od : string) : Prop :=
  exists c v pid,
    deconstruct_anthology_id env (anthology_id args) = Some (c, v, pid)
    /\ forall w, select_output_dir env args c w = (Ret od, w).

(** The sample environment over another corpus of records *)
Definition reading (docs : list Element) : Env :=
  mkEnv Sample.guess Sample.digest (infer_url Sample.env) Sample.deconstruct
    Sample.is_newstyle (fun e => e) (Sample.parse docs) Sample.write Sample.web
    "/tmp/tmpk3x9" (file_id Sample.env) (argparse_text Sample.env) "bin/add_revision.py"
    (Some "/home/anth") "2020-05-04" mode_0644.

(** [on_namespace f p]: the parse [p] with [f] applied to its namespace *)
Definition on_namespace (f : Args -> Args) (p : Parsed) : Parsed :=
  match p with
  | Namespace a => Namespace (f a)
  | other => other
  end.

(** * Properties *)

(** ** Running the monad *)

Lemma bind_run {A B} (m : M A) (k : A -> M B) (w : World) :
  bind m k w =
  match m w with
  | (Ret a, w') => k a w'
  | (Exit c, w') => (Exit c, w')
  | (Raise e, w') => (Raise e, w')
  end.
Proof. reflexivity. Qed.

Lemma bind_ret {A B} (m : M A) (k : A -> M B) w a w' :
  m w = (Ret a, w') -> bind m k w = k a w'.
Proof. intros H. rewrite bind_run, H. reflexivity. Qed.

Lemma bind_raise {A B} (m : M A) (k : A -> M B) w e w' :
  m w = (Raise e, w') -> bind m k w = (Raise e, w').
Proof. intros H. rewrite bind_run, H. reflexivity. Qed.

Lemma bind_exit {A B} (m : M A) (k : A -> M B) w c w' :
  m w = (Exit c, w') -> bind m k w = (Exit c, w').
Proof. intros H. rewrite bind_run, H. reflexivity. Qed.

(** A run of [bind m k] that returns went through a returning run of [m]. *)
Lemma bind_inv_ret {A B} (m : M A) (k : A -> M B) w b w' :
  bind m k w = (Ret b, w') ->
  exists a w1, m w = (Ret a, w1) /\ k a w1 = (Ret b, w').
Proof.
  rewrite bind_run. destruct (m w) as [[a|c|e] w1]; intros H; try discriminate.
  exists a, w1. split; [reflexivity | exact H].
Qed.


(** ** The rules of the program logic *)

Lemma hoare_bind {A B} P (m : M A) (k : A -> M B) Q1 Q2 :
  hoare P m Q1 ->
  (forall a, hoare (Q1 (Ret a)) (k a) Q2) ->
  (forall c w, Q1 (Exit c) w -> Q2 (Exit c) w) ->
  (forall e w, Q1 (Raise e) w -> Q2 (Raise e) w) ->
  hoare P (bind m k) Q2.
Proof.
  intros Hm Hk Hc He w HP. specialize (Hm w HP). rewrite bind_run.
  destruct (m w) as [[a|c|e] w1]; simpl in *; auto. apply Hk. exact Hm.
Qed.

Lemma hoare_bind_ret {A B} P (m : M A) (k : A -> M B) Q1 Q2 :
  hoare P m (on_ret Q1) ->
  (forall a, hoare (Q1 a) (k a) (on_ret Q2)) ->
  hoare P (bind m k) (on_ret Q2).
Proof.
  intros Hm Hk. apply hoare_bind with (Q1 := on_ret Q1); auto.
  - intros a w H. apply Hk. apply H. reflexivity.
  - intros c w _ b Hb. discriminate.
  - intros e w _ b Hb. discriminate.
Qed.

Lemma hoare_bind_always {A B} I R R' (m : M A) (k : A -> M B) :
  hoare I m (always I R) ->
  (forall a, R a -> hoare I (k a) (always I R')) ->
  hoare I (bind m k) (always I R').
Proof.
  intros Hm Hk. apply hoare_bind with (Q1 := always I R); auto.
  - intros a w [HI HR]. apply Hk; auto.
  - intros c w [HI _]. split; [exact HI | discriminate].
  - intros e w [HI _]. split; [exact HI | discriminate].
Qed.

Lemma hoare_weaken {A} (P P' : World -> Prop) (m : M A) (Q Q' : Outcome A -> World -> Prop) :
  hoare P m Q -> (forall w, P' w -> P w) -> (forall o w, Q o w -> Q' o w) -> hoare P' m Q'.
Proof. intros H HP HQ w Hw. apply HQ, H, HP, Hw. Qed.

Lemma always_weaken {A} I (R R' : A -> Prop) (m : M A) :
  hoare I m (always I R) -> (forall a, R a -> R' a) -> hoare I m (always I R').
Proof.
  intros H HR. eapply hoare_weaken; [exact H | auto |].
  intros o w [HI Ha]. split; auto.
Qed.

Lemma hoare_ret_always {A} I (R : A -> Prop) (a : A) : R a -> hoare I (ret a) (always I R).
Proof. intros HR w HI. split; [exact HI |]. intros b [= <-]. exact HR. Qed.

Lemma hoare_raise_always {A} I (R : A -> Prop) e : hoare I (raise e) (always I R).
Proof. intros w HI. split; [exact HI | discriminate]. Qed.

Lemma hoare_exit_always {A} I (R : A -> Prop) c : hoare I (sys_exit c) (always I R).
Proof. intros w HI. split; [exact HI | discriminate]. Qed.

Lemma hoare_expect_always {A} I e (o : option A) :
  hoare I (expect e o) (always I (fun a => o = Some a)).
Proof.
  destruct o as [a|]; [apply hoare_ret_always; reflexivity | apply hoare_raise_always].
Qed.

(** ** What each operation preserves *)

Section Frame.

Context (env : Env) (I : World -> Prop) (I_print : stable_print I).

Lemma print_keeps s line : hoare I (print s line) (always I anything).
Proof. intros w HI. split; [apply I_print; exact HI | intros; exact Logic.I]. Qed.

Lemma read_file_keeps p : hoare I (read_file p) (always I anything).
Proof.
  intros w HI. unfold read_file, bind, get_world, expect.
  destruct (files w !! p); (split; [exact HI | intros; exact Logic.I]).
Qed.

Lemma write_file_keeps p b :
  stable_write I p -> hoare I (write_file env p b) (always I anything).
Proof. intros Hp w HI. split; [apply Hp; exact HI | intros; exact Logic.I]. Qed.

Lemma mkstemp_keeps :
  stable_write I (mkstemp_path env) ->
  hoare I (mkstemp env) (always I (fun p => p = mkstemp_path env)).
Proof.
  intros Hp w HI. split; [apply Hp; exact HI |]. cbn. intros a [= <-]. reflexivity.
Qed.

Lemma os_makedirs_keeps p : stable_mkdir I p -> hoare I (os_makedirs p) (always I anything).
Proof.
  intros Hp w HI. unfold os_makedirs, bind, get_world. cbn.
  destruct (os_path_exists w p); [split; [exact HI | intros; exact Logic.I] |].
  destruct (existsb _ _); (split; [| intros; exact Logic.I]); [exact HI | apply Hp; exact HI].
Qed.

Lemma os_remove_keeps p : stable_remove I p -> hoare I (os_remove p) (always I anything).
Proof.
  intros Hp w HI. unfold os_remove, bind, get_world, expect.
  destruct (files w !! p); (split; [| intros; exact Logic.I]); cbn; auto.
Qed.

Lemma os_chmod_keeps p m : stable_chmod I p -> hoare I (os_chmod p m) (always I anything).
Proof.
  intros Hp w HI. unfold os_chmod, bind, get_world.
  destruct (files w !! p) eqn:E; [| case_bool_decide];
    (split; [| intros; exact Logic.I]); cbn; auto.
Qed.

Lemma shutil_copy_keeps src dst :
  stable_copy I src dst -> stable_copy I src (OsPath.join dst [OsPath.basename src]) ->
  hoare I (shutil_copy src dst) (always I anything).
Proof.
  intros H1 H2 w HI. unfold shutil_copy, bind, get_world, expect.
  case_bool_decide; case_bool_decide; try destruct (files w !! src) eqn:E;
    (split; [| intros; exact Logic.I]); cbn; auto.
Qed.

Lemma validate_file_type_keeps who p :
  hoare I (validate_file_type env who p) (always I anything).
Proof.
  unfold validate_file_type. eapply hoare_bind_always; [apply read_file_keeps |].
  intros b _. destruct (filetype_guess env b) as [[mime ext]|].
  - destruct (Py.endswith mime ext); [apply hoare_ret_always; exact Logic.I |].
    eapply hoare_bind_always; [apply print_keeps | intros; apply hoare_exit_always].
  - eapply hoare_bind_always; [apply print_keeps | intros; apply hoare_exit_always].
Qed.

Lemma download_file_keeps source dest :
  stable_write I dest -> hoare I (download_file env source dest) (always I anything).
Proof.
  intros Hp. unfold download_file.
  eapply hoare_bind_always; [apply print_keeps |]. intros _ _.
  destruct (urlopen env source).
  - apply write_file_keeps; exact Hp.
  - eapply hoare_bind_always; [apply print_keeps | intros; apply hoare_exit_always].
  - apply hoare_raise_always.
Qed.

End Frame.

(** ** Runs on the concrete archive *)

(** C1.  A command line with the three positionals and no option parses to a
    namespace whose [dry_run] is false, the [--do] of the module docstring is
    refused by the parser, and the run on that command line overwrites the
    canonical file, stores the versioned copy and rewrites the XML record:
    the default is a committing run, not a dry run. *)
Theorem default_invocation_commits :
  let argv := ["P18-1001"; "new.pdf"; "Fixed a typo"] in
  let w := Sample.world Sample.fresh Sample.pdf_v2 true in
  parse_args Sample.env "/home/anth" argv = Namespace Sample.revise
  /\ dry_run Sample.revise = false
  /\ parse_args Sample.env "/home/anth" ("--do" :: argv) = UsageError
  /\ exists run, script Sample.env argv = Some run
     /\ (run w).1 = Ret tt
     /\ content <$> files w !! Sample.canonical = Some Sample.pdf_v1
     /\ content <$> files (run w).2 !! Sample.canonical = Some Sample.pdf_v2
     /\ content <$> files (run w).2 !! (Sample.out_dir ++ "/P18-1001v2.pdf")
        = Some Sample.pdf_v2
     /\ files (run w).2 !! Sample.xml_path <> files w !! Sample.xml_path.
Proof.
  cbv zeta. split; [reflexivity |]. split; [reflexivity |]. split; [reflexivity |].
  exists (main Sample.env Sample.revise).
  split; [reflexivity |]. split; [vm_compute; reflexivity |].
  split; [vm_compute; reflexivity |]. split; [vm_compute; reflexivity |].
  split; [vm_compute; reflexivity |].
  vm_compute. discriminate.
Qed.

(** C2.  A dry run on a disk where the archive has not been started: the
    run creates the storage directory and the three missing directories
    above it, and announces the creation without the dry-run prefix,
    although it leaves every regular file as it was. *)
Theorem dry_run_creates_directory :
  let args := with_dry_run Sample.revise in
  let w := Sample.site Sample.fresh Sample.pdf_v2 in
  let r := main Sample.env args w in
  let created :=
    ["/home/anth/anthology-files"; "/home/anth/anthology-files/pdf";
     "/home/anth/anthology-files/pdf/P"; Sample.out_dir] in
  dry_run args = true
  /\ possible w = true
  /\ forallb (fun d => negb (os_path_exists w d)) created = true
  /\ r.1 = Ret tt
  /\ forallb (os_path_exists r.2) created = true
  /\ dirs r.2 = list_to_set created ∪ dirs w
  /\ possible r.2 = true
  /\ (Stderr, "-> Creating directory " ++ Sample.out_dir) ∈ output r.2
  /\ files r.2 = files w.
Proof.
  cbv zeta. repeat split; try (vm_compute; reflexivity).
  vm_compute. apply list_elem_of_In. simpl. tauto.
Qed.

(** C5.  A committing erratum run on a paper with a [url] child: the canonical
    file is left as it was, yet the [hash] of the [url] node is replaced by
    the digest of the erratum file and no longer is the digest of the file
    the URL stands for. *)
Theorem erratum_overwrites_url_hash :
  let args := with_erratum Sample.revise in
  let w := Sample.world Sample.revised Sample.pdf_v2 true in
  let r := main Sample.env args w in
  let paper' :=
    Elem "paper" [("id", "001")] None
      [Elem "title" [] (Some "A Paper") [];
       Elem "url" [("hash", Sample.digest Sample.pdf_v2)] (Some "P18-1001") [];
       Sample.entry "revision" "1"; Sample.entry "revision" "2";
       Elem "erratum" [("id", "1"); ("href", "P18-1001e1");
                       ("hash", Sample.digest Sample.pdf_v2); ("date", "2020-05-04")]
         (Some "Fixed a typo") []] in
  erratum args = true /\ dry_run args = false
  /\ r.1 = Ret tt
  /\ files r.2 !! Sample.canonical = files w !! Sample.canonical
  /\ content <$> files r.2 !! Sample.canonical = Some Sample.pdf_v1
  /\ content <$> files r.2 !! Sample.xml_path = Some (Sample.write (Sample.collection [paper']))
  /\ Sample.digest Sample.pdf_v2 <> Sample.digest Sample.pdf_v1.
Proof.
  cbv zeta. repeat split; try (vm_compute; reflexivity).
  vm_compute. discriminate.
Qed.

(** C9.  A file named [new.pdf] whose bytes are a PNG image: the sniffed type
    has MIME type [image/png] and extension [png], the check of line 65
    compares these two with each other and never looks at the name, so the
    file passes; the run returns normally, rewrites the XML record and stores
    the image as the canonical PDF. *)
Theorem png_named_pdf_is_accepted :
  let w := Sample.world Sample.fresh Sample.png true in
  let r := main Sample.env Sample.revise w in
  path Sample.revise = "new.pdf"
  /\ content <$> files w !! "new.pdf" = Some Sample.png
  /\ filetype_guess Sample.env Sample.png = Some ("image/png", "png")
  /\ validate_file_type Sample.env "P18-1001" "new.pdf" w = (Ret tt, w)
  /\ r.1 = Ret tt
  /\ content <$> files r.2 !! Sample.canonical = Some Sample.png
  /\ files r.2 !! Sample.xml_path <> files w !! Sample.xml_path.
Proof.
  cbv zeta. repeat split; try (vm_compute; reflexivity).
  vm_compute. discriminate.
Qed.

(** C3, as stated, fails on a paper whose revision nodes are not in ascending
    order: with the identifiers 3 and 2 the script computes 3, the maximum
    plus one is 4. *)
Lemma revno_is_not_the_maximum :
  let args := Sample.revise in
  let w := Sample.world Sample.unordered Sample.pdf_v2 true in
  let revisions :=
    Xml.findall (change_type args)
      (Sample.paper_1001 [Sample.entry "revision" "3"; Sample.entry "revision" "2"]) in
  ids_of revisions = Some [3; 2]
  /\ scan_revno (initial_revno args) revisions w = (Ret 3, w)
  /\ (fun m => m + 1) <$> maximum [3; 2] = Some 4
  /\ content <$> files (main Sample.env args w).2 !! (Sample.out_dir ++ "/P18-1001v3.pdf")
     = Some Sample.pdf_v2.
Proof. cbv zeta. repeat split; vm_compute; reflexivity. Qed.


(** C7, as stated, fails for an erratum: the node appended for it carries a
    [date] attribute like the node of a revision. *)
Lemma erratum_entry_has_a_date :
  let args := with_erratum Sample.revise in
  let entry := (new_entry args "abc" 1 (Sample.paper_1001 [])).1 in
  erratum args = true
  /\ tag entry = "erratum"
  /\ attrib entry = [("id", "1"); ("href", "P18-1001e1"); ("hash", "abc");
                     ("date", "2020-05-04")]
  /\ Xml.get "date" (attrib entry) = Some "2020-05-04".
Proof. cbv zeta. repeat split; vm_compute; reflexivity. Qed.

(** ** Strings and paths *)

Section Strings.

Implicit Types s t u p : string.

Lemma append_cons c s t : String c s ++ t = String c (s ++ t).
Proof. reflexivity. Qed.

Lemma append_nil_l s : "" ++ s = s.
Proof. reflexivity. Qed.

Lemma append_nil_r s : s ++ "" = s.
Proof. induction s; rewrite ?append_cons, ?append_nil_l; congruence. Qed.

Lemma append_assoc s t u : (s ++ t) ++ u = s ++ t ++ u.
Proof. induction s; rewrite ?append_cons, ?append_nil_l; congruence. Qed.

Lemma append_cancel_l s t u : s ++ t = s ++ u -> t = u.
Proof.
  induction s; rewrite ?append_cons, ?append_nil_l; intros H; [exact H | injection H; auto].
Qed.

Lemma append_length s t : String.length (s ++ t) = (String.length s + String.length t)%nat.
Proof. induction s; rewrite ?append_cons, ?append_nil_l; simpl; congruence. Qed.

Lemma prefix_nil s : String.prefix "" s = true.
Proof. destruct s; reflexivity. Qed.

Lemma prefix_append p s : String.prefix p (p ++ s) = true.
Proof.
  induction p as [|c p IH]; simpl; [apply prefix_nil |].
  destruct (ascii_dec c c); [exact IH | contradiction].
Qed.

Lemma prefix_append_same s p t : String.prefix (s ++ p) (s ++ t) = String.prefix p t.
Proof.
  induction s as [|c s IH]; simpl; [reflexivity |].
  destruct (ascii_dec c c); [exact IH | contradiction].
Qed.

Lemma prefix_split p s : String.prefix p s = true -> exists r, s = p ++ r.
Proof.
  revert s. induction p as [|c p IH]; intros s H; [exists s; reflexivity |].
  destruct s as [|d s]; simpl in H; [discriminate |].
  destruct (ascii_dec c d) as [->|]; [| discriminate].
  destruct (IH s H) as [r ->]. exists r. reflexivity.
Qed.

Lemma prefix_trans p s t :
  String.prefix p s = true -> String.prefix s t = true -> String.prefix p t = true.
Proof.
  intros [r ->]%prefix_split [r' ->]%prefix_split.
  rewrite append_assoc. apply prefix_append.
Qed.

Lemma startswith_append_char s t c :
  s <> "" -> Py.startswith (s ++ t) (String c "") = Py.startswith s (String c "").
Proof.
  intros Hs. destruct s as [|d s]; [contradiction |].
  unfold Py.startswith. rewrite append_cons. simpl.
  destruct (ascii_dec c d); [| reflexivity]. rewrite !prefix_nil. reflexivity.
Qed.

Lemma rev_string_spec s acc : Py.rev_string s acc = Py.rev_string s "" ++ acc.
Proof.
  revert acc. induction s as [|c s IH]; intros acc; simpl; [reflexivity |].
  rewrite (IH (String c acc)), (IH (String c "")), append_assoc. reflexivity.
Qed.

Lemma rev_string_append s t :
  Py.rev_string (s ++ t) "" = Py.rev_string t "" ++ Py.rev_string s "".
Proof.
  induction s as [|c s IH]; simpl; [symmetry; apply append_nil_r |].
  rewrite (rev_string_spec (s ++ t)), IH, (rev_string_spec s (String c "")), append_assoc.
  reflexivity.
Qed.

Lemma rev_string_involutive s : Py.rev_string (Py.rev_string s "") "" = s.
Proof.
  induction s as [|c s IH]; simpl; [reflexivity |].
  rewrite (rev_string_spec s), rev_string_append, IH. reflexivity.
Qed.

(** A string that ends with [t] after any head *)
Lemma endswith_append s t : Py.endswith (s ++ t) t = true.
Proof. unfold Py.endswith. rewrite rev_string_append. apply prefix_append. Qed.

Lemma endswith_split s t : Py.endswith s t = true -> exists r, s = r ++ t.
Proof.
  unfold Py.endswith. intros [r Hr]%prefix_split.
  exists (Py.rev_string r ""). apply (f_equal (fun x => Py.rev_string x "")) in Hr.
  rewrite rev_string_involutive, rev_string_append, rev_string_involutive in Hr. exact Hr.
Qed.

(** The last character decides between suffixes of one character. *)
Lemma endswith_append_char s t c :
  t <> "" -> Py.endswith (s ++ t) (String c "") = Py.endswith t (String c "").
Proof.
  intros Ht. unfold Py.endswith. rewrite rev_string_append. simpl.
  destruct (Py.rev_string t "") as [|d r] eqn:E.
  - apply (f_equal (fun x => Py.rev_string x "")) in E.
    rewrite rev_string_involutive in E. contradiction.
  - simpl. destruct (ascii_dec c d); [| reflexivity]. rewrite !prefix_nil. reflexivity.
Qed.

End Strings.

Section Paths.

Implicit Types d x y : string.

(** [join2 d] of a name and of the name extended share their head. *)
Lemma join2_append d x y :
  (x = "" -> Py.startswith y "/" = false) ->
  OsPath.join2 d (x ++ y) = OsPath.join2 d x ++ y.
Proof.
  intros H. unfold OsPath.join2. destruct x as [|c x].
  - rewrite append_nil_l, (H eq_refl). unfold Py.startswith at 1. simpl.
    destruct (_ || _); rewrite ?append_assoc, ?append_nil_r, ?append_nil_l; reflexivity.
  - clear H. rewrite startswith_append_char by discriminate.
    destruct (Py.startswith _ _); [reflexivity |].
    destruct (_ || _); rewrite ?append_assoc; reflexivity.
Qed.

(** [join2 d x] ends with [x]. *)
Lemma join2_tail d x : exists h, OsPath.join2 d x = h ++ x.
Proof.
  unfold OsPath.join2. destruct (Py.startswith x "/"); [exists ""; reflexivity |].
  destruct (_ || _); [exists d; reflexivity |].
  exists (d ++ "/"). rewrite append_assoc. reflexivity.
Qed.

Lemma join_tail d l x : exists h, OsPath.join d (l ++ [x]) = h ++ x.
Proof. unfold OsPath.join. rewrite fold_left_app. simpl. apply join2_tail. Qed.

(** Joining a name without a leading slash onto a non-empty path extends
    that path. *)
Lemma join2_extends d x :
  Py.startswith x "/" = false -> exists t, OsPath.join2 d x = d ++ t.
Proof.
  intros H. unfold OsPath.join2. rewrite H.
  destruct (_ || _); [exists x | exists ("/" ++ x)]; reflexivity.
Qed.

End Paths.

(** ** The paths the script builds *)

Section ScriptPaths.

Context (env : Env) (args : Args).

Lemma versioned_path_stem od n :
  versioned_path args od n = stem args od ++ change_letter args ++ n ++ ".pdf".
Proof.
  unfold versioned_path, stem, OsPath.join. simpl. apply join2_append.
  intros _. unfold change_letter. destruct (erratum args); reflexivity.
Qed.

Lemma canonical_path_stem od : canonical_path args od = stem args od ++ ".pdf".
Proof.
  unfold canonical_path, stem, OsPath.join. simpl. apply join2_append.
  intros _. reflexivity.
Qed.

Lemma versioned_not_canonical od n : versioned_path args od n <> canonical_path args od.
Proof.
  rewrite versioned_path_stem, canonical_path_stem. intros H%append_cancel_l.
  unfold change_letter in H. destruct (erratum args); discriminate.
Qed.

Lemma versioned_starts od n :
  Py.startswith (versioned_path args od n) (stem args od ++ change_letter args) = true.
Proof.
  unfold Py.startswith. rewrite versioned_path_stem, <- append_assoc. apply prefix_append.
Qed.

Lemma canonical_starts od :
  Py.startswith (canonical_path args od) (stem args od ++ change_letter args) = false.
Proof.
  unfold Py.startswith. rewrite canonical_path_stem, prefix_append_same.
  unfold change_letter. destruct (erratum args); reflexivity.
Qed.

Lemma xml_file_tail c : exists h, xml_file env c = h ++ ".xml".
Proof.
  unfold xml_file.
  destruct (join_tail (OsPath.dirname (argv0 env)) [".."; "data"; "xml"] (c ++ ".xml"))
    as [h Hh].
  exists (h ++ c). rewrite append_assoc. exact Hh.
Qed.

Lemma xml_file_not_pdf c s : xml_file env c <> s ++ ".pdf".
Proof.
  destruct (xml_file_tail c) as [h ->]. intros H.
  apply (f_equal (fun x => Py.endswith x "l")) in H.
  rewrite !endswith_append_char in H by discriminate. discriminate.
Qed.

Lemma xml_file_not_canonical c od : xml_file env c <> canonical_path args od.
Proof. rewrite canonical_path_stem. apply xml_file_not_pdf. Qed.

Lemma xml_file_not_versioned c od n : xml_file env c <> versioned_path args od n.
Proof.
  rewrite versioned_path_stem, <- !append_assoc. apply xml_file_not_pdf.
Qed.

End ScriptPaths.

(** A base name has no slash, so joining it extends the directory. *)
Lemma contains_rev_string c s acc :
  Py.contains c (Py.rev_string s acc) = Py.contains c s || Py.contains c acc.
Proof.
  revert acc. induction s as [|d s IH]; intros acc; simpl; [reflexivity |].
  rewrite IH.
  change (Py.contains c (String d acc)) with (Ascii.eqb c d || Py.contains c acc).
  change (Py.contains c (String d s)) with (Ascii.eqb c d || Py.contains c s).
  destruct (Ascii.eqb c d), (Py.contains c s); reflexivity.
Qed.

Lemma startswith_cons_char c d s : Py.startswith (String d s) (String c "") = Ascii.eqb c d.
Proof.
  unfold Py.startswith.
  change (String.prefix (String c "") (String d s))
    with (if ascii_dec c d then String.prefix "" s else false).
  destruct (ascii_dec c d) as [->|Hne].
  - rewrite prefix_nil, Ascii.eqb_refl. reflexivity.
  - symmetry. apply Ascii.eqb_neq. exact Hne.
Qed.

Lemma tail_after_slash_no_slash s cur :
  Py.contains "/" cur = false -> Py.contains "/" (OsPath.tail_after_slash s cur) = false.
Proof.
  revert cur. induction s as [|c s IH]; intros cur H; simpl.
  - rewrite contains_rev_string, H. reflexivity.
  - destruct (Ascii.eqb c "/") eqn:E; apply IH; [reflexivity |].
    change (Py.contains "/" (String c cur)) with (Ascii.eqb "/" c || Py.contains "/" cur).
    rewrite Ascii.eqb_sym, E. exact H.
Qed.

Lemma basename_startswith p : Py.startswith (OsPath.basename p) "/" = false.
Proof.
  pose proof (tail_after_slash_no_slash p "" eq_refl) as H.
  unfold OsPath.basename. destruct (OsPath.tail_after_slash p "") as [|c s]; [reflexivity |].
  change (Py.contains "/" (String c s)) with (Ascii.eqb "/" c || Py.contains "/" s) in H.
  apply orb_false_elim in H as [H _].
  rewrite startswith_cons_char. exact H.
Qed.

Lemma join_basename_starts d src p :
  Py.startswith d p = true -> Py.startswith (OsPath.join d [OsPath.basename src]) p = true.
Proof.
  intros H. unfold OsPath.join. simpl.
  destruct (join2_extends d _ (basename_startswith src)) as [t ->].
  unfold Py.startswith in *. eapply prefix_trans; [exact H | apply prefix_append].
Qed.

(** ** What the stages of [main] preserve *)

Section Stages.

Context (env : Env) (args : Args) (I : World -> Prop) (I_print : stable_print I).

Lemma maybe_copy_keeps file_from file_to :
  (dry_run args = false ->
   stable_copy I file_from file_to
   /\ stable_copy I file_from (OsPath.join file_to [OsPath.basename file_from])
   /\ stable_chmod I file_to) ->
  hoare I (maybe_copy args file_from file_to) (always I anything).
Proof.
  intros H. unfold maybe_copy. destruct (dry_run args); simpl; [apply print_keeps; auto |].
  destruct (H eq_refl) as (H1 & H2 & H3).
  eapply hoare_bind_always; [apply print_keeps; auto |]. intros _ _.
  eapply hoare_bind_always; [apply shutil_copy_keeps; assumption |]. intros _ _.
  apply os_chmod_keeps; assumption.
Qed.

Lemma resolve_input_keeps :
  (is_remote args = true -> stable_write I (mkstemp_path env)) ->
  hoare I (resolve_input env args)
    (always I (fun p => p = if is_remote args then mkstemp_path env else path args)).
Proof.
  intros H. unfold resolve_input. destruct (is_remote args).
  - eapply hoare_bind_always; [apply mkstemp_keeps; auto |]. intros p ->.
    eapply hoare_bind_always; [apply download_file_keeps; auto |]. intros _ _.
    apply hoare_ret_always. reflexivity.
  - apply hoare_ret_always. reflexivity.
Qed.

(** The storage directory is a function of the arguments alone. *)
Lemma select_output_dir_pure c :
  exists o : Outcome string, forall w, select_output_dir env args c w = (o, w).
Proof.
  unfold select_output_dir. destruct (is_newstyle_id env (anthology_id args)).
  - destruct (Py.split c "." !! 1%nat); eexists; intros w; reflexivity.
  - destruct (Py.first_char c); eexists; intros w; reflexivity.
Qed.

Lemma select_output_dir_any c od w w' :
  select_output_dir env args c w = (Ret od, w) ->
  select_output_dir env args c w' = (Ret od, w').
Proof.
  destruct (select_output_dir_pure c) as [o Ho]. rewrite !Ho. congruence.
Qed.

Lemma select_output_dir_keeps c :
  hoare I (select_output_dir env args c)
    (always I (fun od => forall w, select_output_dir env args c w = (Ret od, w))).
Proof.
  destruct (select_output_dir_pure c) as [o Ho]. intros w HI. rewrite Ho. simpl.
  split; [exact HI |]. intros od ->. exact Ho.
Qed.

Lemma ensure_directory_keeps od :
  stable_mkdir I od -> hoare I (ensure_directory od) (always I anything).
Proof.
  intros Hd. unfold ensure_directory.
  eapply hoare_bind_always with (R := anything).
  { intros w HI. split; [exact HI | intros; exact Logic.I]. }
  intros w _. destruct (negb _); [| apply hoare_ret_always; exact Logic.I].
  eapply hoare_bind_always; [apply print_keeps; auto |]. intros _ _.
  apply os_makedirs_keeps. exact Hd.
Qed.

Lemma prepare_keeps :
  (is_remote args = true -> stable_write I (mkstemp_path env)) ->
  (forall c v pid od,
     deconstruct_anthology_id env (anthology_id args) = Some (c, v, pid) ->
     (forall w, select_output_dir env args c w = (Ret od, w)) -> stable_mkdir I od) ->
  hoare I (prepare env args) (always I (prepared_by env args)).
Proof.
  intros H Hd. unfold prepare.
  eapply hoare_bind_always; [apply print_keeps; auto |]. intros _ _.
  eapply hoare_bind_always; [apply resolve_input_keeps; exact H |]. intros input Hinput.
  eapply hoare_bind_always; [apply validate_file_type_keeps; auto |]. intros _ _.
  eapply hoare_bind_always; [apply hoare_expect_always |]. intros [[c v] pid] Hparts.
  eapply hoare_bind_always; [apply read_file_keeps |]. intros b _.
  eapply hoare_bind_always; [apply select_output_dir_keeps |]. intros od Hod.
  eapply hoare_bind_always; [apply ensure_directory_keeps; eauto |]. intros _ _.
  apply hoare_ret_always. repeat split; assumption.
Qed.

Lemma scan_revno_keeps revno revisions :
  hoare I (scan_revno revno revisions) (always I anything).
Proof.
  revert revno. induction revisions as [|r rs IH]; intros revno; simpl.
  - apply hoare_ret_always. exact Logic.I.
  - eapply hoare_bind_always; [apply hoare_expect_always |]. intros id _.
    eapply hoare_bind_always; [apply hoare_expect_always |]. intros n _. apply IH.
Qed.

Lemma et_parse_keeps file : hoare I (et_parse env file) (always I anything).
Proof.
  intros w HI. unfold et_parse, bind, get_world, expect.
  destruct (files w !! file) as [f|]; [cbn; destruct (xml_parse env (content f)) |];
    (split; [exact HI | intros; exact Logic.I]).
Qed.

Lemma find_paper_keeps root v pid : hoare I (find_paper root v pid) (always I anything).
Proof.
  unfold find_paper. destruct (_ || _);
    [apply hoare_raise_always | apply hoare_ret_always; exact Logic.I].
Qed.

Lemma bootstrap_keeps od paper :
  stable_write I (versioned_path args od "1") ->
  hoare I (bootstrap env args od paper) (always I anything).
Proof.
  intros H. unfold bootstrap.
  eapply hoare_bind_always; [apply hoare_expect_always |]. intros source _.
  eapply hoare_bind_always; [apply download_file_keeps; auto |]. intros _ _.
  eapply hoare_bind_always; [apply validate_file_type_keeps; auto |]. intros _ _.
  eapply hoare_bind_always; [apply read_file_keeps |]. intros b _.
  apply hoare_ret_always. exact Logic.I.
Qed.

Lemma update_paper_keeps od ck revno paper :
  (erratum args = false -> stable_write I (versioned_path args od "1")) ->
  hoare I (update_paper env args od ck revno paper) (always I anything).
Proof.
  intros H. unfold update_paper.
  eapply hoare_bind_always with (R := anything);
    [| intros; apply hoare_ret_always; exact Logic.I].
  destruct (erratum args); simpl; [apply hoare_ret_always; exact Logic.I |].
  destruct (revno =? 2); [apply bootstrap_keeps; auto | apply hoare_ret_always; exact Logic.I].
Qed.

Lemma update_xml_keeps od ck c v pid :
  (dry_run args = false ->
   stable_write I (xml_file env c)
   /\ (erratum args = false -> stable_write I (versioned_path args od "1"))) ->
  hoare I (update_xml env args od ck c v pid) (always I anything).
Proof.
  intros H. unfold update_xml.
  eapply hoare_bind_always; [apply et_parse_keeps |]. intros root _.
  eapply hoare_bind_always; [apply find_paper_keeps |]. intros pos _.
  destruct (pos ≫= _) as [[pos' paper]|].
  - eapply hoare_bind_always; [apply scan_revno_keeps |]. intros revno _.
    eapply hoare_bind_always with (R := anything);
      [| intros; apply hoare_ret_always; exact Logic.I].
    destruct (dry_run args); simpl; [apply hoare_ret_always; exact Logic.I |].
    destruct (H eq_refl) as [H1 H2].
    eapply hoare_bind_always; [apply update_paper_keeps; exact H2 |]. intros updated _.
    eapply hoare_bind_always; [apply write_file_keeps; exact H1 |]. intros _ _.
    apply print_keeps; auto.
  - eapply hoare_bind_always; [apply print_keeps; auto |]. intros _ _.
    apply hoare_exit_always.
Qed.

Lemma copy_files_keeps input od revno :
  (dry_run args = false ->
   (stable_copy I input (versioned_path args od (Py.str revno))
    /\ stable_copy I input
         (OsPath.join (versioned_path args od (Py.str revno)) [OsPath.basename input])
    /\ stable_chmod I (versioned_path args od (Py.str revno)))
   /\ (erratum args = false ->
       stable_copy I input (canonical_path args od)
       /\ stable_copy I input
            (OsPath.join (canonical_path args od) [OsPath.basename input])
       /\ stable_chmod I (canonical_path args od))) ->
  (is_remote args = true -> stable_remove I input) ->
  hoare I (copy_files args input od revno) (always I anything).
Proof.
  intros H Hr. unfold copy_files.
  eapply hoare_bind_always; [apply maybe_copy_keeps; intros Hd; apply (H Hd) |]. intros _ _.
  eapply hoare_bind_always with (R := anything).
  - destruct (erratum args); simpl; [apply hoare_ret_always; exact Logic.I |].
    apply maybe_copy_keeps. intros Hd. apply (H Hd). reflexivity.
  - intros _ _. destruct (is_remote args);
      [apply os_remove_keeps; auto | apply hoare_ret_always; exact Logic.I].
Qed.

End Stages.

(** Stability of [agree q w0]: it only minds the path [q]. *)
Section Agree.

Context (q : string) (w0 : World).

Lemma agree_print : stable_print (agree q w0).
Proof. intros w o H. exact H. Qed.

Lemma agree_write p : p <> q -> stable_write (agree q w0) p.
Proof. intros Hne w f H. unfold agree in *. cbn. rewrite lookup_insert_ne; auto. Qed.

Lemma agree_chmod p : p <> q -> stable_chmod (agree q w0) p.
Proof. intros Hne w f m H _. unfold agree in *. cbn. rewrite lookup_insert_ne; auto. Qed.

Lemma agree_remove p : p <> q -> stable_remove (agree q w0) p.
Proof. intros Hne w H. unfold agree in *. cbn. rewrite lookup_delete_ne; auto. Qed.

Lemma agree_mkdir p : stable_mkdir (agree q w0) p.
Proof. intros w H. exact H. Qed.

Lemma agree_copy src dst : dst <> q -> stable_copy (agree q w0) src dst.
Proof. intros Hne w f H _ _. unfold agree in *. cbn. rewrite lookup_insert_ne; auto. Qed.

End Agree.

(** The paths a run may write: the scratch file of a download; and, when it
    commits, the record of the collection, names that extend the stem of the
    paper by the letter of the change, and for a revision the canonical path
    (or, were that a directory, a file below it). *)
Lemma main_agree env args q w0 :
  (is_remote args = true -> mkstemp_path env <> q) ->
  (dry_run args = false ->
   forall c v pid od,
     deconstruct_anthology_id env (anthology_id args) = Some (c, v, pid) ->
     (forall w, select_output_dir env args c w = (Ret od, w)) ->
     xml_file env c <> q
     /\ Py.startswith q (stem args od ++ change_letter args) = false
     /\ (erratum args = false ->
         canonical_path args od <> q
         /\ forall src, OsPath.join (canonical_path args od) [OsPath.basename src] <> q)) ->
  hoare (agree q w0) (main env args) (always (agree q w0) anything).
Proof.
  intros Hr Hc. unfold main. pose proof (agree_print q w0) as Hp.
  eapply hoare_bind_always.
  { apply prepare_keeps; [exact Hp | |].
    - intros Hrem. apply agree_write. auto.
    - intros. apply agree_mkdir. }
  intros [input c v pid ck od] (Hinput & Hparts & Hod). simpl in *.
  assert (Hv : dry_run args = false -> forall n,
             versioned_path args od n <> q
             /\ OsPath.join (versioned_path args od n) [OsPath.basename input] <> q).
  { intros Hd n. destruct (Hc Hd c v pid od Hparts Hod) as (_ & Hs & _).
    split; intros <-.
    - rewrite versioned_starts in Hs. discriminate.
    - rewrite join_basename_starts in Hs by apply versioned_starts. discriminate. }
  eapply hoare_bind_always.
  - apply update_xml_keeps; [exact Hp |]. intros Hd.
    destruct (Hc Hd c v pid od Hparts Hod) as (Hx & _ & _).
    split; [apply agree_write; exact Hx |]. intros _. apply agree_write, (Hv Hd).
  - intros revno _. apply copy_files_keeps; [exact Hp | |].
    + intros Hd. destruct (Hv Hd (Py.str revno)) as [Hv1 Hv2].
      split; [repeat split; [apply agree_copy | apply agree_copy | apply agree_chmod]; assumption |].
      intros He. destruct (Hc Hd c v pid od Hparts Hod) as (_ & _ & Hcan).
      destruct (Hcan He) as [H1 H2].
      repeat split; [apply agree_copy | apply agree_copy | apply agree_chmod]; auto.
      apply H2.
    + intros Hrem. apply agree_remove. rewrite Hinput, Hrem. apply Hr. exact Hrem.
Qed.

(** A dry run leaves every regular file but the scratch file of a download as
    it was; with a local source it leaves all of them. *)
Lemma dry_run_keeps_files env args w q :
  dry_run args = true ->
  (is_remote args = true -> q <> mkstemp_path env) ->
  files (main env args w).2 !! q = files w !! q.
Proof.
  intros Hd Hq. apply (main_agree env args q w); [| | reflexivity].
  - intros Hr E. apply (Hq Hr). symmetry. exact E.
  - rewrite Hd. discriminate.
Qed.

Lemma dry_run_local_keeps_all_files env args w :
  dry_run args = true -> is_remote args = false -> files (main env args w).2 = files w.
Proof.
  intros Hd Hr. apply map_eq. intros q. apply dry_run_keeps_files; [exact Hd |].
  rewrite Hr. discriminate.
Qed.

(** ** The canonical file *)

Section Holds.

Context (src : string) (b : list Byte.byte) (can : string).

Lemma holds_print : stable_print (holds src b can).
Proof. intros w o H. exact H. Qed.

Lemma holds_write p : p <> src -> stable_write (holds src b can) p.
Proof.
  intros Hne w f [H1 H2]. split; [| exact H2]. cbn. rewrite lookup_insert_ne; auto.
Qed.

Lemma holds_chmod p : stable_chmod (holds src b can) p.
Proof.
  intros w f m [H1 H2] Hf. split; [| exact H2]. cbn.
  destruct (decide (p = src)) as [->|Hne].
  - rewrite lookup_insert_eq. rewrite Hf in H1. exact H1.
  - rewrite lookup_insert_ne; auto.
Qed.

Lemma holds_mkdir p : can ∉ p :: OsPath.ancestors p -> stable_mkdir (holds src b can) p.
Proof.
  intros Hne w [H1 H2]. split; [exact H1 |]. cbn [dirs].
  intros [E%elem_of_list_to_set | E]%elem_of_union; [exact (Hne E) | exact (H2 E)].
Qed.

Lemma holds_copy dst : stable_copy (holds src b can) src dst.
Proof.
  intros w f [H1 H2] _ Hne. split; [| exact H2]. cbn. rewrite lookup_insert_ne; auto.
Qed.

End Holds.

(** A committing copy onto a path that is not a directory leaves there the
    bytes of the source, which is another path. *)
Lemma maybe_copy_result args src dst w w' f :
  dry_run args = false -> dst ∉ dirs w -> files w !! src = Some f ->
  maybe_copy args src dst w = (Ret tt, w') ->
  src <> dst /\ content <$> files w' !! dst = Some (content f).
Proof.
  intros Hd Hdir Hf H. unfold maybe_copy in H. rewrite Hd in H. simpl in H.
  unfold bind, print, shutil_copy, get_world, expect, os_chmod, set_files in H. cbn in H.
  rewrite (bool_decide_eq_false_2 (dst ∈ dirs w)) in H by exact Hdir.
  case_bool_decide; [discriminate |]. rewrite Hf in H. cbn in H.
  rewrite lookup_insert_eq in H. cbn in H. injection H as <-. cbn.
  rewrite lookup_insert_eq. split; [assumption | reflexivity].
Qed.

Lemma os_remove_result p w w' :
  os_remove p w = (Ret tt, w') -> forall q, q <> p -> files w' !! q = files w !! q.
Proof.
  unfold os_remove, bind, get_world, expect. destruct (files w !! p); [| discriminate].
  cbn. intros [= <-] q Hq. cbn. rewrite lookup_delete_ne; auto.
Qed.

(** Every world satisfies the trivial invariant; with it [prepare_keeps]
    tells what a returning [prepare] hands on. *)
Lemma prepare_returns env args w p w1 :
  prepare env args w = (Ret p, w1) -> prepared_by env args p.
Proof.
  intros H.
  assert (Hk : hoare (fun _ => True) (prepare env args)
                 (always (fun _ => True) (prepared_by env args))).
  { apply prepare_keeps; [intros w' o _; exact Logic.I | |].
    - intros _ w' f _. exact Logic.I.
    - intros c v pid od _ _ w' _. exact Logic.I. }
  specialize (Hk w Logic.I). rewrite H in Hk. apply Hk. reflexivity.
Qed.

Lemma returned {A} (r : Outcome A * World) (a : A) : r.1 = Ret a -> r = (Ret a, r.2).
Proof. destruct r as [o w]. simpl. intros ->. reflexivity. Qed.

(** ** The storage directory *)

Lemma join2_plain d x :
  d <> "" -> Py.endswith d "/" = false -> Py.startswith x "/" = false ->
  OsPath.join2 d x = d ++ "/" ++ x.
Proof.
  intros Hd He Hx. unfold OsPath.join2. rewrite Hx, He.
  destruct (String.eqb_spec d ""); [contradiction | reflexivity].
Qed.

Lemma join2_pdf a : exists h, OsPath.join2 a "pdf" = h ++ "pdf".
Proof. apply join2_tail. Qed.

Lemma append_not_nil s t : t <> "" -> s ++ t <> "".
Proof.
  intros Ht H. apply (f_equal String.length) in H. rewrite append_length in H.
  destruct t; [contradiction | simpl in H; lia].
Qed.

(** C8.  For an identifier that is not new-style and whose collection starts
    with a character other than a slash, the storage directory is
    [pdf/<first character>/<collection>] below the archive root; for a
    new-style identifier it is [pdf/<venue>] below the root, the venue being
    the second dot-separated piece of the collection. *)
Theorem storage_directory_convention env args c w :
  (is_newstyle_id env (anthology_id args) = false ->
   forall letter rest,
     c = String letter rest -> letter <> "/"%char ->
     select_output_dir env args c w
     = (Ret (OsPath.join2 (anthology_dir args) ("pdf/" ++ String letter "" ++ "/" ++ c)), w))
  /\ (is_newstyle_id env (anthology_id args) = true ->
      forall venue,
        Py.split c "." !! 1%nat = Some venue -> Py.startswith venue "/" = false ->
        select_output_dir env args c w
        = (Ret (OsPath.join2 (anthology_dir args) ("pdf/" ++ venue)), w)).
Proof.
  destruct (join2_pdf (anthology_dir args)) as [h Hh].
  assert (Hne : OsPath.join2 (anthology_dir args) "pdf" <> "").
  { rewrite Hh. apply append_not_nil. discriminate. }
  assert (Hend : Py.endswith (OsPath.join2 (anthology_dir args) "pdf") "/" = false).
  { rewrite Hh, endswith_append_char by discriminate. reflexivity. }
  split.
  - intros Hold letter rest -> Hl. unfold select_output_dir. rewrite Hold. simpl.
    unfold bind, ret. simpl. f_equal. f_equal.
    assert (Hs : Py.startswith (String letter "") "/" = false).
    { rewrite startswith_cons_char. apply Ascii.eqb_neq. congruence. }
    assert (Hs' : Py.startswith (String letter rest) "/" = false).
    { rewrite startswith_cons_char. apply Ascii.eqb_neq. congruence. }
    rewrite (join2_plain _ _ Hne Hend Hs).
    rewrite join2_plain; [| | | exact Hs'].
    + change ("pdf/" ++ String letter "" ++ "/" ++ String letter rest)
        with ("pdf" ++ "/" ++ String letter "" ++ "/" ++ String letter rest).
      rewrite join2_append by discriminate. rewrite !append_assoc. reflexivity.
    + rewrite <- append_assoc. apply append_not_nil. discriminate.
    + rewrite <- append_assoc, endswith_append_char by discriminate. exact Hs.
  - intros Hnew venue Hv Hs. unfold select_output_dir. rewrite Hnew, Hv. simpl.
    unfold bind, ret. simpl. f_equal. f_equal.
    rewrite (join2_plain _ _ Hne Hend Hs).
    change ("pdf/" ++ venue) with ("pdf" ++ "/" ++ venue).
    rewrite join2_append by discriminate. reflexivity.
Qed.

Lemma storage_directory_convention_witness :
  let w := Sample.world Sample.fresh Sample.pdf_v2 true in
  let newstyle :=
    mkArgs "2020.acl-1.1" "new.pdf" "" false "" false "/home/anth/anthology-files" in
  (deconstruct_anthology_id Sample.env "P18-1001" = Some ("P18", "1", "001")
   /\ select_output_dir Sample.env Sample.revise "P18" w
      = (Ret "/home/anth/anthology-files/pdf/P/P18", w))
  /\ (deconstruct_anthology_id Sample.env "2020.acl-1.1" = Some ("2020.acl", "1", "1")
      /\ select_output_dir Sample.env newstyle "2020.acl" w
         = (Ret "/home/anth/anthology-files/pdf/acl", w)).
Proof.
  cbv zeta. split; (split; [reflexivity |]).
  - apply (proj1 (storage_directory_convention Sample.env Sample.revise "P18"
                    (Sample.world Sample.fresh Sample.pdf_v2 true)) eq_refl "P"%char "18");
      [reflexivity | discriminate].
  - apply (proj2 (storage_directory_convention Sample.env
                    (mkArgs "2020.acl-1.1" "new.pdf" "" false "" false
                       "/home/anth/anthology-files") "2020.acl"
                    (Sample.world Sample.fresh Sample.pdf_v2 true)) eq_refl "acl");
      reflexivity.
Defined.

(** ** The record of the collection *)

Lemma et_parse_run env file w xf root :
  files w !! file = Some xf -> xml_parse env (content xf) = Some root ->
  et_parse env file w = (Ret root, w).
Proof.
  intros Hf Hp. unfold et_parse, bind, get_world, expect. rewrite Hf. cbn. rewrite Hp.
  reflexivity.
Qed.

(** Scanning the revision nodes does not touch the world. *)
Lemma scan_revno_pure revno revisions :
  exists o : Outcome Z, forall w, scan_revno revno revisions w = (o, w).
Proof.
  revert revno. induction revisions as [|r rs IH]; intros revno; simpl.
  - eexists. intros w. reflexivity.
  - destruct (Xml.get "id" (attrib r)) as [id|] eqn:E1.
    + destruct (Py.int id) as [n|] eqn:E2.
      * destruct (IH (n + 1)) as [o Ho]. exists o. intros w.
        unfold bind, expect. cbn. rewrite E2. cbn. apply Ho.
      * exists (Raise ValueError). intros w. unfold bind, expect. cbn. rewrite E2.
        reflexivity.
    + exists (Raise KeyError). intros w. reflexivity.
Qed.

Lemma scan_revno_any revno revisions w w' n :
  scan_revno revno revisions w = (Ret n, w) -> scan_revno revno revisions w' = (Ret n, w').
Proof. destruct (scan_revno_pure revno revisions) as [o Ho]. rewrite !Ho. congruence. Qed.

Lemma find_index_Some {A} (p : A -> bool) l i :
  Xml.find_index p l = Some i -> exists x, l !! i = Some x /\ p x = true.
Proof.
  revert i. induction l as [|x l IH]; intros i; simpl; [discriminate |].
  destruct (p x) eqn:E.
  - intros [= <-]. exists x. split; [reflexivity | exact E].
  - destruct (Xml.find_index p l) as [j|]; simpl; [| discriminate].
    intros [= <-]. apply (IH j). reflexivity.
Qed.

(** Without a [url] child there is no hash to update. *)
Lemma update_url_hash_without_url ck paper :
  url_child paper = None -> update_url_hash ck paper = paper.
Proof.
  unfold url_child, update_url_hash. destruct (Xml.find_child "url" paper) as [i|] eqn:E.
  - apply find_index_Some in E as (x & Hx & _). simpl. rewrite Hx. discriminate.
  - reflexivity.
Qed.

(** C10.  A committing revision for which [prepare] succeeds, the record
    parses, the paper is found, the scan of its revision nodes gives 2, and
    the paper has no [url] child: the run ends with the NameError raised when
    line 171 reads [current_version_url], which line 162 did not bind.  The
    world is the one [prepare] left: no diagnostic is printed, the record is
    not written. *)
Theorem first_revision_without_url_raises env args w p w1 xf root pos paper :
  dry_run args = false -> erratum args = false ->
  prepare env args w = (Ret p, w1) ->
  files w1 !! xml_file env (collection_id p) = Some xf ->
  xml_parse env (content xf) = Some root ->
  find_paper root (volume_id p) (paper_id p) w1 = (Ret (Some pos), w1) ->
  Xml.paper_at root pos = Some paper ->
  scan_revno (initial_revno args) (Xml.findall (change_type args) paper) w1 = (Ret 2, w1) ->
  url_child paper = None ->
  main env args w = (Raise NameError, w1).
Proof.
  intros Hd He Hprep Hf Hparse Hfind Hpaper Hscan Hurl.
  unfold main. rewrite (bind_ret _ _ _ _ _ Hprep).
  apply bind_raise. unfold update_xml.
  rewrite (bind_ret _ _ _ _ _ (et_parse_run _ _ _ _ _ Hf Hparse)).
  rewrite (bind_ret _ _ _ _ _ Hfind). cbn. rewrite Hpaper. cbn.
  rewrite (bind_ret _ _ _ _ _ Hscan).
  apply bind_raise. rewrite Hd. cbn.
  apply bind_raise. unfold update_paper. apply bind_raise.
  rewrite He. cbn. unfold bootstrap.
  rewrite (update_url_hash_without_url _ _ Hurl), Hurl. reflexivity.
Qed.

Lemma first_revision_without_url_raises_witness :
  let w := Sample.world Sample.no_url Sample.pdf_v2 true in
  main Sample.env Sample.revise w
  = (Raise NameError,
     mkWorld (files w) (dirs w) [(Stdout, "Processing revision to P18-1001...")]).
Proof.
  cbv zeta.
  eapply (first_revision_without_url_raises Sample.env Sample.revise _
            (mkPrepared "new.pdf" "P18" "1" "001" (Sample.digest Sample.pdf_v2) Sample.out_dir)
            _ (mkFile (Sample.write Sample.no_url) mode_0644) Sample.no_url (0, 0)%nat
            (Elem "paper" [("id", "001")] None [Elem "title" [] (Some "A Paper") []]));
    vm_compute; reflexivity.
Defined.

(** ** The nodes appended to the paper *)

Lemma update_paper_inv env args od ck revno paper w r w' :
  update_paper env args od ck revno paper w = (Ret r, w') ->
  exists paper', r = new_entry args ck revno paper'.
Proof.
  unfold update_paper. intros H. apply bind_inv_ret in H as (paper' & w1 & _ & H).
  exists paper'. injection H as <- _. reflexivity.
Qed.

(** C7, amended.  The node appended for the change has the tag of the kind,
    the attributes [id], [href], [hash] and [date] in this order and with the
    values [str(revno)], identifier + letter + [str(revno)], the checksum and
    the date, for errata as for revisions; its text is the explanation, it has
    no children, and it is the last child of the paper when [update_paper]
    returns. *)
Theorem appended_entry_attributes env args od ck revno paper :
  let el := (new_entry args ck revno paper).1 in
  tag el = change_type args
  /\ attrib el = [("id", Py.str revno);
                  ("href", anthology_id args ++ change_letter args ++ Py.str revno);
                  ("hash", ck);
                  ("date", date args)]
  /\ text el = Some (explanation args)
  /\ children el = []
  /\ children (new_entry args ck revno paper).2 = (children paper ++ [el])%list
  /\ forall w r w',
       update_paper env args od ck revno paper w = (Ret r, w') ->
       r.1 = el /\ last (children r.2) = Some el.
Proof.
  cbv zeta. repeat split; try reflexivity.
  - apply update_paper_inv in H as [paper' ->]. reflexivity.
  - apply update_paper_inv in H as [paper' ->]. simpl. apply last_snoc.
Qed.

Lemma appended_entry_attributes_witness :
  let args := with_erratum Sample.revise in
  let w := Sample.world Sample.revised Sample.pdf_v2 true in
  let paper :=
    Sample.paper_1001 [Sample.entry "revision" "1"; Sample.entry "revision" "2"] in
  exists r w',
    update_paper Sample.env args Sample.out_dir "abc" 1 paper w = (Ret r, w')
    /\ last (children r.2)
       = Some (Elem "erratum" [("id", "1"); ("href", "P18-1001e1"); ("hash", "abc");
                               ("date", "2020-05-04")] (Some "Fixed a typo") []).
Proof.
  cbv zeta.
  set (paper := Sample.paper_1001 [Sample.entry "revision" "1"; Sample.entry "revision" "2"]).
  set (args := with_erratum Sample.revise).
  set (w := Sample.world Sample.revised Sample.pdf_v2 true).
  assert (Hrun : update_paper Sample.env args Sample.out_dir "abc" 1 paper w
                 = (Ret (new_entry args "abc" 1 (update_url_hash "abc" paper)), w))
    by (vm_compute; reflexivity).
  destruct (appended_entry_attributes Sample.env args Sample.out_dir "abc" 1 paper)
    as (_ & _ & _ & _ & _ & H).
  destruct (H _ _ _ Hrun) as [_ Hlast].
  eexists _, _. split; [exact Hrun | exact Hlast].
Defined.

(** ** The first-revision bootstrap *)






(** ** [int] undoes [str] *)

Lemma nospace_rev_string s acc :
  nospace s = true -> nospace acc = true -> nospace (Py.rev_string s acc) = true.
Proof.
  revert acc. induction s as [|c s IH]; intros acc Hs Ha; simpl in *; [exact Ha |].
  apply andb_prop in Hs as [Hc Hs]. apply IH; [exact Hs |]. simpl. rewrite Hc, Ha. reflexivity.
Qed.

Lemma lstrip_nospace s : nospace s = true -> Py.lstrip s = s.
Proof.
  destruct s as [|c s]; simpl; [reflexivity |]. intros [Hc _]%andb_prop.
  apply negb_true_iff in Hc. rewrite Hc. reflexivity.
Qed.

Lemma strip_nospace s : nospace s = true -> Py.strip s = s.
Proof.
  intros H. unfold Py.strip. rewrite (lstrip_nospace s H).
  rewrite lstrip_nospace by (apply nospace_rev_string; [exact H | reflexivity]).
  apply rev_string_involutive.
Qed.

Lemma nospace_uint d : nospace (NilEmpty.string_of_uint d) = true.
Proof. induction d; simpl; auto. Qed.

Ltac eval_digit :=
  match goal with
  | |- context [Py.digit_of ?c] =>
      let v := eval vm_compute in (Py.digit_of c) in
      change (Py.digit_of c) with v; cbv iota beta
  end.

Lemma digits_acc d acc :
  Py.digits (Zpos acc) false (NilEmpty.string_of_uint d) = Some (Zpos (Pos.of_uint_acc d acc)).
Proof.
  revert acc. induction d as [|d IH|d IH|d IH|d IH|d IH|d IH|d IH|d IH|d IH|d IH];
    intros acc; [reflexivity | ..];
    cbn [NilEmpty.string_of_uint Py.digits Pos.of_uint_acc]; eval_digit;
    match goal with
    | |- Py.digits ?a false _ = Some (Zpos (Pos.of_uint_acc _ ?b)) =>
        replace a with (Zpos b) by lia
    end; apply IH.
Qed.

Lemma digits_zero d :
  Py.digits 0 false (NilEmpty.string_of_uint d) = Some (Z.of_N (Pos.of_uint d)).
Proof.
  induction d as [|d IH|d IH|d IH|d IH|d IH|d IH|d IH|d IH|d IH|d IH];
    [reflexivity | exact IH | ..];
    cbn [NilEmpty.string_of_uint Py.digits Pos.of_uint]; eval_digit;
    apply (digits_acc d).
Qed.

Lemma int_of_uint d :
  d <> Decimal.Nil ->
  Py.int (NilEmpty.string_of_uint d) = Some (Z.of_N (Pos.of_uint d))
  /\ Py.unsigned (NilEmpty.string_of_uint d) = Some (Z.of_N (Pos.of_uint d)).
Proof.
  intros Hd. pose proof (digits_zero d) as H.
  unfold Py.int. rewrite strip_nospace by apply nospace_uint.
  destruct d; [contradiction | ..]; split; exact H.
Qed.

Lemma int_str z : Py.int (Py.str z) = Some z.
Proof.
  unfold Py.str. destruct z as [|p|p]; [reflexivity | |].
  - unfold Z.to_int, NilZero.string_of_int, NilZero.string_of_uint.
    pose proof (DecimalPos.Unsigned.to_uint_nonnil p) as Hn.
    destruct (int_of_uint _ Hn) as [H _]. rewrite DecimalPos.Unsigned.of_to in H.
    destruct (Pos.to_uint p); [contradiction | exact H ..].
  - unfold Z.to_int, NilZero.string_of_int, NilZero.string_of_uint.
    pose proof (DecimalPos.Unsigned.to_uint_nonnil p) as Hn.
    destruct (int_of_uint _ Hn) as [_ H]. rewrite DecimalPos.Unsigned.of_to in H.
    assert (E : NilZero.string_of_int (Decimal.Neg (Pos.to_uint p))
                = String "-" (NilEmpty.string_of_uint (Pos.to_uint p))).
    { simpl. destruct (Pos.to_uint p); [contradiction | reflexivity ..]. }
    unfold NilZero.string_of_int, NilZero.string_of_uint in E. rewrite E.
    unfold Py.int. rewrite strip_nospace by (simpl; apply nospace_uint).
    rewrite H. reflexivity.
Qed.

(** ** The sequence numbers *)

Lemma ids_of_cons e l :
  ids_of (e :: l) = n ← id_of e; ns ← ids_of l; Some (n :: ns).
Proof. reflexivity. Qed.

Lemma ids_of_snoc l e ids n :
  ids_of l = Some ids -> id_of e = Some n -> ids_of (l ++ [e])%list = Some (ids ++ [n])%list.
Proof.
  revert ids. induction l as [|x l IH]; intros ids Hl He.
  - injection Hl as <-. change (ids_of [e] = Some [n]). rewrite ids_of_cons, He. reflexivity.
  - rewrite ids_of_cons in Hl. change ((x :: l) ++ [e])%list with (x :: (l ++ [e]))%list.
    rewrite ids_of_cons.
    destruct (id_of x) as [m|]; [| discriminate]. simpl in *.
    destruct (ids_of l) as [ms|]; [| discriminate]. simpl in *.
    injection Hl as <-. rewrite (IH ms eq_refl He). reflexivity.
Qed.

(** The loop of lines 151-152 ends with the successor of the last identifier. *)
Lemma scan_revno_last revisions ids :
  ids_of revisions = Some ids ->
  forall r0 w,
    scan_revno r0 revisions w = (Ret (from_option (fun n => n + 1) r0 (last ids)), w).
Proof.
  revert ids. induction revisions as [|r rs IH]; intros ids H r0 w.
  - injection H as <-. reflexivity.
  - rewrite ids_of_cons in H. unfold id_of in H.
    destruct (Xml.get "id" (attrib r)) as [s|] eqn:E1; [| discriminate]. simpl in H.
    destruct (Py.int s) as [n|] eqn:E2; [| discriminate]. simpl in H.
    destruct (ids_of rs) as [ns|] eqn:E3; [| discriminate]. simpl in H. injection H as <-.
    simpl. unfold bind, expect. rewrite E1. cbn. rewrite E2. cbn.
    rewrite (IH ns eq_refl (n + 1) w). destruct ns as [|m ns]; [reflexivity |].
    change (last (n :: m :: ns)) with (last (m :: ns)).
    destruct (last (m :: ns)) eqn:El; [reflexivity |]. apply last_None in El. discriminate.
Qed.

Lemma maximum_ascending x l :
  ascending (x :: l) = true -> fold_left Z.max l x = default x (last l).
Proof.
  revert x. induction l as [|y l IH]; intros x H; [reflexivity |].
  cbn [ascending] in H. apply andb_prop in H as [Hxy H]. apply Z.leb_le in Hxy.
  cbn [fold_left]. rewrite Z.max_r by exact Hxy. rewrite (IH y H).
  destruct l as [|z l]; [reflexivity |].
  change (last (y :: z :: l)) with (last (z :: l)).
  destruct (last (z :: l)) eqn:El; [reflexivity |]. apply last_None in El. discriminate.
Qed.

Lemma contiguous_snoc l x :
  contiguous l = true -> (forall y, last l = Some y -> x = y + 1) ->
  contiguous (l ++ [x]) = true.
Proof.
  induction l as [|a l IH]; intros Hc Hl; [reflexivity |].
  destruct l as [|b l].
  - simpl. rewrite (Hl a eq_refl), Z.eqb_refl. reflexivity.
  - cbn [contiguous] in Hc. apply andb_prop in Hc as [Hab Hc].
    change (contiguous ((a :: b :: l) ++ [x]))
      with ((b =? a + 1) && contiguous ((b :: l) ++ [x])).
    rewrite Hab. apply IH; [exact Hc |]. intros y Hy. apply Hl. exact Hy.
Qed.

(** The nodes of a kind, after the hash update and after a node is appended *)
Lemma filter_alter_out {A} (P : A -> Prop) `{!forall x, Decision (P x)} (f : A -> A) i l x :
  l !! i = Some x -> ~ P x -> ~ P (f x) -> filter P (list_alter f i l) = filter P l.
Proof.
  revert i. induction l as [|y l IH]; intros [|i] Hi Hx Hfx; simpl in *; try discriminate.
  - injection Hi as ->. rewrite !filter_cons. rewrite !decide_False by assumption. reflexivity.
  - rewrite !filter_cons. rewrite (IH i Hi Hx Hfx). reflexivity.
Qed.

Lemma findall_update_url_hash t ck paper :
  t <> "url" -> Xml.findall t (update_url_hash ck paper) = Xml.findall t paper.
Proof.
  intros Ht. unfold update_url_hash, Xml.find_child.
  destruct (Xml.find_index (Xml.has_tag "url") (children paper)) as [i|] eqn:E;
    [| reflexivity].
  apply find_index_Some in E as (x & Hx & Htag). unfold Xml.findall. simpl.
  apply (filter_alter_out _ _ _ _ x Hx).
  - unfold Xml.has_tag in *. apply String.eqb_eq in Htag. rewrite Htag.
    intros H%String.eqb_eq. congruence.
  - unfold Xml.has_tag in *. simpl. apply String.eqb_eq in Htag. rewrite Htag.
    intros H%String.eqb_eq. congruence.
Qed.

Lemma findall_make_simple_element t x a paper :
  Xml.findall t (make_simple_element t x a paper).2
  = (Xml.findall t paper ++ [(make_simple_element t x a paper).1])%list.
Proof.
  unfold Xml.findall, make_simple_element. simpl. rewrite filter_app, filter_cons.
  rewrite decide_True; [reflexivity |]. unfold Xml.has_tag. simpl. apply String.eqb_refl.
Qed.

Lemma change_type_not_url args : change_type args <> "url".
Proof. unfold change_type. destruct (erratum args); discriminate. Qed.

Lemma bootstrap_inv env args od paper w paper' w' :
  bootstrap env args od paper w = (Ret paper', w') ->
  exists h,
    paper' = (make_simple_element (change_type args) None
                [("id", "1"); ("href", anthology_id args ++ change_letter args ++ "1");
                 ("hash", h)] paper).2.
Proof.
  unfold bootstrap. intros H.
  apply bind_inv_ret in H as (source & w1 & _ & H).
  apply bind_inv_ret in H as ([] & w2 & _ & H).
  apply bind_inv_ret in H as ([] & w3 & _ & H).
  apply bind_inv_ret in H as (b & w4 & _ & H).
  injection H as <- _. eexists. reflexivity.
Qed.

Lemma new_entry_id args ck revno p :
  Xml.get "id" (attrib (new_entry args ck revno p).1) = Some (Py.str revno).
Proof. reflexivity. Qed.

(** C3, amended.  When the identifiers of the nodes of the kind are the
    integers [ids], in document order, the scan returns the last of them plus
    one, or 2 for a revision and 1 for an erratum when there is none.  That
    is the maximum plus one whenever the identifiers are in ascending order.
    And when they form a contiguous run, a committing run that does not start
    the bootstrap on a paper with revision nodes leaves a contiguous run
    again, ending in [revno]: the old identifiers followed by [revno], or
    1 and 2 for the first revision. *)
Theorem revno_follows_last_node env args od ck paper ids w :
  ids_of (Xml.findall (change_type args) paper) = Some ids ->
  let revno := from_option (fun n => n + 1) (initial_revno args) (last ids) in
  scan_revno (initial_revno args) (Xml.findall (change_type args) paper) w = (Ret revno, w)
  /\ (ids = [] -> revno = if erratum args then 1 else 2)
  /\ (ascending ids = true -> forall m, maximum ids = Some m -> revno = m + 1)
  /\ (contiguous ids = true ->
      erratum args = true \/ ids = [] \/ revno <> 2 ->
      forall r w',
        update_paper env args od ck revno paper w = (Ret r, w') ->
        exists ids',
          ids_of (Xml.findall (change_type args) r.2) = Some ids'
          /\ contiguous ids' = true
          /\ last ids' = Some revno
          /\ (ids' = (ids ++ [revno])%list
              \/ (ids = [] /\ erratum args = false /\ ids' = [1; 2]))).
Proof.
  intros Hids revno. split; [| split; [| split]].
  - apply scan_revno_last. exact Hids.
  - intros ->. reflexivity.
  - intros Hasc m Hm. subst revno. destruct ids as [|x l]; [discriminate |].
    injection Hm as <-. rewrite (maximum_ascending x l Hasc).
    destruct l as [|y l]; [reflexivity |].
    change (last (x :: y :: l)) with (last (y :: l)).
    destruct (last (y :: l)) eqn:El; [reflexivity |]. apply last_None in El. discriminate.
  - intros Hc Hcase r w' Hrun.
    assert (Hentry : forall p,
               id_of (new_entry args ck revno p).1 = Some revno).
    { intros p. unfold id_of. rewrite new_entry_id. apply int_str. }
    assert (Hnew : forall p ns,
               ids_of (Xml.findall (change_type args) p) = Some ns ->
               ids_of (Xml.findall (change_type args) (new_entry args ck revno p).2)
               = Some (ns ++ [revno])%list).
    { intros p ns Hp. unfold new_entry. rewrite findall_make_simple_element. apply ids_of_snoc; [exact Hp | apply (Hentry p)]. }
    pose proof (findall_update_url_hash (change_type args) ck paper
                  (change_type_not_url args)) as Hupd.
    destruct (negb (erratum args) && (revno =? 2)) eqn:Eb.
    +
      apply andb_prop in Eb as [He Hr]. apply negb_true_iff in He. apply Z.eqb_eq in Hr.
      assert (ids = []) as -> by (destruct Hcase as [H | [H | H]]; congruence).
      unfold update_paper in Hrun. rewrite He, Hr in Hrun. simpl in Hrun.
      apply bind_inv_ret in Hrun as (paper1 & w1 & Hboot & Hrun).
      apply bootstrap_inv in Hboot as [h Hp1]. injection Hrun as <- _. exists [1; 2]. rewrite Hr in *.
      split; [| split; [reflexivity | split; [reflexivity | right; auto]]].
      apply (Hnew paper1 [1]). rewrite Hp1, findall_make_simple_element, Hupd.
      apply (ids_of_snoc _ _ [] 1 Hids). reflexivity.
    +
      unfold update_paper in Hrun. rewrite Eb in Hrun.
      unfold bind, ret in Hrun.
      assert (Hr' : r = new_entry args ck revno (update_url_hash ck paper)) by congruence. clear Hrun. subst r.
      exists (ids ++ [revno])%list.
      split; [apply Hnew; rewrite Hupd; exact Hids |].
      split; [| split; [apply last_snoc | left; reflexivity]].
      apply contiguous_snoc; [exact Hc |]. intros y Hy. unfold revno. rewrite Hy.
      reflexivity.
Qed.

Lemma revno_follows_last_node_witness :
  let w := Sample.world Sample.revised Sample.pdf_v2 true in
  let paper := Sample.paper_1001 [Sample.entry "revision" "1"; Sample.entry "revision" "2"] in
  scan_revno 2 (Xml.findall "revision" paper) w = (Ret 3, w)
  /\ maximum [1; 2] = Some 2
  /\ exists r w',
       update_paper Sample.env Sample.revise Sample.out_dir "abc" 3 paper w = (Ret r, w')
       /\ ids_of (Xml.findall "revision" r.2) = Some [1; 2; 3].
Proof.
  cbv zeta.
  set (paper := Sample.paper_1001 [Sample.entry "revision" "1"; Sample.entry "revision" "2"]).
  set (w := Sample.world Sample.revised Sample.pdf_v2 true).
  assert (Hids : ids_of (Xml.findall (change_type Sample.revise) paper) = Some [1; 2])
    by (vm_compute; reflexivity).
  destruct (revno_follows_last_node Sample.env Sample.revise Sample.out_dir "abc" _ _ w Hids)
    as (Hscan & _ & Hmax & Hrun).
  split; [exact Hscan |]. split; [reflexivity |].
  assert (Hne : from_option (fun n => n + 1) (initial_revno Sample.revise) (last [1; 2]) <> 2)
    by (vm_compute; discriminate).
  assert (Hr : update_paper Sample.env Sample.revise Sample.out_dir "abc" 3 paper w
               = (Ret (new_entry Sample.revise "abc" 3 (update_url_hash "abc" paper)), w))
    by (vm_compute; reflexivity).
  pose proof (Hmax eq_refl 2 eq_refl) as Hthree.
  destruct (Hrun eq_refl (or_intror (or_intror Hne)) _ _ Hr)
    as (ids' & Hids' & _ & _ & [-> | (H & _)]); [| discriminate].
  eexists _, _. split; [exact Hr | exact Hids'].
Defined.

(** ** The check of the file type, and the command line *)

(** A file whose type is not detected, or whose detected MIME type does not
    end with the extension of the detected type, ends the run with status 1
    and a diagnostic that names the paper and the MIME type; nothing else
    changes. *)
Lemma validate_rejects env who p w f :
  files w !! p = Some f ->
  (filetype_guess env (content f) = None
   \/ exists mime ext,
        filetype_guess env (content f) = Some (mime, ext) /\ Py.endswith mime ext = false) ->
  validate_file_type env who p w
  = (Exit 1,
     mkWorld (files w) (dirs w)
       (output w ++ [(Stderr, "FATAL: " ++ who ++ " file " ++ p ++ " has MIME type "
                              ++ match filetype_guess env (content f) with
                                 | Some (mime, _) => mime
                                 | None => "UNKNOWN"
                                 end)])).
Proof.
  intros Hf H. unfold validate_file_type, read_file, bind, get_world, expect. rewrite Hf. cbn.
  destruct H as [-> | (mime & ext & -> & ->)]; reflexivity.
Qed.

(** The same, seen from [main] with a local source: no file and no directory
    is touched. *)
Lemma main_rejects_unvalidated_source env args w f :
  is_remote args = false ->
  files w !! path args = Some f ->
  (filetype_guess env (content f) = None
   \/ exists mime ext,
        filetype_guess env (content f) = Some (mime, ext) /\ Py.endswith mime ext = false) ->
  (main env args w).1 = Exit 1
  /\ files (main env args w).2 = files w
  /\ dirs (main env args w).2 = dirs w.
Proof.
  intros Hr Hf H.
  set (w1 := mkWorld (files w) (dirs w)
               (output w ++ [(Stdout, "Processing " ++ change_type args ++ " to "
                                      ++ anthology_id args ++ "...")])).
  assert (Hprep : exists w2,
             prepare env args w = (Exit 1, w2) /\ files w2 = files w /\ dirs w2 = dirs w).
  { eexists. split.
    - unfold prepare. rewrite (bind_ret _ _ w tt w1) by reflexivity.
      rewrite (bind_ret _ _ w1 (path args) w1)
        by (unfold resolve_input; rewrite Hr; reflexivity).
      apply bind_exit. apply (validate_rejects env _ _ w1 f Hf H).
    - split; reflexivity. }
  destruct Hprep as (w2 & Hprep & Hfiles & Hdirs).
  unfold main. rewrite (bind_exit _ _ _ _ _ Hprep). repeat split; assumption.
Qed.

(** The validation looks at the bytes only: two paths with the same content
    get the same verdict, whatever their extensions. *)
Lemma validate_ignores_the_name env who p p' w f f' :
  files w !! p = Some f -> files w !! p' = Some f' -> content f = content f' ->
  (validate_file_type env who p w).1 = (validate_file_type env who p' w).1.
Proof.
  intros Hf Hf' E. unfold validate_file_type, read_file, bind, get_world, expect.
  rewrite Hf, Hf'. cbn. rewrite E.
  destruct (filetype_guess env (content f')) as [[mime ext]|]; [| reflexivity].
  destruct (Py.endswith mime ext); reflexivity.
Qed.

Lemma option_like_double_dash s : Py.startswith s "--" = true -> option_like s = true.
Proof.
  intros [r ->]%prefix_split. reflexivity.
Qed.

Lemma plain_is_no_option s :
  option_like s = false ->
  bool_decide (s ∈ ["-h"; "--help"]) = false
  /\ bool_decide (s ∈ ["--erratum"; "-e"]) = false
  /\ bool_decide (s ∈ ["--dry-run"; "-n"]) = false
  /\ bool_decide (s ∈ ["--date"; "-d"; "--anthology-dir"]) = false
  /\ unknown_long_option s = false.
Proof.
  intros H.
  assert (Hin : forall l, Forall (fun o => option_like o = true) l -> bool_decide (s ∈ l) = false).
  { intros l Hl. apply bool_decide_eq_false_2. intros Hs.
    rewrite Forall_forall in Hl. specialize (Hl s Hs). congruence. }
  repeat split; try (apply Hin; repeat constructor).
  unfold unknown_long_option. destruct (Py.startswith s "--") eqn:E; [| reflexivity].
  apply option_like_double_dash in E. congruence.
Qed.

(** Three positionals and no option: the namespace has [dry_run] false, so
    [main] takes the committing branches. *)
Lemma plain_command_line_commits env home i p e :
  option_like i = false -> option_like p = false -> option_like e = false ->
  parse_args env home [i; p; e]
  = Namespace (mkArgs i p e false (today env) false (OsPath.join home ["anthology-files"])).
Proof.
  intros Hi Hp He. unfold parse_args, parse_from.
  destruct (plain_is_no_option i Hi) as (-> & -> & -> & -> & ->).
  destruct (plain_is_no_option p Hp) as (-> & -> & -> & -> & ->).
  destruct (plain_is_no_option e He) as (-> & -> & -> & -> & ->).
  rewrite Hi, Hp, He. reflexivity.
Qed.
Example split_collection : Py.split "2020.acl" "." = ["2020"; "acl"].
Proof. reflexivity. Qed.

Example split_no_separator : Py.split "P18" "." = ["P18"].
Proof. reflexivity. Qed.

Example int_examples :
  (Py.int "12", Py.int " -3 ", Py.int "1_0", Py.int "", Py.int "v2", Py.int "1__0")
  = (Some 12, Some (-3), Some 10, None, None, None).
Proof. reflexivity. Qed.

Example str_examples : (Py.str 0, Py.str 12, Py.str (-4)) = ("0", "12", "-4").
Proof. reflexivity. Qed.

Example join_examples :
  (OsPath.join "/home/a" ["pdf"; "P"; "P18"], OsPath.join "" ["pdf"; "acl"],
   OsPath.join "/srv/" ["pdf"; "/abs"])
  = ("/home/a/pdf/P/P18", "pdf/acl", "/abs").
Proof. reflexivity. Qed.

Example ancestors_examples :
  (OsPath.ancestors "/home/anth/anthology-files/pdf/P/P18", OsPath.ancestors "a//b/",
   OsPath.ancestors "new.pdf")
  = (["/home"; "/home/anth"; "/home/anth/anthology-files"; "/home/anth/anthology-files/pdf";
      "/home/anth/anthology-files/pdf/P"], ["a"; "a//b"], []).
Proof. reflexivity. Qed.

Example int_white_space :
  (Py.int (String "160" "3"), Py.int (String "133" "12 "), Py.int (String "200" "3"))
  = (Some 3, Some 12, None).
Proof. reflexivity. Qed.

Example help_comes_first :
  (parse_args Sample.env "/home/anth" ["--foo"; "-h"],
   parse_args Sample.env "/home/anth" ["--help"; "--date"],
   parse_args Sample.env "/home/anth" ["--date"; "-h"],
   parse_args Sample.env "/home/anth" ["--foo"; "P18-1001"; "new.pdf"; "Fixed a typo"])
  = (Help, Help, UsageError, UsageError).
Proof. reflexivity. Qed.

Example sample_disks_are_possible :
  (possible (Sample.archive Sample.revised Sample.pdf_v2),
   possible (Sample.site Sample.fresh Sample.pdf_v2),
   possible (main Sample.env Sample.revise (Sample.site Sample.fresh Sample.pdf_v2)).2)
  = (true, true, true).
Proof. vm_compute. reflexivity. Qed.

Example dirname_examples :
  (OsPath.dirname "bin/add_revision.py", OsPath.dirname "add_revision.py",
   OsPath.dirname "/x", OsPath.dirname "a//b", OsPath.basename "a/b.pdf")
  = ("bin", "", "/", "a", "b.pdf").
Proof. reflexivity. Qed.


(** * Further properties of the script *)

(** ** Fatal paths and the scratch file *)

(** X2.  A remote source whose download meets an SSL error: the run ends with
    status 1 after the three lines below; the empty scratch file that
    [mkstemp] made is all that changed on disk, no directory is created and
    the record is not read. *)
Theorem ssl_failure_is_fatal env args w :
  is_remote args = true ->
  urlopen env (path args) = SSLError ->
  main env args w
  = (Exit 1,
     mkWorld (<[mkstemp_path env := mkFile [] mode_0600]> (files w)) (dirs w)
       (output w ++
        [(Stdout, "Processing " ++ change_type args ++ " to " ++ anthology_id args ++ "...");
         (Stderr, "-> Downloading file from " ++ path args ++ " to " ++ mkstemp_path env);
         (Stderr, "-> FATAL: An SSL error was encountered in downloading " ++ path args
                  ++ ".")])).
Proof.
  intros Hr Hssl. unfold main. apply bind_exit. unfold prepare.
  set (w1 := mkWorld (files w) (dirs w)
               (output w ++ [(Stdout, "Processing " ++ change_type args ++ " to "
                                      ++ anthology_id args ++ "...")])).
  rewrite (bind_ret _ _ w tt w1) by reflexivity. apply bind_exit.
  unfold resolve_input. rewrite Hr.
  set (w2 := mkWorld (<[mkstemp_path env := mkFile [] mode_0600]> (files w1)) (dirs w1)
               (output w1)).
  rewrite (bind_ret _ _ w1 (mkstemp_path env) w2) by reflexivity. apply bind_exit.
  unfold download_file.
  set (w3 := mkWorld (files w2) (dirs w2)
               (output w2 ++ [(Stderr, "-> Downloading file from " ++ path args ++ " to "
                                       ++ mkstemp_path env)])).
  rewrite (bind_ret _ _ w2 tt w3) by reflexivity. rewrite Hssl.
  unfold bind, print, sys_exit, w3, w2, w1. cbn [files dirs output].
  rewrite <- !List.app_assoc. reflexivity.
Qed.

Lemma ssl_failure_is_fatal_witness :
  let args :=
    mkArgs "P18-1001" "https://example.org/broken.pdf" "Fixed a typo" false "2020-05-04"
           false "/home/anth/anthology-files" in
  let r := main Sample.env args (Sample.world Sample.fresh [] false) in
  r.1 = Exit 1
  /\ files r.2 !! "/tmp/tmpk3x9" = Some (mkFile [] mode_0600)
  /\ dirs r.2 = ∅
  /\ files r.2 !! Sample.xml_path = Some (mkFile (Sample.write Sample.fresh) mode_0644).
Proof.
  cbv zeta.
  rewrite (ssl_failure_is_fatal Sample.env
             (mkArgs "P18-1001" "https://example.org/broken.pdf" "Fixed a typo" false
                "2020-05-04" false "/home/anth/anthology-files")
             (Sample.world Sample.fresh [] false) eq_refl eq_refl).
  repeat split; vm_compute; reflexivity.
Defined.

Lemma find_paper_run root v pid w pos :
  Py.contains "'" v = false -> Py.contains "'" pid = false ->
  Xml.locate v pid root = pos -> find_paper root v pid w = (Ret pos, w).
Proof. intros Hv Hp <-. unfold find_paper. rewrite Hv, Hp. reflexivity. Qed.

(** X3.  When the record parses but holds no paper with the given volume and
    paper identifiers, the run ends with status 1 and the diagnostic of line
    209, in a dry run and in a committing run alike; the world is the one
    [prepare] left, so neither the record nor any archive file is written,
    and a downloaded scratch file stays behind. *)
Theorem unknown_paper_is_fatal env args w p w1 xf root :
  prepare env args w = (Ret p, w1) ->
  files w1 !! xml_file env (collection_id p) = Some xf ->
  xml_parse env (content xf) = Some root ->
  Py.contains "'" (volume_id p) = false -> Py.contains "'" (paper_id p) = false ->
  Xml.locate (volume_id p) (paper_id p) root = None ->
  main env args w
  = (Exit 1,
     mkWorld (files w1) (dirs w1)
       (output w1 ++ [(Stderr, "-> FATAL: paper ID " ++ anthology_id args
                               ++ " not found in the Anthology")])).
Proof.
  intros Hprep Hf Hparse Hv Hp Hloc. unfold main.
  rewrite (bind_ret _ _ _ _ _ Hprep). apply bind_exit. unfold update_xml.
  rewrite (bind_ret _ _ _ _ _ (et_parse_run _ _ _ _ _ Hf Hparse)).
  rewrite (bind_ret _ _ _ _ _ (find_paper_run _ _ _ _ _ Hv Hp Hloc)).
  reflexivity.
Qed.

Lemma unknown_paper_is_fatal_witness :
  let args :=
    mkArgs "P18-1002" "https://example.org/new.pdf" "Fixed a typo" false "2020-05-04" false
           "/home/anth/anthology-files" in
  let w := Sample.world Sample.fresh [] true in
  let r := main Sample.env args w in
  r.1 = Exit 1
  /\ files r.2 !! Sample.xml_path = files w !! Sample.xml_path
  /\ files r.2 !! Sample.canonical = files w !! Sample.canonical
  /\ content <$> files r.2 !! "/tmp/tmpk3x9" = Some Sample.pdf_v2.
Proof.
  cbv zeta.
  set (args := mkArgs "P18-1002" "https://example.org/new.pdf" "Fixed a typo" false
                 "2020-05-04" false "/home/anth/anthology-files").
  set (w := Sample.world Sample.fresh [] true).
  rewrite (unknown_paper_is_fatal Sample.env args w
             (mkPrepared "/tmp/tmpk3x9" "P18" "1" "002" (Sample.digest Sample.pdf_v2)
                Sample.out_dir)
             (prepare Sample.env args w).2
             (mkFile (Sample.write Sample.fresh) mode_0644) Sample.fresh).
  - repeat split; vm_compute; reflexivity.
  - apply returned. vm_compute. reflexivity.
  - vm_compute. reflexivity.
  - vm_compute. reflexivity.
  - reflexivity.
  - reflexivity.
  - vm_compute. reflexivity.
Defined.

Lemma os_remove_gone p w w' : os_remove p w = (Ret tt, w') -> files w' !! p = None.
Proof.
  unfold os_remove, bind, get_world, expect. destruct (files w !! p); [| discriminate].
  cbn. intros [= <-]. cbn. apply lookup_delete_eq.
Qed.

(** X4.  With a remote source, every run that returns normally, dry or
    committing, revision or erratum, has removed the scratch file of the
    download. *)
Theorem scratch_file_is_removed env args w w' :
  is_remote args = true ->
  main env args w = (Ret tt, w') ->
  files w' !! mkstemp_path env = None.
Proof.
  intros Hr Hrun. unfold main in Hrun.
  apply bind_inv_ret in Hrun as (p & w1 & Hprep & Hrun).
  apply bind_inv_ret in Hrun as (revno & w2 & _ & Hrun).
  destruct (prepare_returns env args w p w1 Hprep) as (Hin & _). rewrite Hr in Hin.
  unfold copy_files in Hrun.
  apply bind_inv_ret in Hrun as ([] & w3 & _ & Hrun).
  apply bind_inv_ret in Hrun as ([] & w4 & _ & Hrun).
  rewrite Hr, Hin in Hrun. apply (os_remove_gone _ _ _ Hrun).
Qed.

Lemma scratch_file_is_removed_witness :
  let args :=
    mkArgs "P18-1001" "https://example.org/new.pdf" "Fixed a typo" false "2020-05-04" true
           "/home/anth/anthology-files" in
  files (main Sample.env args (Sample.world Sample.fresh [] true)).2 !! "/tmp/tmpk3x9" = None.
Proof.
  cbv zeta.
  apply (scratch_file_is_removed Sample.env
           (mkArgs "P18-1001" "https://example.org/new.pdf" "Fixed a typo" false
              "2020-05-04" true "/home/anth/anthology-files")
           (Sample.world Sample.fresh [] true)); [reflexivity |].
  apply returned. vm_compute. reflexivity.
Defined.

(** ** The files and directories of a run *)

Lemma prefix_refl s : String.prefix s s = true.
Proof. rewrite <- (append_nil_r s) at 2. apply prefix_append. Qed.

(** A committing copy that returns: the destination, when it is not a
    directory, holds the bytes of the source with the mode 0o644, and nothing
    else changed. *)
Lemma maybe_copy_commit args src dst w w' f :
  dry_run args = false -> dst ∉ dirs w -> files w !! src = Some f ->
  maybe_copy args src dst w = (Ret tt, w') ->
  src <> dst
  /\ files w' !! dst = Some (mkFile (content f) mode_0644)
  /\ (forall q, q <> dst -> files w' !! q = files w !! q)
  /\ dirs w' = dirs w.
Proof.
  intros Hd Hdir Hf H. unfold maybe_copy in H. rewrite Hd in H. simpl in H.
  unfold bind, print, shutil_copy, get_world, expect, os_chmod, set_files in H. cbn in H.
  rewrite (bool_decide_eq_false_2 (dst ∈ dirs w)) in H by exact Hdir.
  case_bool_decide; [discriminate |]. rewrite Hf in H. cbn in H.
  rewrite lookup_insert_eq in H. cbn in H. injection H as <-. cbn.
  split; [assumption |]. split; [apply lookup_insert_eq |]. split; [| reflexivity].
  intros q Hq. rewrite !lookup_insert_ne by congruence. reflexivity.
Qed.

Lemma versioned_not_below_canonical args od n src :
  OsPath.join (canonical_path args od) [OsPath.basename src] <> versioned_path args od n.
Proof.
  intros E.
  pose proof (join_basename_starts (canonical_path args od) src (canonical_path args od)
                (prefix_refl _)) as H.
  rewrite E in H. unfold Py.startswith in H.
  rewrite versioned_path_stem, canonical_path_stem, prefix_append_same in H.
  unfold change_letter in H. destruct (erratum args); discriminate.
Qed.

(** X5.  A committing run that returns has stored the input file under the
    versioned name of the change, [<id><letter><revno>.pdf] in the storage
    directory, with the bytes the input had after [prepare] and the mode
    0o644; this holds for revisions and for errata.  The input is to be
    another file than the record of the collection and, for a revision,
    than the [v1] file that the bootstrap writes: under another spelling of
    one of these the input would be overwritten before it is copied. *)
Theorem versioned_copy_is_stored env args w p w1 f revno w2 w' :
  dry_run args = false ->
  prepare env args w = (Ret p, w1) ->
  files w1 !! input_file_path p = Some f ->
  file_id env (input_file_path p) <> file_id env (xml_file env (collection_id p)) ->
  (erratum args = false ->
   file_id env (input_file_path p) <> file_id env (versioned_path args (output_dir p) "1")) ->
  update_xml env args (output_dir p) (checksum p) (collection_id p) (volume_id p)
    (paper_id p) w1 = (Ret revno, w2) ->
  versioned_path args (output_dir p) (Py.str revno) ∉ dirs w1 ->
  main env args w = (Ret tt, w') ->
  files w' !! versioned_path args (output_dir p) (Py.str revno)
  = Some (mkFile (content f) mode_0644).
Proof.
  intros Hd Hprep Hf Hidx Hidv Hxml Hdir Hrun.
  assert (Hx : input_file_path p <> xml_file env (collection_id p))
    by (intros E; apply Hidx; rewrite E; reflexivity).
  assert (Hv1 : erratum args = false ->
                input_file_path p <> versioned_path args (output_dir p) "1")
    by (intros He E; apply (Hidv He); rewrite E; reflexivity).
  clear Hidx Hidv.
  unfold main in Hrun. rewrite (bind_ret _ _ _ _ _ Hprep) in Hrun.
  rewrite (bind_ret _ _ _ _ _ Hxml) in Hrun.
  destruct (prepare_returns env args w p w1 Hprep) as (Hin & _).
  remember (input_file_path p) as src eqn:Esrc in *.
  remember (output_dir p) as od eqn:Eod in *.
  set (vp := versioned_path args od (Py.str revno)) in *.
  pose proof (holds_print src (content f) vp) as Hp.
  assert (H1 : holds src (content f) vp w1).
  { split; [rewrite Hf; reflexivity | exact Hdir]. }
  assert (H2 : holds src (content f) vp w2).
  { pose proof (update_xml_keeps env args _ Hp od (checksum p) (collection_id p)
                  (volume_id p) (paper_id p)) as Hk.
    assert (Hw : dry_run args = false ->
                 stable_write (holds src (content f) vp) (xml_file env (collection_id p))
                 /\ (erratum args = false ->
                     stable_write (holds src (content f) vp) (versioned_path args od "1"))).
    { intros _. split; [| intros He]; apply holds_write; [congruence |].
      intros E. apply (Hv1 He). symmetry. exact E. }
    specialize (Hk Hw w1 H1). rewrite Hxml in Hk. apply Hk. }
  destruct H2 as [Hsrc Hvp].
  destruct (files w2 !! src) as [f2|] eqn:Hf2; [| discriminate]. injection Hsrc as Hsrc.
  unfold copy_files in Hrun.
  apply bind_inv_ret in Hrun as ([] & w3 & Hcopy1 & Hrun).
  apply bind_inv_ret in Hrun as ([] & w4 & Hcopy2 & Hrun).
  destruct (maybe_copy_commit args src vp w2 w3 f2 Hd Hvp Hf2 Hcopy1)
    as (Hne & Hstored & Hother & Hdirs).
  rewrite Hsrc in Hstored.
  assert (H4 : files w4 !! vp = files w3 !! vp).
  { destruct (erratum args) eqn:He; simpl in Hcopy2; [injection Hcopy2 as <-; reflexivity |].
    pose proof (maybe_copy_keeps args (agree vp w3) (agree_print vp w3) src
                  (canonical_path args od)) as Hk.
    assert (Hs : dry_run args = false ->
                 stable_copy (agree vp w3) src (canonical_path args od)
                 /\ stable_copy (agree vp w3) src
                      (OsPath.join (canonical_path args od) [OsPath.basename src])
                 /\ stable_chmod (agree vp w3) (canonical_path args od)).
    { intros _. pose proof (versioned_not_canonical args od (Py.str revno)) as Hvc.
      assert (Hcv : canonical_path args od <> vp) by (intros E; apply Hvc; rewrite E; reflexivity).
      split; [apply agree_copy; exact Hcv |].
      split; [apply agree_copy, versioned_not_below_canonical | apply agree_chmod; exact Hcv]. }
    specialize (Hk Hs w3 eq_refl). rewrite Hcopy2 in Hk. apply Hk. }
  destruct (is_remote args).
  - rewrite (os_remove_result _ _ _ Hrun) by congruence. rewrite H4. exact Hstored.
  - injection Hrun as <-. rewrite H4. exact Hstored.
Qed.

Lemma versioned_copy_is_stored_witness :
  let w := Sample.archive Sample.fresh Sample.pdf_v2 in
  files (main Sample.env Sample.revise w).2 !! (Sample.out_dir ++ "/P18-1001v2.pdf")
  = Some (mkFile Sample.pdf_v2 mode_0644).
Proof.
  cbv zeta.
  set (args := Sample.revise).
  set (w := Sample.archive Sample.fresh Sample.pdf_v2).
  apply (versioned_copy_is_stored Sample.env args w
           (mkPrepared "new.pdf" "P18" "1" "001" (Sample.digest Sample.pdf_v2) Sample.out_dir)
           (prepare Sample.env args w).2 (mkFile Sample.pdf_v2 mode_0600) 2
           (update_xml Sample.env args Sample.out_dir (Sample.digest Sample.pdf_v2)
              "P18" "1" "001" (prepare Sample.env args w).2).2).
  - reflexivity.
  - apply returned. vm_compute. reflexivity.
  - vm_compute. reflexivity.
  - discriminate.
  - intros _. discriminate.
  - apply returned. vm_compute. reflexivity.
  - apply (bool_decide_eq_false_1 (_ ∈ _)). vm_compute. reflexivity.
  - apply returned. vm_compute. reflexivity.
Defined.

(** X6.  Whatever the mode, the kind and the way the run ends, the regular
    files it may create, change or remove are the record of the collection,
    the scratch file of a download, and paths that start with the storage
    directory joined with the identifier; every other path holds afterwards
    what it held before. *)
Theorem run_writes_only_known_paths env args w c v pid od q :
  deconstruct_anthology_id env (anthology_id args) = Some (c, v, pid) ->
  select_output_dir env args c w = (Ret od, w) ->
  q <> xml_file env c ->
  (is_remote args = true -> q <> mkstemp_path env) ->
  Py.startswith q (stem args od) = false ->
  files (main env args w).2 !! q = files w !! q.
Proof.
  intros Hparts Hod Hx Ht Hs. apply (main_agree env args q w); [| | reflexivity].
  - intros Hr E. apply (Ht Hr). symmetry. exact E.
  - intros _ c' v' pid' od' Hp' Ho'. rewrite Hparts in Hp'. injection Hp' as -> -> ->.
    assert (od' = od) as -> by (specialize (Ho' w); rewrite Hod in Ho'; congruence).
    assert (Hstem : forall t, Py.startswith t (stem args od) = true -> t <> q).
    { intros t Ht' ->. congruence. }
    split; [congruence |]. split.
    + destruct (Py.startswith q (stem args od ++ change_letter args)) eqn:E; [| reflexivity].
      exfalso. unfold Py.startswith in *.
      rewrite (prefix_trans (stem args od) (stem args od ++ change_letter args) q) in Hs;
        [discriminate | apply prefix_append | exact E].
    + intros _.
      assert (Hcan : Py.startswith (canonical_path args od) (stem args od) = true).
      { rewrite canonical_path_stem. apply prefix_append. }
      split; [apply Hstem; exact Hcan |].
      intros src. apply Hstem. apply join_basename_starts. exact Hcan.
Qed.

Lemma run_writes_only_known_paths_witness :
  let w := Sample.world Sample.fresh Sample.pdf_v2 true in
  files (main Sample.env Sample.revise w).2 !! "new.pdf" = files w !! "new.pdf".
Proof.
  cbv zeta.
  apply (run_writes_only_known_paths Sample.env Sample.revise _ "P18" "1" "001"
           Sample.out_dir "new.pdf" eq_refl eq_refl);
    [discriminate | discriminate | reflexivity].
Defined.

(** ** Identifiers that are no numbers *)

Lemma scan_revno_stops good bad rest ids r0 w :
  ids_of good = Some ids -> id_of bad = None ->
  scan_revno r0 (good ++ bad :: rest)%list w
  = (Raise (match Xml.get "id" (attrib bad) with
            | Some _ => ValueError
            | None => KeyError
            end), w).
Proof.
  revert ids r0. induction good as [|g good IH]; intros ids r0 Hg Hb.
  - simpl. unfold bind, expect. unfold id_of in Hb.
    destruct (Xml.get "id" (attrib bad)) as [s|]; [| reflexivity].
    simpl in Hb. cbn. rewrite Hb. reflexivity.
  - rewrite ids_of_cons in Hg. unfold id_of in Hg at 1.
    destruct (Xml.get "id" (attrib g)) as [s|] eqn:E1; [| discriminate]. simpl in Hg.
    destruct (Py.int s) as [n|] eqn:E2; [| discriminate]. simpl in Hg.
    destruct (ids_of good) as [ns|] eqn:E3; [| discriminate].
    change ((g :: good) ++ bad :: rest)%list with (g :: (good ++ bad :: rest))%list.
    simpl. unfold bind, expect. rewrite E1. cbn. rewrite E2. cbn.
    apply (IH ns (n + 1) eq_refl Hb).
Qed.

(** X7.  A node of the kind of the change whose [id] is missing, or is a
    string of ASCII characters that [int] does not accept, stops the run at
    the scan of lines 150-152, with a KeyError or a ValueError: the record is
    not rewritten and nothing is printed, in a committing run as in a dry
    run. *)
Theorem malformed_id_stops_the_run env args od ck c v pid w xf root pos paper good bad rest ids :
  files w !! xml_file env c = Some xf ->
  xml_parse env (content xf) = Some root ->
  Py.contains "'" v = false -> Py.contains "'" pid = false ->
  Xml.locate v pid root = Some pos ->
  Xml.paper_at root pos = Some paper ->
  Xml.findall (change_type args) paper = (good ++ bad :: rest)%list ->
  ids_of good = Some ids -> id_of bad = None ->
  (forall s, Xml.get "id" (attrib bad) = Some s -> ascii_only s = true) ->
  update_xml env args od ck c v pid w
  = (Raise (match Xml.get "id" (attrib bad) with
            | Some _ => ValueError
            | None => KeyError
            end), w).
Proof.
  intros Hf Hparse Hv Hpid Hloc Hpaper Hall Hgood Hbad _. unfold update_xml.
  rewrite (bind_ret _ _ _ _ _ (et_parse_run env _ w xf root Hf Hparse)).
  rewrite (bind_ret _ _ _ _ _ (find_paper_run root v pid w _ Hv Hpid Hloc)).
  simpl. rewrite Hpaper. simpl. apply bind_raise. rewrite Hall.
  apply (scan_revno_stops good bad rest ids _ w Hgood Hbad).
Qed.

Lemma malformed_id_stops_the_run_witness :
  let doc := Sample.collection
               [Sample.paper_1001 [Sample.entry "revision" "1"; Sample.entry "revision" "2b"]] in
  let w := Sample.archive doc Sample.pdf_v2 in
  update_xml (reading [doc]) Sample.revise Sample.out_dir "abc" "P18" "1" "001" w
  = (Raise ValueError, w).
Proof.
  cbv zeta.
  set (doc := Sample.collection
                [Sample.paper_1001 [Sample.entry "revision" "1"; Sample.entry "revision" "2b"]]).
  apply (malformed_id_stops_the_run (reading [doc]) Sample.revise Sample.out_dir "abc"
           "P18" "1" "001" (Sample.archive doc Sample.pdf_v2)
           (mkFile (Sample.write doc) mode_0644) doc (0%nat, 0%nat)
           (Sample.paper_1001 [Sample.entry "revision" "1"; Sample.entry "revision" "2b"])
           [Sample.entry "revision" "1"] (Sample.entry "revision" "2b") [] [1]);
    try (vm_compute; reflexivity).
  intros s [= <-]. reflexivity.
Defined.

(** ** A dry run as a preview *)

(** X12.  When the committing run gets through the record and numbers the
    change [r], the dry run on the same world numbers it [r] as well, and
    leaves the world as it found it, its output included. *)
Theorem dry_run_previews_revno env args od ck c v pid w r w' :
  dry_run args = false ->
  update_xml env args od ck c v pid w = (Ret r, w') ->
  update_xml env (with_dry_run args) od ck c v pid w = (Ret r, w).
Proof.
  intros Hd H. unfold update_xml in *.
  apply bind_inv_ret in H as (root & w1 & Hroot & H).
  assert (w1 = w) as ->.
  { unfold et_parse, bind, get_world, expect in Hroot.
    destruct (files w !! xml_file env c) as [f|]; [| discriminate]. cbn in Hroot.
    destruct (xml_parse env (content f)); [| discriminate]. cbn in Hroot.
    unfold ret in Hroot. congruence. }
  rewrite (bind_ret _ _ _ _ _ Hroot).
  apply bind_inv_ret in H as (pos & w1 & Hpos & H).
  assert (w1 = w) as ->.
  { unfold find_paper in Hpos. destruct (_ || _); [discriminate |].
    unfold ret in Hpos. congruence. }
  rewrite (bind_ret _ _ _ _ _ Hpos).
  destruct (pos ≫= _) as [[pos' paper]|].
  - apply bind_inv_ret in H as (revno & w1 & Hscan & H).
    destruct (scan_revno_pure (initial_revno args) (Xml.findall (change_type args) paper))
      as [o Ho].
    rewrite Ho in Hscan. injection Hscan as -> <-.
    apply bind_inv_ret in H as ([] & w2 & _ & H). injection H as <- _.
    change (initial_revno (with_dry_run args)) with (initial_revno args).
    change (change_type (with_dry_run args)) with (change_type args).
    rewrite (bind_ret _ _ _ _ _ (Ho w)). reflexivity.
  - apply bind_inv_ret in H as ([] & w1 & _ & H). discriminate.
Qed.

Lemma dry_run_previews_revno_witness :
  let w := Sample.world Sample.revised Sample.pdf_v2 true in
  update_xml Sample.env (with_dry_run Sample.revise) Sample.out_dir "abc" "P18" "1" "001" w
  = (Ret 3, w).
Proof.
  cbv zeta.
  apply (dry_run_previews_revno Sample.env Sample.revise Sample.out_dir "abc" "P18" "1" "001"
           (Sample.world Sample.revised Sample.pdf_v2 true) 3
           (update_xml Sample.env Sample.revise Sample.out_dir "abc" "P18" "1" "001"
              (Sample.world Sample.revised Sample.pdf_v2 true)).2 eq_refl).
  apply returned. vm_compute. reflexivity.
Defined.

(** ** The scratch file of a failed run *)

Lemma hoare_bind_unless {A B} P I R (Q : Outcome B -> World -> Prop) (m : M A) (k : A -> M B) :
  hoare P m (always I R) ->
  (forall a, R a -> hoare I (k a) Q) ->
  (forall c w, I w -> Q (Exit c) w) ->
  (forall e w, I w -> Q (Raise e) w) ->
  hoare P (bind m k) Q.
Proof.
  intros Hm Hk Hc He. apply hoare_bind with (Q1 := always I R); auto.
  - intros a w [HI HR]. apply Hk; auto.
  - intros c w [HI _]. auto.
  - intros e w [HI _]. auto.
Qed.

Lemma hoare_bind_from {A B} P I R R' (m : M A) (k : A -> M B) :
  hoare P m (always I R) ->
  (forall a, R a -> hoare I (k a) (always I R')) ->
  hoare P (bind m k) (always I R').
Proof.
  intros Hm Hk. apply hoare_bind_unless with (I := I) (R := R); auto.
  - intros c w HI. split; [exact HI | discriminate].
  - intros e w HI. split; [exact HI | discriminate].
Qed.

Section Scratch.

Context (env : Env).

Lemma scratch_print : stable_print (scratch env).
Proof. intros w o H. exact H. Qed.

Lemma scratch_write p : stable_write (scratch env) p.
Proof.
  intros w f H. unfold scratch in *. cbn.
  destruct (decide (p = mkstemp_path env)) as [-> | Hne];
    [rewrite lookup_insert_eq; eauto | rewrite lookup_insert_ne by exact Hne; exact H].
Qed.

Lemma scratch_chmod p : stable_chmod (scratch env) p.
Proof.
  intros w f m H _. unfold scratch in *. cbn.
  destruct (decide (p = mkstemp_path env)) as [-> | Hne];
    [rewrite lookup_insert_eq; eauto | rewrite lookup_insert_ne by exact Hne; exact H].
Qed.

Lemma scratch_mkdir p : stable_mkdir (scratch env) p.
Proof. intros w H. exact H. Qed.

Lemma scratch_copy src dst : stable_copy (scratch env) src dst.
Proof.
  intros w f H _ _. unfold scratch in *. cbn.
  destruct (decide (dst = mkstemp_path env)) as [-> | Hne];
    [rewrite lookup_insert_eq; eauto | rewrite lookup_insert_ne by exact Hne; exact H].
Qed.

(** With a remote source, [prepare] leaves the scratch file behind however
    it ends. *)
Lemma prepare_makes_scratch args :
  is_remote args = true ->
  hoare (fun _ => True) (prepare env args) (always (scratch env) (prepared_by env args)).
Proof.
  intros Hr. pose proof scratch_print as Hp. unfold prepare.
  apply hoare_bind with (Q1 := fun o _ => o = Ret tt).
  - intros w _. reflexivity.
  - intros [].
    eapply hoare_weaken with (P := fun _ => True)
                             (Q := always (scratch env) (prepared_by env args)); [| auto | auto].
    eapply hoare_bind_from with (R := fun p => p = mkstemp_path env).
    + unfold resolve_input. rewrite Hr.
      eapply hoare_bind_from with (R := fun p => p = mkstemp_path env).
      * intros w _. split; [| cbn; intros a [= <-]; reflexivity].
        unfold scratch. cbn. rewrite lookup_insert_eq. eauto.
      * intros p ->.
        eapply hoare_bind_always;
          [apply download_file_keeps; [exact Hp | apply scratch_write] |].
        intros _ _. apply hoare_ret_always. reflexivity.
    + intros input Hinput.
      eapply hoare_bind_always; [apply validate_file_type_keeps; auto |]. intros _ _.
      eapply hoare_bind_always; [apply hoare_expect_always |]. intros [[c v] pid] Hparts.
      eapply hoare_bind_always; [apply read_file_keeps |]. intros b _.
      eapply hoare_bind_always; [apply select_output_dir_keeps |]. intros od Hod.
      eapply hoare_bind_always;
        [apply ensure_directory_keeps; [exact Hp | apply scratch_mkdir] |].
      intros _ _. apply hoare_ret_always.
      split; [simpl; rewrite Hr; exact Hinput | split; assumption].
  - intros c w H. discriminate.
  - intros e w H. discriminate.
Qed.

Lemma copy_files_scratch args od revno :
  is_remote args = true ->
  hoare (scratch env) (copy_files args (mkstemp_path env) od revno)
    (fun o w => o <> Ret tt -> scratch env w).
Proof.
  intros Hr. pose proof scratch_print as Hp. unfold copy_files.
  assert (Hcopy : forall dst,
             hoare (scratch env) (maybe_copy args (mkstemp_path env) dst)
               (always (scratch env) anything)).
  { intros dst. apply maybe_copy_keeps; [exact Hp |]. intros _.
    split; [apply scratch_copy | split; [apply scratch_copy | apply scratch_chmod]]. }
  eapply hoare_bind_unless with (I := scratch env) (R := anything); [apply Hcopy | | auto ..].
  intros _ _.
  eapply hoare_bind_unless with (I := scratch env) (R := anything); [| | auto ..].
  - destruct (erratum args); simpl; [apply hoare_ret_always; exact Logic.I | apply Hcopy].
  - intros _ _. rewrite Hr. intros w [f Hf] Hne. exfalso. apply Hne.
    unfold os_remove, bind, get_world, expect. rewrite Hf. reflexivity.
Qed.

End Scratch.

(** X8.  With a remote source, a run that does not return normally, whether
    it exits or raises, leaves the scratch file of the download on disk: the
    removal of line 226 is the last statement and nothing else removes it. *)
Theorem scratch_file_outlives_a_failed_run env args w :
  is_remote args = true ->
  (main env args w).1 <> Ret tt ->
  is_Some (files (main env args w).2 !! mkstemp_path env).
Proof.
  intros Hr.
  assert (H : hoare (fun _ => True) (main env args) (fun o w => o <> Ret tt -> scratch env w)).
  { unfold main.
    eapply hoare_bind_unless with (I := scratch env) (R := prepared_by env args);
      [apply prepare_makes_scratch, Hr | | auto ..].
    intros p (Hin & _). rewrite Hr in Hin.
    eapply hoare_bind_unless with (I := scratch env) (R := anything); [| | auto ..].
    - apply update_xml_keeps; [apply scratch_print |]. intros _.
      split; [apply scratch_write | intros _; apply scratch_write].
    - intros revno _. rewrite Hin. apply copy_files_scratch, Hr. }
  apply (H w Logic.I).
Qed.

Lemma scratch_file_outlives_a_failed_run_witness :
  let args := mkArgs "P18-1002" "https://example.org/new.pdf" "" false "" false
                "/home/anth/anthology-files" in
  let w := Sample.world Sample.fresh Sample.pdf_v2 true in
  is_Some (files (main Sample.env args w).2 !! "/tmp/tmpk3x9").
Proof.
  cbv zeta.
  apply (scratch_file_outlives_a_failed_run Sample.env
           (mkArgs "P18-1002" "https://example.org/new.pdf" "" false "" false
              "/home/anth/anthology-files")
           (Sample.world Sample.fresh Sample.pdf_v2 true) eq_refl).
  vm_compute. discriminate.
Defined.

(** ** Directories *)

Section Grown.

Context (P : string -> Prop) (w0 : World).

Lemma grown_print : stable_print (grown_by P w0).
Proof. intros w o H. exact H. Qed.

Lemma grown_write p : stable_write (grown_by P w0) p.
Proof. intros w f H. exact H. Qed.

Lemma grown_chmod p : stable_chmod (grown_by P w0) p.
Proof. intros w f m H _. exact H. Qed.

Lemma grown_remove p : stable_remove (grown_by P w0) p.
Proof. intros w H. exact H. Qed.

Lemma grown_copy src dst : stable_copy (grown_by P w0) src dst.
Proof. intros w f H _ _. exact H. Qed.

Lemma grown_mkdir p :
  (forall x, x ∈ p :: OsPath.ancestors p -> P x) -> stable_mkdir (grown_by P w0) p.
Proof.
  intros Hp w [H1 H2]. split; cbn [dirs].
  - intros x Hx. apply elem_of_union. right. apply H1, Hx.
  - intros x [Hx%elem_of_list_to_set | Hx]%elem_of_union; [right; apply Hp, Hx | auto].
Qed.

End Grown.

(** X11.  A run removes no directory, and the directories it creates are
    the storage directory that [select_output_dir] computes for the
    collection of the identifier and directories above it; this holds
    however the run ends, in a dry run as well. *)
Theorem only_the_storage_path_is_created env args w :
  dirs w ⊆ dirs (main env args w).2
  /\ forall x, x ∈ dirs (main env args w).2 ->
       x ∈ dirs w \/ exists od, storage_of env args od /\ x ∈ od :: OsPath.ancestors od.
Proof.
  set (P := fun x => exists od, storage_of env args od /\ x ∈ od :: OsPath.ancestors od).
  set (I := grown_by P w).
  pose proof (grown_print P w) as Hp.
  assert (H : hoare I (main env args) (always I anything)).
  { unfold main. eapply hoare_bind_always.
    { apply prepare_keeps; [exact Hp | intros _; apply grown_write |].
      intros c v pid od Hparts Hod. apply grown_mkdir. intros x Hx.
      exists od. split; [exists c, v, pid; auto | exact Hx]. }
    intros p _. eapply hoare_bind_always.
    - apply update_xml_keeps; [exact Hp |]. intros _.
      split; [apply grown_write | intros _; apply grown_write].
    - intros revno _. apply copy_files_keeps; [exact Hp | |].
      + intros _.
        split; [split; [apply grown_copy | split; [apply grown_copy | apply grown_chmod]] |].
        intros _. split; [apply grown_copy | split; [apply grown_copy | apply grown_chmod]].
      + intros _. apply grown_remove. }
  assert (HI : I w) by (split; [reflexivity | auto]).
  destruct (H w HI) as [[H1 H2] _]. split; assumption.
Qed.

(** ** Exit statuses *)



Section Exits.

Context (env : Env) (c : Z).













End Exits.

Section ExitsOfTheScript.

Context (env : Env) (args : Args).








End ExitsOfTheScript.



(** ** The tree of the record *)

Lemma get_set_eq k v a : Xml.get k (Xml.set k v a) = Some v.
Proof.
  induction a as [|[k' v'] a IH]; simpl.
  - rewrite String.eqb_refl. reflexivity.
  - destruct (String.eqb_spec k k') as [-> | Hne]; simpl.
    + rewrite String.eqb_refl. reflexivity.
    + destruct (String.eqb_spec k k'); [contradiction | exact IH].
Qed.

Lemma get_set_ne k k' v a : k' <> k -> Xml.get k' (Xml.set k v a) = Xml.get k' a.
Proof.
  intros Hne. induction a as [|[k0 v0] a IH]; simpl.
  - destruct (String.eqb_spec k' k); [contradiction | reflexivity].
  - destruct (String.eqb_spec k k0) as [-> | Hk]; simpl.
    + destruct (String.eqb_spec k' k0); [contradiction | reflexivity].
    + rewrite IH. reflexivity.
Qed.

Lemma find_index_first {A} (p : A -> bool) l i :
  Xml.find_index p l = Some i ->
  forall j x, (j < i)%nat -> l !! j = Some x -> p x = false.
Proof.
  revert i. induction l as [|y l IH]; intros i; simpl; [discriminate |].
  destruct (p y) eqn:E.
  - intros [= <-] j x Hj. lia.
  - destruct (Xml.find_index p l) as [i'|]; simpl; [| discriminate].
    intros [= <-] [|j] x Hj Hx; simpl in Hx.
    + injection Hx as <-. exact E.
    + apply (IH i' eq_refl j x); [lia | exact Hx].
Qed.

Lemma list_alter_is_insert {A} (f : A -> A) i l x :
  l !! i = Some x -> list_alter f i l = <[i := f x]> l.
Proof.
  revert i. induction l as [|y l IH]; intros [|i] H; simpl in *; try discriminate.
  - injection H as ->. reflexivity.
  - rewrite (IH i H). reflexivity.
Qed.

(** X15.  The hash update of lines 156-158 replaces the first [url] child of
    the paper, in document order, by the same node with its [hash] attribute
    set to the checksum: the other attributes of that node, and every other
    child of the paper, stay as they were. *)
Theorem hash_lands_on_the_first_url ck paper i :
  Xml.find_child "url" paper = Some i ->
  exists u,
    children paper !! i = Some u /\ tag u = "url"
    /\ (forall j x, (j < i)%nat -> children paper !! j = Some x -> tag x <> "url")
    /\ update_url_hash ck paper
       = Xml.set_children (<[i := Xml.set_attrib "hash" ck u]> (children paper)) paper
    /\ Xml.get "hash" (attrib (Xml.set_attrib "hash" ck u)) = Some ck
    /\ (forall k, k <> "hash" ->
        Xml.get k (attrib (Xml.set_attrib "hash" ck u)) = Xml.get k (attrib u))
    /\ text (Xml.set_attrib "hash" ck u) = text u
    /\ children (Xml.set_attrib "hash" ck u) = children u.
Proof.
  intros Hi. unfold Xml.find_child in Hi.
  destruct (find_index_Some _ _ _ Hi) as (u & Hu & Htag).
  exists u. split; [exact Hu |]. split; [apply String.eqb_eq, Htag |].
  split; [| split; [| split; [apply get_set_eq | split; [| split; reflexivity]]]].
  - intros j x Hj Hx E. pose proof (find_index_first _ _ _ Hi j x Hj Hx) as H.
    unfold Xml.has_tag in H. rewrite E in H. discriminate.
  - unfold update_url_hash, Xml.find_child. rewrite Hi.
    rewrite (list_alter_is_insert _ _ _ u Hu). reflexivity.
  - intros k Hk. apply get_set_ne. exact Hk.
Qed.

Lemma hash_lands_on_the_first_url_witness :
  update_url_hash "abc" (Sample.paper_1001 [Sample.entry "revision" "1"])
  = Elem "paper" [("id", "001")] None
      [Elem "title" [] (Some "A Paper") [];
       Elem "url" [("hash", "abc")] (Some "P18-1001") [];
       Sample.entry "revision" "1"].
Proof.
  destruct (hash_lands_on_the_first_url "abc" (Sample.paper_1001 [Sample.entry "revision" "1"])
              1%nat eq_refl) as (u & Hu & _ & _ & H & _).
  injection Hu as <-. exact H.
Defined.

Lemma paper_at_put_eq root pos paper paper' :
  Xml.paper_at root pos = Some paper ->
  Xml.paper_at (Xml.put_paper root pos paper') pos = Some paper'.
Proof.
  unfold Xml.paper_at, Xml.put_paper. destruct (children root !! pos.1) as [v|] eqn:Ev;
    [| discriminate].
  simpl. intros Hp. apply lookup_lt_Some in Ev as Hlt. apply lookup_lt_Some in Hp as Hlt'.
  rewrite list_lookup_insert_eq by exact Hlt. simpl.
  apply list_lookup_insert_eq. exact Hlt'.
Qed.

Lemma paper_at_put_ne root pos pos' paper' :
  pos' <> pos ->
  Xml.paper_at (Xml.put_paper root pos paper') pos' = Xml.paper_at root pos'.
Proof.
  intros Hne. unfold Xml.paper_at, Xml.put_paper.
  destruct (children root !! pos.1) as [v|] eqn:Ev; [| reflexivity]. simpl.
  destruct (decide (pos.1 = pos'.1)) as [E1 | N1].
  - rewrite <- E1. apply lookup_lt_Some in Ev as Hlt.
    rewrite list_lookup_insert_eq by exact Hlt. rewrite Ev. simpl.
    apply list_lookup_insert_ne. intros E2. apply Hne.
    destruct pos, pos'. simpl in *. congruence.
  - rewrite list_lookup_insert_ne by exact N1. reflexivity.
Qed.

Lemma update_url_hash_shell ck paper :
  tag (update_url_hash ck paper) = tag paper
  /\ attrib (update_url_hash ck paper) = attrib paper
  /\ text (update_url_hash ck paper) = text paper.
Proof.
  unfold update_url_hash. destruct (Xml.find_child "url" paper); repeat split.
Qed.

(** What [update_paper] returns: the paper with its own tag, attributes
    and text, and one or two nodes appended to the children the hash update
    left. *)
Lemma update_paper_appends env args od ck revno paper w r w' :
  update_paper env args od ck revno paper w = (Ret r, w') ->
  tag r.2 = tag paper /\ attrib r.2 = attrib paper /\ text r.2 = text paper
  /\ exists added,
       children r.2 = (children (update_url_hash ck paper) ++ added)%list
       /\ last added = Some r.1
       /\ (1 <= List.length added <= 2)%nat
       /\ (List.length added = 2%nat -> erratum args = false /\ revno = 2).
Proof.
  intros H. destruct (update_url_hash_shell ck paper) as (Ht & Ha & Hx).
  unfold update_paper in H. apply bind_inv_ret in H as (paper1 & w1 & Hboot & H).
  injection H as <- _.
  destruct (negb (erratum args) && (revno =? 2)) eqn:Eb.
  - apply bootstrap_inv in Hboot as [h ->].
    apply andb_prop in Eb as [He Hr]. apply negb_true_iff in He. apply Z.eqb_eq in Hr.
    repeat split; try assumption.
    eexists [_; _]. split; [| split; [reflexivity | split; [simpl; lia | auto]]].
    simpl. rewrite <- List.app_assoc. reflexivity.
  - injection Hboot as <- _. repeat split; try assumption.
    eexists [_]. split; [reflexivity | split; [reflexivity | split; [simpl; lia |]]].
    simpl. discriminate.
Qed.

(** X9.  A committing pass over the record that returns has rewritten the
    XML file, under the mode it had, with the serialisation of the indented
    tree in which the paper found by the path expression is replaced and
    every other paper is the one that was parsed; the new paper has the tag,
    attributes and text of the old one and its children after the hash
    update, followed by one or two appended nodes. *)
Theorem record_changes_one_paper env args od ck c v pid w revno w' :
  dry_run args = false ->
  update_xml env args od ck c v pid w = (Ret revno, w') ->
  exists xf root pos paper paper',
    files w !! xml_file env c = Some xf
    /\ xml_parse env (content xf) = Some root
    /\ Xml.locate v pid root = Some pos
    /\ Xml.paper_at root pos = Some paper
    /\ files w' !! xml_file env c
       = Some (mkFile (xml_write env (indent env (Xml.put_paper root pos paper'))) (mode xf))
    /\ Xml.paper_at (Xml.put_paper root pos paper') pos = Some paper'
    /\ (forall pos', pos' <> pos ->
        Xml.paper_at (Xml.put_paper root pos paper') pos' = Xml.paper_at root pos')
    /\ tag paper' = tag paper /\ attrib paper' = attrib paper /\ text paper' = text paper
    /\ exists added,
         children paper' = (children (update_url_hash ck paper) ++ added)%list
         /\ (1 <= List.length added <= 2)%nat.
Proof.
  intros Hd H. unfold update_xml in H.
  apply bind_inv_ret in H as (root & w1 & Hroot & H).
  assert (Hparse : exists xf, files w !! xml_file env c = Some xf
                              /\ xml_parse env (content xf) = Some root /\ w1 = w).
  { unfold et_parse, bind, get_world, expect in Hroot.
    destruct (files w !! xml_file env c) as [f|]; [| discriminate]. cbn in Hroot.
    destruct (xml_parse env (content f)) as [r|] eqn:Ep; [| discriminate]. cbn in Hroot.
    unfold ret in Hroot. exists f. repeat split; congruence. }
  destruct Hparse as (xf & Hxf & Hparse & ->).
  apply bind_inv_ret in H as (pos0 & w1 & Hpos & H).
  assert (pos0 = Xml.locate v pid root /\ w1 = w) as [-> ->].
  { unfold find_paper in Hpos. destruct (_ || _); [discriminate |].
    unfold ret in Hpos. split; congruence. }
  destruct (Xml.locate v pid root) as [pos|] eqn:Hloc; simpl in H;
    [| apply bind_inv_ret in H as ([] & w1 & _ & H); discriminate].
  destruct (Xml.paper_at root pos) as [paper|] eqn:Hpaper; simpl in H;
    [| apply bind_inv_ret in H as ([] & w1 & _ & H); discriminate].
  apply bind_inv_ret in H as (revno' & w1 & Hscan & H).
  destruct (scan_revno_pure (initial_revno args) (Xml.findall (change_type args) paper))
    as [o Ho].
  rewrite Ho in Hscan. injection Hscan as -> <-.
  apply bind_inv_ret in H as ([] & w2 & H & Hret). injection Hret as -> <-.
  rewrite Hd in H. simpl in H.
  apply bind_inv_ret in H as (updated & w3 & Hupd & H).
  apply bind_inv_ret in H as ([] & w4 & Hwrite & H).
  assert (Hkeep : files w3 !! xml_file env c = files w !! xml_file env c).
  { pose proof (update_paper_keeps env args (agree (xml_file env c) w)
                  (agree_print _ _) od ck revno paper) as Hk.
    assert (Hs : erratum args = false ->
                 stable_write (agree (xml_file env c) w) (versioned_path args od "1")).
    { intros _. apply agree_write. intros E. symmetry in E. revert E.
      apply xml_file_not_versioned. }
    specialize (Hk Hs w eq_refl). rewrite Hupd in Hk. apply Hk. }
  change (write_file env ?p ?b w3)
    with (Ret tt, mkWorld (<[p := mkFile b (default (creation_mode env)
                                              (mode <$> files w3 !! p))]> (files w3))
                    (dirs w3) (output w3)) in Hwrite.
  injection Hwrite as <-. unfold print in H. injection H as <-. cbn [files].
  destruct (update_paper_appends _ _ _ _ _ _ _ _ _ Hupd)
    as (Ht & Ha & Hx & added & Hch & _ & Hlen & _).
  exists xf, root, pos, paper, updated.2.
  split; [exact Hxf |]. split; [exact Hparse |]. split; [exact Hloc |].
  split; [exact Hpaper |].
  split; [rewrite lookup_insert_eq, Hkeep, Hxf; reflexivity |].
  split; [apply (paper_at_put_eq _ _ paper), Hpaper |].
  split; [intros pos' Hne; apply paper_at_put_ne, Hne |].
  split; [exact Ht |]. split; [exact Ha |]. split; [exact Hx |].
  exists added. split; assumption.
Qed.

Lemma record_changes_one_paper_witness :
  let w := Sample.world Sample.revised Sample.pdf_v2 true in
  exists paper',
    files (update_xml Sample.env Sample.revise Sample.out_dir "abc" "P18" "1" "001" w).2
      !! Sample.xml_path
    = Some (mkFile (Sample.write (Xml.put_paper Sample.revised (0%nat, 0%nat) paper'))
              mode_0644).
Proof.
  cbv zeta.
  set (w := Sample.world Sample.revised Sample.pdf_v2 true).
  assert (Hrun : update_xml Sample.env Sample.revise Sample.out_dir "abc" "P18" "1" "001" w
                 = (Ret 3, (update_xml Sample.env Sample.revise Sample.out_dir "abc"
                              "P18" "1" "001" w).2))
    by (apply returned; vm_compute; reflexivity).
  destruct (record_changes_one_paper Sample.env Sample.revise Sample.out_dir "abc"
              "P18" "1" "001" w 3 _ eq_refl Hrun)
    as (xf & root & pos & paper & paper' & Hxf & Hparse & Hloc & _ & Hfile & _).
  assert (Some xf = Some (mkFile (Sample.write Sample.revised) mode_0644)) as [= ->]
    by (rewrite <- Hxf; vm_compute; reflexivity).
  assert (Some root = Some Sample.revised) as [= ->]
    by (rewrite <- Hparse; vm_compute; reflexivity).
  assert (Some pos = Some (0%nat, 0%nat)) as [= ->]
    by (rewrite <- Hloc; vm_compute; reflexivity).
  exists paper'. exact Hfile.
Defined.

(** ** When the storage directory cannot be named *)

Lemma split_aux_without sep s cur :
  Py.contains sep s = false -> Py.split_aux sep s cur !! 1%nat = None.
Proof.
  revert cur. induction s as [|a s IH]; intros cur H; [reflexivity |].
  unfold Py.contains in H. simpl in H. apply orb_false_elim in H as [Ha Hs].
  simpl. rewrite Ascii.eqb_sym, Ha. apply IH. exact Hs.
Qed.

Lemma split_aux_with sep s cur :
  Py.contains sep s = true -> is_Some (Py.split_aux sep s cur !! 1%nat).
Proof.
  revert cur. induction s as [|a s IH]; intros cur H; [discriminate |].
  unfold Py.contains in H. simpl in H. simpl. rewrite Ascii.eqb_sym.
  destruct (Ascii.eqb sep a); simpl in *.
  - destruct s as [|b s]; simpl; [eauto |]. destruct (Ascii.eqb b sep); simpl; eauto.
    clear. generalize (String b ""). induction s as [|x s IHs]; intros acc; simpl; [eauto |].
    destruct (Ascii.eqb x sep); simpl; eauto.
  - apply IH. exact H.
Qed.

(** X13.  The storage directory is computed without touching the world, and
    the computation has one way to fail: the IndexError of the subscripts of
    lines 128 and 132, raised for a new-style identifier exactly when the
    collection has no dot, and for an old-style one exactly when the
    collection is empty. *)
Theorem storage_directory_failure env args c w :
  (select_output_dir env args c w = (Raise IndexError, w)
   <-> if is_newstyle_id env (anthology_id args)
       then Py.contains "." c = false else c = "")
  /\ (select_output_dir env args c w = (Raise IndexError, w)
      \/ exists od, select_output_dir env args c w = (Ret od, w)).
Proof.
  unfold select_output_dir. destruct (is_newstyle_id env (anthology_id args)).
  - unfold Py.split. destruct (Py.contains "." c) eqn:E.
    + destruct (split_aux_with "." c "" E) as [venue ->].
      split; [split; discriminate | right; eexists; reflexivity].
    + rewrite (split_aux_without "." c "" E). split; [split; reflexivity | left; reflexivity].
  - destruct c as [|a c]; simpl.
    + split; [split; reflexivity | left; reflexivity].
    + split; [split; discriminate | right; eexists; reflexivity].
Qed.

(** ** Flags on the command line *)

Lemma parse_from_flag (f : Args -> Args) :
  (forall a, f (with_erratum a) = with_erratum (f a)) ->
  (forall a, f (with_dry_run a) = with_dry_run (f a)) ->
  (forall d a, f (with_date d a) = with_date d (f a)) ->
  (forall d a, f (with_anthology_dir d a) = with_anthology_dir d (f a)) ->
  (forall i p e a, f (with_positionals i p e a) = with_positionals i p e (f a)) ->
  forall n argv a pos extras,
    (List.length argv <= n)%nat ->
    parse_from argv (f a) pos extras = on_namespace f (parse_from argv a pos extras).
Proof.
  intros He Hd Hdate Hdir Hpos.
  assert (Hend : forall a pos extras,
             parse_from [] (f a) pos extras = on_namespace f (parse_from [] a pos extras)).
  { intros a pos extras. simpl.
    destruct pos as [|e [|p [|i [|? ?]]]]; try reflexivity.
    destruct extras; [reflexivity |]. simpl. rewrite Hpos. reflexivity. }
  induction n as [|n IH]; intros argv a pos extras Hlen.
  - destruct argv; [apply Hend | simpl in Hlen; lia].
  - destruct argv as [|s rest]; [apply Hend |].
    simpl in Hlen. cbn [parse_from].
    destruct (bool_decide (s ∈ ["-h"; "--help"])); [reflexivity |].
    destruct (bool_decide (s ∈ ["--erratum"; "-e"])).
    { rewrite <- He. apply IH. lia. }
    destruct (bool_decide (s ∈ ["--dry-run"; "-n"])).
    { rewrite <- Hd. apply IH. lia. }
    destruct (bool_decide (s ∈ ["--date"; "-d"; "--anthology-dir"])).
    { destruct rest as [|x rest']; [reflexivity |].
      destruct (known_option x); [reflexivity |].
      destruct (option_like x); [reflexivity |].
      simpl in Hlen.
      destruct (String.eqb s "--anthology-dir");
        [rewrite <- Hdir | rewrite <- Hdate]; apply IH; lia. }
    destruct (unknown_long_option s); [apply IH; lia |].
    destruct (option_like s); [reflexivity |].
    apply IH. lia.
Qed.

(** X14.  Putting [--dry-run] or [-n] in front of a command line changes
    the outcome of the parse in one respect only: a namespace has its
    [dry_run] set, and a command line that was refused is refused in the same
    way.  The same holds of [--erratum] and [-e] for the field [erratum]. *)
Theorem leading_flag_sets_one_field env home argv :
  parse_args env home ("--dry-run" :: argv) = on_namespace with_dry_run (parse_args env home argv)
  /\ parse_args env home ("-n" :: argv) = on_namespace with_dry_run (parse_args env home argv)
  /\ parse_args env home ("--erratum" :: argv)
     = on_namespace with_erratum (parse_args env home argv)
  /\ parse_args env home ("-e" :: argv) = on_namespace with_erratum (parse_args env home argv).
Proof.
  assert (Hdry : forall a pos extras,
             parse_from argv (with_dry_run a) pos extras
             = on_namespace with_dry_run (parse_from argv a pos extras)).
  { intros a pos extras.
    apply (parse_from_flag with_dry_run) with (n := List.length argv);
      try reflexivity; lia. }
  assert (Herr : forall a pos extras,
             parse_from argv (with_erratum a) pos extras
             = on_namespace with_erratum (parse_from argv a pos extras)).
  { intros a pos extras.
    apply (parse_from_flag with_erratum) with (n := List.length argv);
      try reflexivity; lia. }
  unfold parse_args. repeat split; first [apply Hdry | apply Herr].
Qed.

(** ** A source that is the canonical file *)

(** A committing copy between two distinct paths, the second not a
    directory, returns. *)
Lemma maybe_copy_run args src dst w f :
  dry_run args = false -> dst ∉ dirs w -> src <> dst -> files w !! src = Some f ->
  exists w', maybe_copy args src dst w = (Ret tt, w').
Proof.
  intros Hd Hdir Hne Hf. unfold maybe_copy. rewrite Hd. simpl.
  unfold bind, print, shutil_copy, get_world, expect, os_chmod, set_files. cbn.
  rewrite (bool_decide_eq_false_2 (dst ∈ dirs w)) by exact Hdir.
  rewrite (bool_decide_eq_false_2 (src = dst)) by exact Hne. rewrite Hf. cbn.
  rewrite lookup_insert_eq. cbn. eexists. reflexivity.
Qed.

(** A committing copy of a path onto itself raises. *)
Lemma maybe_copy_same args src w :
  dry_run args = false -> src ∉ dirs w ->
  exists w', maybe_copy args src src w = (Raise SameFileError, w') /\ files w' = files w.
Proof.
  intros Hd Hdir. unfold maybe_copy. rewrite Hd. simpl.
  unfold bind, print, shutil_copy, get_world. cbn.
  rewrite (bool_decide_eq_false_2 (src ∈ dirs w)) by exact Hdir.
  rewrite (bool_decide_eq_true_2 (src = src)) by reflexivity.
  eexists. split; reflexivity.
Qed.

(** X16.  A committing revision whose input is the canonical file of the
    paper itself stops with the SameFileError of the second copy, after the
    record has been rewritten and the versioned copy stored: what the pass
    over the record wrote stays, the versioned file holds the bytes of the
    canonical file, and the canonical file is as it was. *)
Theorem revising_with_the_canonical_file_fails env args w p w1 f revno w2 :
  dry_run args = false -> erratum args = false ->
  prepare env args w = (Ret p, w1) ->
  input_file_path p = canonical_path args (output_dir p) ->
  files w1 !! canonical_path args (output_dir p) = Some f ->
  canonical_path args (output_dir p) ∉ dirs w1 ->
  versioned_path args (output_dir p) (Py.str revno) ∉ dirs w1 ->
  update_xml env args (output_dir p) (checksum p) (collection_id p) (volume_id p)
    (paper_id p) w1 = (Ret revno, w2) ->
  exists w3,
    main env args w = (Raise SameFileError, w3)
    /\ files w3 !! versioned_path args (output_dir p) (Py.str revno)
       = Some (mkFile (content f) mode_0644)
    /\ content <$> files w3 !! canonical_path args (output_dir p) = Some (content f)
    /\ files w3 !! xml_file env (collection_id p) = files w2 !! xml_file env (collection_id p).
Proof.
  intros Hd He Hprep Hin Hf Hcdir Hvdir Hxml.
  unfold main. rewrite (bind_ret _ _ _ _ _ Hprep), (bind_ret _ _ _ _ _ Hxml). rewrite Hin.
  remember (output_dir p) as od eqn:Eod in *.
  set (can := canonical_path args od) in *.
  set (vp := versioned_path args od (Py.str revno)) in *.
  assert (Hvc : can <> vp).
  { intros E. apply (versioned_not_canonical args od (Py.str revno)). symmetry. exact E. }
  assert (Hkeep : forall d, d ∉ dirs w1 -> holds can (content f) d w2).
  { intros d Hdir.
    pose proof (update_xml_keeps env args _ (holds_print can (content f) d) od (checksum p)
                  (collection_id p) (volume_id p) (paper_id p)) as Hk.
    assert (Hw : dry_run args = false ->
                 stable_write (holds can (content f) d) (xml_file env (collection_id p))
                 /\ (erratum args = false ->
                     stable_write (holds can (content f) d) (versioned_path args od "1"))).
    { intros _. split; [| intros _]; apply holds_write.
      - apply xml_file_not_canonical.
      - apply versioned_not_canonical. }
    assert (H1 : holds can (content f) d w1) by (split; [rewrite Hf; reflexivity | exact Hdir]).
    specialize (Hk Hw w1 H1). rewrite Hxml in Hk. apply Hk. }
  destruct (Hkeep can Hcdir) as [Hcan2 Hcdir2]. destruct (Hkeep vp Hvdir) as [_ Hvdir2].
  destruct (files w2 !! can) as [f2|] eqn:Hf2; [| discriminate]. injection Hcan2 as Hcan2.
  destruct (maybe_copy_run args can vp w2 f2 Hd Hvdir2 Hvc Hf2) as [w3 Hcopy].
  destruct (maybe_copy_commit args can vp w2 w3 f2 Hd Hvdir2 Hf2 Hcopy)
    as (_ & Hstored & Hother & Hdirs).
  assert (Hcdir3 : can ∉ dirs w3) by (rewrite Hdirs; exact Hcdir2).
  destruct (maybe_copy_same args can w3 Hd Hcdir3) as (w4 & Hsame & Hfiles).
  exists w4. split.
  - unfold copy_files. rewrite (bind_ret _ _ _ _ _ Hcopy). apply bind_raise.
    rewrite He. simpl. exact Hsame.
  - rewrite Hfiles. split; [rewrite Hstored, Hcan2; reflexivity |].
    split.
    + rewrite (Hother can Hvc), Hf2. simpl. rewrite Hcan2. reflexivity.
    + apply Hother. intros E. revert E. apply xml_file_not_versioned.
Qed.

Lemma revising_with_the_canonical_file_fails_witness :
  let args := mkArgs "P18-1001" Sample.canonical "Fixed a typo" false "2020-05-04" false
                "/home/anth/anthology-files" in
  let w := Sample.world Sample.fresh Sample.pdf_v2 true in
  exists w3,
    main Sample.env args w = (Raise SameFileError, w3)
    /\ files w3 !! (Sample.out_dir ++ "/P18-1001v2.pdf")
       = Some (mkFile Sample.pdf_v1 mode_0644).
Proof.
  cbv zeta.
  set (args := mkArgs "P18-1001" Sample.canonical "Fixed a typo" false "2020-05-04" false
                 "/home/anth/anthology-files").
  set (w := Sample.world Sample.fresh Sample.pdf_v2 true).
  set (p := mkPrepared Sample.canonical "P18" "1" "001" (Sample.digest Sample.pdf_v1)
              Sample.out_dir).
  assert (Hprep : prepare Sample.env args w = (Ret p, (prepare Sample.env args w).2))
    by (apply returned; vm_compute; reflexivity).
  assert (Hxml : update_xml Sample.env args Sample.out_dir (Sample.digest Sample.pdf_v1)
                   "P18" "1" "001" (prepare Sample.env args w).2
                 = (Ret 2, (update_xml Sample.env args Sample.out_dir
                              (Sample.digest Sample.pdf_v1) "P18" "1" "001"
                              (prepare Sample.env args w).2).2))
    by (apply returned; vm_compute; reflexivity).
  assert (Hf : files (prepare Sample.env args w).2 !! canonical_path args (output_dir p)
               = Some (mkFile Sample.pdf_v1 mode_0644)) by (vm_compute; reflexivity).
  assert (Hc : canonical_path args (output_dir p) ∉ dirs (prepare Sample.env args w).2)
    by (apply (bool_decide_eq_false_1 (_ ∈ _)); vm_compute; reflexivity).
  assert (Hv : versioned_path args (output_dir p) (Py.str 2)
               ∉ dirs (prepare Sample.env args w).2)
    by (apply (bool_decide_eq_false_1 (_ ∈ _)); vm_compute; reflexivity).
  destruct (revising_with_the_canonical_file_fails Sample.env args w p _ _ 2 _
              eq_refl eq_refl Hprep eq_refl Hf Hc Hv Hxml) as (w3 & Hrun & Hstored & _).
  exists w3. split; [exact Hrun | exact Hstored].
Defined.

(** ** A dry run from end to end *)

Lemma validate_accepts env who p w f mime ext :
  files w !! p = Some f ->
  filetype_guess env (content f) = Some (mime, ext) -> Py.endswith mime ext = true ->
  validate_file_type env who p w = (Ret tt, w).
Proof.
  intros Hf Hg He. unfold validate_file_type, read_file, bind, get_world, expect.
  rewrite Hf. cbn. rewrite Hg, He. reflexivity.
Qed.

Lemma no_file_among (w : World) (l : list string) :
  (forall d, d ∈ l -> files w !! d = None) ->
  existsb (fun d => bool_decide (is_Some (files w !! d))) l = false.
Proof.
  induction l as [|d l IH]; intros H; [reflexivity |]. simpl.
  rewrite (H d) by (left). rewrite IH by (intros x Hx; apply H; right; exact Hx).
  rewrite bool_decide_eq_false_2; [reflexivity |]. intros [x Hx]. discriminate.
Qed.

(** [prepare] on a local file of a valid type: the announcement, and the
    storage directory created, with the directories above it, when nothing
    is there under its name. *)
Lemma prepare_local env args w f mime ext c v pid od :
  is_remote args = false ->
  files w !! path args = Some f ->
  filetype_guess env (content f) = Some (mime, ext) -> Py.endswith mime ext = true ->
  deconstruct_anthology_id env (anthology_id args) = Some (c, v, pid) ->
  select_output_dir env args c w = (Ret od, w) ->
  (forall d, d ∈ OsPath.ancestors od -> files w !! d = None) ->
  prepare env args w
  = (Ret (mkPrepared (path args) c v pid (compute_hash env (content f)) od),
     if os_path_exists w od
     then mkWorld (files w) (dirs w)
            (output w ++ [(Stdout, "Processing " ++ change_type args ++ " to "
                                   ++ anthology_id args ++ "...")])
     else mkWorld (files w) (list_to_set (od :: OsPath.ancestors od) ∪ dirs w)
            (output w ++ [(Stdout, "Processing " ++ change_type args ++ " to "
                                   ++ anthology_id args ++ "...");
                          (Stderr, "-> Creating directory " ++ od)])).
Proof.
  intros Hr Hf Hg He Hparts Hod Habove. unfold prepare.
  set (w1 := mkWorld (files w) (dirs w)
               (output w ++ [(Stdout, "Processing " ++ change_type args ++ " to "
                                      ++ anthology_id args ++ "...")])).
  rewrite (bind_ret _ _ w tt w1) by reflexivity.
  rewrite (bind_ret _ _ w1 (path args) w1) by (unfold resolve_input; rewrite Hr; reflexivity).
  rewrite (bind_ret _ _ _ _ _ (validate_accepts env _ _ w1 f mime ext Hf Hg He)).
  rewrite Hparts.
  rewrite (bind_ret _ _ w1 (c, v, pid) w1) by reflexivity.
  rewrite (bind_ret _ _ w1 (content f) w1)
    by (unfold read_file, bind, get_world, expect; change (files w1) with (files w);
        rewrite Hf; reflexivity).
  cbn [fst snd].
  rewrite (bind_ret _ _ _ _ _ (select_output_dir_any env args c od w w1 Hod)).
  unfold ensure_directory, bind, get_world.
  change (os_path_exists w1 od) with (os_path_exists w od).
  destruct (os_path_exists w od) eqn:Eod; simpl; [reflexivity |].
  unfold print, os_makedirs, bind, get_world. cbn [fst snd].
  change (os_path_exists ?w' od) with (os_path_exists w od). rewrite Eod.
  cbn [files]. rewrite (no_file_among w _ Habove).
  unfold set_dirs, ret, w1. cbn. rewrite <- List.app_assoc. reflexivity.
Qed.

(** X17.  A dry run on a local file of a valid type, for a paper that the
    record holds and whose nodes of the kind carry integer identifiers, on a
    disk where no path above the storage directory is a regular file,
    returns normally.  It prints the announcement, the creation of the
    storage directory when nothing exists under that name, and one
    [DRY RUN] line for each copy a committing run would make, with the number
    the change would get.  No regular file changes; when nothing exists
    under the name of the storage directory, that directory and the
    directories above it are created. *)
Theorem dry_run_with_a_local_file env args w f mime ext c v pid od xf root pos paper ids :
  dry_run args = true -> is_remote args = false ->
  files w !! path args = Some f ->
  filetype_guess env (content f) = Some (mime, ext) -> Py.endswith mime ext = true ->
  deconstruct_anthology_id env (anthology_id args) = Some (c, v, pid) ->
  select_output_dir env args c w = (Ret od, w) ->
  (forall d, d ∈ OsPath.ancestors od -> files w !! d = None) ->
  files w !! xml_file env c = Some xf -> xml_parse env (content xf) = Some root ->
  Py.contains "'" v = false -> Py.contains "'" pid = false ->
  Xml.locate v pid root = Some pos -> Xml.paper_at root pos = Some paper ->
  ids_of (Xml.findall (change_type args) paper) = Some ids ->
  let revno := from_option (fun n => n + 1) (initial_revno args) (last ids) in
  main env args w
  = (Ret tt,
     mkWorld (files w)
       (if os_path_exists w od then dirs w
        else list_to_set (od :: OsPath.ancestors od) ∪ dirs w)
       (output w
        ++ [(Stdout, "Processing " ++ change_type args ++ " to " ++ anthology_id args ++ "...")]
        ++ (if os_path_exists w od then []
            else [(Stderr, "-> Creating directory " ++ od)])
        ++ [(Stderr, "-> DRY RUN: Copying from " ++ path args ++ " -> "
                     ++ versioned_path args od (Py.str revno))]
        ++ (if erratum args then []
            else [(Stderr, "-> DRY RUN: Copying from " ++ path args ++ " -> "
                           ++ canonical_path args od)]))).
Proof.
  intros Hd Hr Hf Hg He Hparts Hod Habove Hxf Hparse Hv Hpid Hloc Hpaper Hids revno.
  unfold main.
  rewrite (bind_ret _ _ _ _ _ (prepare_local env args w f mime ext c v pid od
                                 Hr Hf Hg He Hparts Hod Habove)).
  cbn [input_file_path output_dir checksum collection_id volume_id paper_id].
  set (w1 := if os_path_exists w od then _ else _).
  assert (Hfiles : files w1 = files w) by (unfold w1; destruct (os_path_exists w od); reflexivity).
  assert (Hxml : update_xml env args od (compute_hash env (content f)) c v pid w1
                 = (Ret revno, w1)).
  { unfold update_xml.
    rewrite (bind_ret _ _ _ _ _ (et_parse_run env _ w1 xf root
                                   ltac:(rewrite Hfiles; exact Hxf) Hparse)).
    rewrite (bind_ret _ _ _ _ _ (find_paper_run root v pid w1 _ Hv Hpid Hloc)).
    simpl. rewrite Hpaper. simpl.
    rewrite (bind_ret _ _ _ _ _ (scan_revno_last _ ids Hids (initial_revno args) w1)).
    rewrite Hd. reflexivity. }
  rewrite (bind_ret _ _ _ _ _ Hxml).
  unfold copy_files, maybe_copy. rewrite Hd, Hr. simpl.
  unfold bind, print, ret, w1. destruct (os_path_exists w od), (erratum args); cbn;
    rewrite <- ?List.app_assoc; reflexivity.
Qed.

Lemma dry_run_with_a_local_file_witness :
  let args := with_dry_run Sample.revise in
  let w := Sample.site Sample.revised Sample.pdf_v2 in
  main Sample.env args w
  = (Ret tt,
     mkWorld (files w)
       (list_to_set ["/home/anth/anthology-files"; "/home/anth/anthology-files/pdf";
                     "/home/anth/anthology-files/pdf/P"; Sample.out_dir] ∪ dirs w)
       [(Stdout, "Processing revision to P18-1001...");
        (Stderr, "-> Creating directory /home/anth/anthology-files/pdf/P/P18");
        (Stderr, "-> DRY RUN: Copying from new.pdf -> /home/anth/anthology-files/pdf/P/P18/P18-1001v3.pdf");
        (Stderr, "-> DRY RUN: Copying from new.pdf -> /home/anth/anthology-files/pdf/P/P18/P18-1001.pdf")]).
Proof.
  cbv zeta.
  rewrite (dry_run_with_a_local_file Sample.env (with_dry_run Sample.revise)
             (Sample.site Sample.revised Sample.pdf_v2)
             (mkFile Sample.pdf_v2 mode_0600) "application/pdf" "pdf" "P18" "1" "001"
             Sample.out_dir (mkFile (Sample.write Sample.revised) mode_0644) Sample.revised
             (0%nat, 0%nat)
             (Sample.paper_1001 [Sample.entry "revision" "1"; Sample.entry "revision" "2"])
             [1; 2]); try (vm_compute; reflexivity).
  intros d Hd. apply (not_elem_of_dom (D := gset string)).
  assert (Hall : forallb (fun x => negb (bool_decide
                                         (x ∈ dom (files (Sample.site Sample.revised
                                                            Sample.pdf_v2)))))
                   (OsPath.ancestors Sample.out_dir) = true) by (vm_compute; reflexivity).
  rewrite forallb_forall in Hall. apply list_elem_of_In in Hd.
  specialize (Hall d Hd). apply negb_true_iff, bool_decide_eq_false in Hall. exact Hall.
Defined.

(** * The canonical file, the record and the copies of a committing run *)

(** What a committing pass over the record that returns consists of *)
Lemma update_xml_commit env args od ck c v pid w revno w' :
  dry_run args = false ->
  update_xml env args od ck c v pid w = (Ret revno, w') ->
  exists xf root pos paper updated w3,
    files w !! xml_file env c = Some xf
    /\ xml_parse env (content xf) = Some root
    /\ Xml.locate v pid root = Some pos
    /\ Xml.paper_at root pos = Some paper
    /\ scan_revno (initial_revno args) (Xml.findall (change_type args) paper) w = (Ret revno, w)
    /\ update_paper env args od ck revno paper w = (Ret updated, w3)
    /\ files w'
       = <[xml_file env c :=
             mkFile (xml_write env (indent env (Xml.put_paper root pos updated.2)))
               (default (creation_mode env) (mode <$> files w3 !! xml_file env c))]>
           (files w3)
    /\ dirs w' = dirs w3.
Proof.
  intros Hd H. unfold update_xml in H.
  apply bind_inv_ret in H as (root & w1 & Hroot & H).
  assert (Hparse : exists xf, files w !! xml_file env c = Some xf
                              /\ xml_parse env (content xf) = Some root /\ w1 = w).
  { unfold et_parse, bind, get_world, expect in Hroot.
    destruct (files w !! xml_file env c) as [f|]; [| discriminate]. cbn in Hroot.
    destruct (xml_parse env (content f)) as [r|] eqn:Ep; [| discriminate]. cbn in Hroot.
    unfold ret in Hroot. exists f. repeat split; congruence. }
  destruct Hparse as (xf & Hxf & Hparse & ->).
  apply bind_inv_ret in H as (pos0 & w1 & Hpos & H).
  assert (pos0 = Xml.locate v pid root /\ w1 = w) as [-> ->].
  { unfold find_paper in Hpos. destruct (_ || _); [discriminate |].
    unfold ret in Hpos. split; congruence. }
  destruct (Xml.locate v pid root) as [pos|] eqn:Hloc; simpl in H;
    [| apply bind_inv_ret in H as ([] & w1 & _ & H); discriminate].
  destruct (Xml.paper_at root pos) as [paper|] eqn:Hpaper; simpl in H;
    [| apply bind_inv_ret in H as ([] & w1 & _ & H); discriminate].
  apply bind_inv_ret in H as (revno' & w1 & Hscan & H).
  destruct (scan_revno_pure (initial_revno args) (Xml.findall (change_type args) paper))
    as [o Ho].
  rewrite Ho in Hscan. injection Hscan as -> <-.
  apply bind_inv_ret in H as ([] & w2 & H & Hret). injection Hret as -> <-.
  rewrite Hd in H. simpl in H.
  apply bind_inv_ret in H as (updated & w3 & Hupd & H).
  apply bind_inv_ret in H as ([] & w4 & Hwrite & H).
  change (write_file env ?p ?b w3)
    with (Ret tt, mkWorld (<[p := mkFile b (default (creation_mode env)
                                              (mode <$> files w3 !! p))]> (files w3))
                    (dirs w3) (output w3)) in Hwrite.
  injection Hwrite as <-. unfold print in H. injection H as <-.
  exists xf, root, pos, paper, updated, w3.
  repeat (split; [first [assumption | apply Ho | reflexivity] |]). reflexivity.
Qed.

(** What [prepare] leaves alone *)
Lemma prepare_agree env args w p w1 q :
  prepare env args w = (Ret p, w1) ->
  (is_remote args = true -> q <> mkstemp_path env) ->
  files w1 !! q = files w !! q.
Proof.
  intros Hprep Hq.
  pose proof (prepare_keeps env args (agree q w) (agree_print q w)) as H.
  assert (H1 : is_remote args = true -> stable_write (agree q w) (mkstemp_path env)).
  { intros Hr. apply agree_write. intros E. apply (Hq Hr). symmetry. exact E. }
  specialize (H H1 (fun _ _ _ od _ _ => agree_mkdir q w od) w eq_refl).
  rewrite Hprep in H. apply H.
Qed.

(** A storage directory that is there is not created again. *)
Section Present.

Context (od : string) (w0 : World).

Lemma present_print : stable_print (present od w0).
Proof. intros w o H. exact H. Qed.

Lemma present_write p : stable_write (present od w0) p.
Proof.
  intros w f [H1 H2]. split; [exact H1 |]. unfold os_path_exists in *. cbn.
  apply orb_true_iff in H2 as [H2 | H2]; apply orb_true_iff; [left | right; exact H2].
  apply bool_decide_eq_true in H2. apply bool_decide_eq_true.
  destruct (decide (p = od)) as [-> | Hne];
    [rewrite lookup_insert_eq; eauto | rewrite lookup_insert_ne by exact Hne; exact H2].
Qed.

Lemma ensure_directory_present :
  hoare (present od w0) (ensure_directory od) (always (present od w0) anything).
Proof.
  intros w [H1 H2]. unfold ensure_directory, bind, get_world. cbn. rewrite H2. simpl.
  split; [split; assumption | intros; exact Logic.I].
Qed.

End Present.

Lemma prepare_present env args w0 c v pid od :
  deconstruct_anthology_id env (anthology_id args) = Some (c, v, pid) ->
  select_output_dir env args c w0 = (Ret od, w0) ->
  hoare (present od w0) (prepare env args) (always (present od w0) (prepared_by env args)).
Proof.
  intros Hparts Hod. pose proof (present_print od w0) as Hp. unfold prepare.
  eapply hoare_bind_always; [apply print_keeps; auto |]. intros _ _.
  eapply hoare_bind_always;
    [apply resolve_input_keeps; [exact Hp | intros _; apply present_write] |].
  intros input Hinput.
  eapply hoare_bind_always; [apply validate_file_type_keeps; auto |]. intros _ _.
  eapply hoare_bind_always; [apply hoare_expect_always |]. intros [[c' v'] pid'] Hparts'.
  eapply hoare_bind_always; [apply read_file_keeps |]. intros b _.
  eapply hoare_bind_always; [apply select_output_dir_keeps |]. intros od' Hod'.
  assert (od' = od) as ->.
  { rewrite Hparts in Hparts'. injection Hparts' as <- <- <-.
    specialize (Hod' w0). simpl in Hod'. rewrite Hod in Hod'. congruence. }
  eapply hoare_bind_always; [apply ensure_directory_present |]. intros _ _.
  apply hoare_ret_always. repeat split; assumption.
Qed.

Lemma main_keeps_dirs env args w c v pid od :
  deconstruct_anthology_id env (anthology_id args) = Some (c, v, pid) ->
  select_output_dir env args c w = (Ret od, w) ->
  os_path_exists w od = true ->
  dirs (main env args w).2 = dirs w.
Proof.
  intros Hparts Hod Hex.
  set (D := fun w' : World => dirs w' = dirs w).
  assert (HD : stable_print D) by (intros w' o H; exact H).
  assert (H : hoare (present od w) (main env args) (always D anything)).
  { unfold main. eapply hoare_bind_unless with (I := D) (R := prepared_by env args).
    - eapply hoare_weaken; [apply (prepare_present env args w c v pid od Hparts Hod) | auto |].
      intros o w' [[H1 _] H2]. split; [exact H1 | exact H2].
    - intros p _. eapply hoare_bind_always.
      + apply update_xml_keeps; [exact HD |]. intros _.
        split; [| intros _]; intros w' f H; exact H.
      + intros revno _. apply copy_files_keeps; [exact HD | |].
        * intros _. split; [| intros _];
            (split; [| split]; [intros w' f H _ _; exact H | intros w' f H _ _; exact H
                               | intros w' f m H _; exact H]).
        * intros _ w' H. exact H.
    - intros c0 w' H. split; [exact H | discriminate].
    - intros e w' H. split; [exact H | discriminate]. }
  apply (H w). split; [reflexivity | exact Hex].
Qed.

(** C6, as stated, fails twice.  An erratum on a disk where the archive has
    not been started creates, besides the versioned copy and the entry in
    the record, the storage directory and the three directories above it.
    And a revision whose input is the [v1] file of the paper does not leave
    the bytes of the input in the canonical file: the bootstrap downloads
    the original over the input before the copies are made. *)
Lemma commit_run_beyond_the_claim :
  let erratum_args := with_erratum Sample.revise in
  let w := Sample.site Sample.revised Sample.pdf_v2 in
  let r := main Sample.env erratum_args w in
  let created :=
    ["/home/anth/anthology-files"; "/home/anth/anthology-files/pdf";
     "/home/anth/anthology-files/pdf/P"; Sample.out_dir] in
  let v1 := Sample.out_dir ++ "/P18-1001v1.pdf" in
  let revise_v1 :=
    mkArgs "P18-1001" v1 "Fixed a typo" false "2020-05-04" false
           "/home/anth/anthology-files" in
  let w' :=
    mkWorld (<[v1 := mkFile Sample.pdf_v2 mode_0644]>
               (files (Sample.archive Sample.fresh Sample.pdf_v2)))
      (dirs (Sample.archive Sample.fresh Sample.pdf_v2)) [] in
  let r' := main Sample.env revise_v1 w' in
  (erratum erratum_args = true /\ dry_run erratum_args = false
   /\ possible w = true
   /\ forallb (fun d => negb (os_path_exists w d)) created = true
   /\ r.1 = Ret tt
   /\ dirs r.2 = list_to_set created ∪ dirs w)
  /\ (erratum revise_v1 = false /\ dry_run revise_v1 = false
      /\ possible w' = true
      /\ content <$> files w' !! path revise_v1 = Some Sample.pdf_v2
      /\ r'.1 = Ret tt
      /\ content <$> files r'.2 !! Sample.canonical = Some Sample.pdf_v1
      /\ Sample.pdf_v1 <> Sample.pdf_v2).
Proof.
  cbv zeta. repeat split; try (vm_compute; reflexivity).
  vm_compute. discriminate.
Qed.

(** C6, amended.  A committing run whose identifier decomposes and whose storage
    directory is [od].  When something exists under the name of the storage
    directory, the run creates and removes no directory, however it ends.

    For an erratum the run, however it ends, leaves the canonical file as it
    was, and every other file too except the record of the collection, the
    scratch file of a download and names that extend the stem of the paper
    by the letter [e].  When it returns, it has created two things: the XML
    entry, the record being rewritten with the paper of the identifier
    followed by one more node, the erratum with its number, reference,
    checksum, date and explanation; and the versioned copy, which holds the
    bytes of the input with the mode 0o644.  Every other path holds what it
    held before the run, and the scratch file of a download is gone.

    For a revision that returns, the canonical file has the bytes that the
    input file, local or downloaded, had when [prepare] was done with it.

    The input is to be another file than the record and, for a revision,
    than the [v1] file of the bootstrap. *)
Theorem erratum_spares_canonical_file env args w c v pid od :
  dry_run args = false ->
  deconstruct_anthology_id env (anthology_id args) = Some (c, v, pid) ->
  select_output_dir env args c w = (Ret od, w) ->
  (os_path_exists w od = true -> dirs (main env args w).2 = dirs w)
  /\ (erratum args = true ->
      ((is_remote args = true -> mkstemp_path env <> canonical_path args od) ->
       files (main env args w).2 !! canonical_path args od
       = files w !! canonical_path args od)
      /\ (forall q,
            q <> xml_file env c ->
            (is_remote args = true -> q <> mkstemp_path env) ->
            Py.startswith q (stem args od ++ "e") = false ->
            files (main env args w).2 !! q = files w !! q)
      /\ forall p w1 f w',
           prepare env args w = (Ret p, w1) ->
           files w1 !! input_file_path p = Some f ->
           file_id env (input_file_path p) <> file_id env (xml_file env c) ->
           (forall d, d ∈ dirs w1 -> Py.startswith d (stem args od ++ "e") = false) ->
           main env args w = (Ret tt, w') ->
           exists xf root pos paper revno,
             files w !! xml_file env c = Some xf
             /\ xml_parse env (content xf) = Some root
             /\ Xml.locate v pid root = Some pos
             /\ Xml.paper_at root pos = Some paper
             /\ scan_revno 1 (Xml.findall "erratum" paper) w = (Ret revno, w)
             /\ files w' !! xml_file env c
                = Some (mkFile
                          (xml_write env
                             (indent env
                                (Xml.put_paper root pos
                                   (Xml.set_children
                                      (children (update_url_hash (checksum p) paper)
                                       ++ [Elem "erratum"
                                             [("id", Py.str revno);
                                              ("href", anthology_id args ++ "e"
                                                       ++ Py.str revno);
                                              ("hash", checksum p);
                                              ("date", date args)]
                                             (Some (explanation args)) []])
                                      paper))))
                          (mode xf))
             /\ files w' !! versioned_path args od (Py.str revno)
                = Some (mkFile (content f) mode_0644)
             /\ (forall q,
                   q <> xml_file env c ->
                   q <> versioned_path args od (Py.str revno) ->
                   (is_remote args = true -> q <> mkstemp_path env) ->
                   files w' !! q = files w !! q)
             /\ (is_remote args = true -> files w' !! mkstemp_path env = None))
  /\ (erratum args = false ->
      forall p w1 f w',
        prepare env args w = (Ret p, w1) ->
        files w1 !! input_file_path p = Some f ->
        file_id env (input_file_path p) <> file_id env (xml_file env c) ->
        file_id env (input_file_path p) <> file_id env (versioned_path args od "1") ->
        canonical_path args od ∉ dirs w1 ->
        main env args w = (Ret tt, w') ->
        content <$> files w' !! canonical_path args od = Some (content f)).
Proof.
  intros Hd Hparts Hod.
  assert (Hsame : forall c' v' pid' od',
             deconstruct_anthology_id env (anthology_id args) = Some (c', v', pid') ->
             (forall w, select_output_dir env args c' w = (Ret od', w)) ->
             c' = c /\ od' = od).
  { intros c' v' pid' od' Hp' Ho'. rewrite Hparts in Hp'. injection Hp' as -> -> ->.
    split; [reflexivity |]. specialize (Ho' w). rewrite Hod in Ho'. congruence. }
  split; [| split].
  - apply (main_keeps_dirs env args w c v pid od Hparts Hod).
  - intros He.
    assert (Hframe : forall q,
               q <> xml_file env c ->
               (is_remote args = true -> q <> mkstemp_path env) ->
               Py.startswith q (stem args od ++ "e") = false ->
               files (main env args w).2 !! q = files w !! q).
    { intros q Hx Ht Hs. apply (main_agree env args q w); [| | reflexivity].
      - intros Hr E. apply (Ht Hr). symmetry. exact E.
      - intros _ c' v' pid' od' Hp' Ho'. destruct (Hsame _ _ _ _ Hp' Ho') as [-> ->].
        unfold change_letter. rewrite He.
        split; [congruence |]. split; [exact Hs |]. discriminate. }
    split; [| split; [exact Hframe |]].
    { intros Htmp. apply Hframe.
      + intros E. symmetry in E. revert E. apply xml_file_not_canonical.
      + intros Hr E. apply (Htmp Hr). symmetry. exact E.
      + pose proof (canonical_starts args od) as Hs. unfold change_letter in Hs.
        rewrite He in Hs. exact Hs. }
    intros p w1 f w' Hprep Hf Hid Hvdir Hrun.
    destruct (prepare_returns env args w p w1 Hprep) as (Hin & Hp' & Ho').
    destruct (Hsame _ _ _ _ Hp' Ho') as [Hc' Ho''].
    assert (Hv' : volume_id p = v /\ paper_id p = pid).
    { rewrite Hparts in Hp'. injection Hp' as _ <- <-. split; reflexivity. }
    destruct Hv' as [Hv' Hpid'].
    assert (Hx : input_file_path p <> xml_file env c)
      by (intros E; apply Hid; rewrite E; reflexivity).
    unfold main in Hrun. rewrite (bind_ret _ _ _ _ _ Hprep) in Hrun.
    rewrite Hc', Ho'', Hv', Hpid' in Hrun.
    remember (input_file_path p) as src eqn:Esrc in *.
    remember (checksum p) as ck eqn:Eck in *.
    apply bind_inv_ret in Hrun as (revno & w2 & Hxml & Hrun).
    destruct (update_xml_commit env args od ck c v pid w1 revno w2 Hd Hxml)
      as (xf & root & pos & paper & updated & w3 & Hxf & Hparse & Hloc & Hpaper & Hscan
          & Hupd & Hfiles2 & Hdirs2).
    assert (Hpure : updated = new_entry args ck revno (update_url_hash ck paper) /\ w3 = w1).
    { unfold update_paper in Hupd. rewrite He in Hupd. simpl in Hupd.
      unfold bind, ret in Hupd. split; congruence. }
    destruct Hpure as [-> ->].
    assert (Htmp : is_remote args = true -> xml_file env c <> mkstemp_path env).
    { intros Hr E. apply Hx. rewrite Hin, Hr. symmetry. exact E. }
    pose proof (prepare_agree env args w p w1 (xml_file env c) Hprep Htmp) as Hxml1.
    unfold copy_files in Hrun. rewrite He in Hrun. simpl in Hrun.
    apply bind_inv_ret in Hrun as ([] & w4 & Hcopy & Hrun).
    apply bind_inv_ret in Hrun as ([] & w5 & Hnone & Hrun). injection Hnone as <-.
    set (vp := versioned_path args od (Py.str revno)) in *.
    assert (Hsrc2 : files w2 !! src = Some f).
    { rewrite Hfiles2, lookup_insert_ne by (intros E; apply Hx; symmetry; exact E).
      exact Hf. }
    assert (Hvdir2 : vp ∉ dirs w2).
    { rewrite Hdirs2. intros Hin'. apply Hvdir in Hin'.
      pose proof (versioned_starts args od (Py.str revno)) as Hs.
      unfold change_letter in Hs. rewrite He in Hs. fold vp in Hs. congruence. }
    destruct (maybe_copy_commit args src vp w2 w4 f Hd Hvdir2 Hsrc2 Hcopy)
      as (Hne & Hstored & Hother & _).
    assert (Hxv : xml_file env c <> vp) by apply xml_file_not_versioned.
    assert (Hfinal : forall q, (is_remote args = true -> q <> mkstemp_path env) ->
                       files w' !! q = files w4 !! q).
    { intros q Hq. destruct (is_remote args) eqn:Hr.
      - apply (os_remove_result _ _ _ Hrun). rewrite Hin. apply Hq. reflexivity.
      - injection Hrun as <-. reflexivity. }
    exists xf, root, pos, paper, revno.
    split; [rewrite <- Hxml1; exact Hxf |]. split; [exact Hparse |].
    split; [exact Hloc |]. split; [exact Hpaper |].
    split.
    { unfold initial_revno, change_type in Hscan. rewrite He in Hscan.
      apply (scan_revno_any _ _ w1 w _ Hscan). }
    split.
    { rewrite (Hfinal _ Htmp), (Hother _ Hxv), Hfiles2, lookup_insert_eq, Hxf. simpl.
      destruct (update_url_hash_shell ck paper) as (Ht & Ha & Htx).
      unfold new_entry, make_simple_element, change_type, change_letter. rewrite He.
      unfold Xml.set_children. simpl. rewrite Ht, Ha, Htx. reflexivity. }
    split.
    { rewrite Hfinal; [exact Hstored |]. intros Hr E. apply Hne. rewrite Hin, Hr.
      symmetry. exact E. }
    split.
    { intros q Hqx Hqv Hqt. rewrite (Hfinal q Hqt), (Hother q Hqv), Hfiles2.
      rewrite lookup_insert_ne by (intros E; apply Hqx; symmetry; exact E).
      apply (prepare_agree env args w p w1 q Hprep Hqt). }
    intros Hr. rewrite Hr in Hrun. rewrite Hin, Hr in Hrun.
    apply (os_remove_gone _ _ _ Hrun).
  - intros He p w1 f w' Hprep Hf Hidx Hidv Hdir Hrun.
    assert (Hx : input_file_path p <> xml_file env c)
      by (intros E; apply Hidx; rewrite E; reflexivity).
    assert (Hv1 : input_file_path p <> versioned_path args od "1")
      by (intros E; apply Hidv; rewrite E; reflexivity).
    destruct (prepare_returns env args w p w1 Hprep) as (_ & Hp' & Ho').
    destruct (Hsame _ _ _ _ Hp' Ho') as [Hc' Ho''].
    unfold main in Hrun. rewrite (bind_ret _ _ _ _ _ Hprep) in Hrun.
    rewrite Hc', Ho'' in Hrun.
    remember (input_file_path p) as src eqn:Esrc in *.
    set (can := canonical_path args od) in *.
    pose proof (holds_print src (content f) can) as Hp.
    assert (H1 : holds src (content f) can w1).
    { split; [rewrite Hf; reflexivity | exact Hdir]. }
    apply bind_inv_ret in Hrun as (revno & w2 & Hxml & Hrun).
    assert (H2 : holds src (content f) can w2).
    { pose proof (update_xml_keeps env args _ Hp od (checksum p) c (volume_id p) (paper_id p))
        as Hk.
      assert (Hw : dry_run args = false ->
                   stable_write (holds src (content f) can) (xml_file env c)
                   /\ (erratum args = false ->
                       stable_write (holds src (content f) can) (versioned_path args od "1"))).
      { intros _. split; [| intros _]; apply holds_write; congruence. }
      specialize (Hk Hw w1 H1). rewrite Hxml in Hk. apply Hk. }
    unfold copy_files in Hrun. rewrite He in Hrun. simpl in Hrun.
    apply bind_inv_ret in Hrun as ([] & w3 & Hcopy1 & Hrun).
    apply bind_inv_ret in Hrun as ([] & w4 & Hcopy2 & Hrun).
    assert (H3 : holds src (content f) can w3).
    { pose proof (maybe_copy_keeps args _ Hp src (versioned_path args od (Py.str revno)))
        as Hk.
      assert (Hs : dry_run args = false ->
                   stable_copy (holds src (content f) can) src
                     (versioned_path args od (Py.str revno))
                   /\ stable_copy (holds src (content f) can) src
                        (OsPath.join (versioned_path args od (Py.str revno))
                           [OsPath.basename src])
                   /\ stable_chmod (holds src (content f) can)
                        (versioned_path args od (Py.str revno))).
      { intros _. split; [apply holds_copy | split; [apply holds_copy | apply holds_chmod]]. }
      specialize (Hk Hs w2 H2). rewrite Hcopy1 in Hk. apply Hk. }
    destruct H3 as [Hsrc Hcan].
    destruct (files w3 !! src) as [f3|] eqn:Hf3; [| discriminate].
    injection Hsrc as Hsrc.
    destruct (maybe_copy_result args src can w3 w4 f3 Hd Hcan Hf3 Hcopy2) as [Hne Hres].
    rewrite Hsrc in Hres.
    destruct (is_remote args).
    + rewrite (os_remove_result _ _ _ Hrun) by congruence. exact Hres.
    + injection Hrun as <-. exact Hres.
Qed.

Lemma erratum_spares_canonical_file_witness :
  let erratum_args := with_erratum Sample.revise in
  let remote_args :=
    mkArgs "P18-1001" "https://example.org/new.pdf" "Fixed a typo" false "2020-05-04" false
           "/home/anth/anthology-files" in
  let w1 := Sample.archive Sample.revised Sample.pdf_v2 in
  let w2 := Sample.archive Sample.fresh [] in
  let paper' :=
    Elem "paper" [("id", "001")] None
      [Elem "title" [] (Some "A Paper") [];
       Elem "url" [("hash", Sample.digest Sample.pdf_v2)] (Some "P18-1001") [];
       Sample.entry "revision" "1"; Sample.entry "revision" "2";
       Elem "erratum" [("id", "1"); ("href", "P18-1001e1");
                       ("hash", Sample.digest Sample.pdf_v2); ("date", "2020-05-04")]
         (Some "Fixed a typo") []] in
  (dirs (main Sample.env erratum_args w1).2 = dirs w1
   /\ files (main Sample.env erratum_args w1).2 !! Sample.canonical
      = files w1 !! Sample.canonical
   /\ files (main Sample.env erratum_args w1).2 !! Sample.xml_path
      = Some (mkFile (Sample.write (Sample.collection [paper'])) mode_0644)
   /\ files (main Sample.env erratum_args w1).2 !! (Sample.out_dir ++ "/P18-1001e1.pdf")
      = Some (mkFile Sample.pdf_v2 mode_0644))
  /\ content <$> files (main Sample.env remote_args w2).2 !! Sample.canonical
     = Some Sample.pdf_v2.
Proof.
  cbv zeta. split.
  - set (args := with_erratum Sample.revise).
    set (w := Sample.archive Sample.revised Sample.pdf_v2).
    destruct (erratum_spares_canonical_file Sample.env args w
                "P18" "1" "001" Sample.out_dir eq_refl eq_refl eq_refl)
      as (Hdirs & H & _).
    destruct (H eq_refl) as (Hcan & _ & Hret).
    split; [apply Hdirs; vm_compute; reflexivity |].
    split; [apply Hcan; discriminate |].
    assert (Hrun : main Sample.env args w = (Ret tt, (main Sample.env args w).2))
      by (apply returned; vm_compute; reflexivity).
    assert (Hprep : prepare Sample.env args w
                    = (Ret (mkPrepared "new.pdf" "P18" "1" "001"
                              (Sample.digest Sample.pdf_v2) Sample.out_dir),
                       (prepare Sample.env args w).2))
      by (apply returned; vm_compute; reflexivity).
    assert (Hnodir : forall d,
               d ∈ dirs (prepare Sample.env args w).2 ->
               Py.startswith d (stem args Sample.out_dir ++ "e") = false).
    { intros d Hin.
      assert (Hall : forallb (fun d => negb (Py.startswith d (stem args Sample.out_dir ++ "e")))
                       (elements (dirs (prepare Sample.env args w).2)) = true)
        by (vm_compute; reflexivity).
      rewrite forallb_forall in Hall. apply elem_of_elements, list_elem_of_In in Hin.
      apply negb_true_iff, Hall, Hin. }
    destruct (Hret _ _ (mkFile Sample.pdf_v2 mode_0600) (main Sample.env args w).2 Hprep)
      as (xf & root & pos & paper & revno & Hxf & Hparse & Hloc & Hpaper & Hscan
          & Hxml & Hv & _);
      [vm_compute; reflexivity | discriminate | exact Hnodir | exact Hrun |].
    assert (Some xf = Some (mkFile (Sample.write Sample.revised) mode_0644)) as [= ->]
      by (rewrite <- Hxf; vm_compute; reflexivity).
    assert (Some root = Some Sample.revised) as [= ->]
      by (rewrite <- Hparse; vm_compute; reflexivity).
    assert (Some pos = Some (0%nat, 0%nat)) as [= ->]
      by (rewrite <- Hloc; vm_compute; reflexivity).
    assert (Some paper
            = Some (Sample.paper_1001 [Sample.entry "revision" "1";
                                       Sample.entry "revision" "2"])) as [= ->]
      by (rewrite <- Hpaper; vm_compute; reflexivity).
    assert (revno = 1) as ->.
    { assert (E : scan_revno 1
                    (Xml.findall "erratum"
                       (Sample.paper_1001 [Sample.entry "revision" "1";
                                           Sample.entry "revision" "2"])) w = (Ret 1, w))
        by (vm_compute; reflexivity).
      rewrite E in Hscan. congruence. }
    split; [etransitivity; [exact Hxml | vm_compute; reflexivity] |].
    etransitivity; [exact Hv | reflexivity].
  - set (args := mkArgs "P18-1001" "https://example.org/new.pdf" "Fixed a typo" false
                   "2020-05-04" false "/home/anth/anthology-files").
    set (w := Sample.archive Sample.fresh []).
    destruct (erratum_spares_canonical_file Sample.env args w
                "P18" "1" "001" Sample.out_dir eq_refl eq_refl eq_refl) as (_ & _ & H).
    apply (H eq_refl
             (mkPrepared "/tmp/tmpk3x9" "P18" "1" "001" (Sample.digest Sample.pdf_v2)
                Sample.out_dir)
             (prepare Sample.env args w).2 (mkFile Sample.pdf_v2 mode_0600)).
    + apply returned. vm_compute. reflexivity.
    + vm_compute. reflexivity.
    + discriminate.
    + discriminate.
    + apply (bool_decide_eq_false_1 (_ ∈ _)). vm_compute. reflexivity.
    + apply returned. vm_compute. reflexivity.
Defined.
